(** * Telegram group manager bot: moderation pipeline, escalation ladder and
    alert scheduler

  A shallow embedding of the three TypeScript modules of the bot
  (the bot event handlers, [db] and [openai]) and the properties of their
  moderation and scheduling logic.

  Conventions of the embedding.
  - JavaScript numbers that hold identifiers, counters and epoch
    milliseconds are integers well below 2^53, where IEEE doubles are
    exact; they are modelled as [Z].
  - An optional or possibly non-conforming JavaScript value is an
    [option]: [None] stands for [undefined], [null] or a value of the
    wrong type.
  - Every call to an external collaborator (the MongoDB driver, the
    Telegram API, the OpenAI API, the file system, [sharp]) takes its
    outcome from an explicit environment, so that each [try]/[catch] of
    the source has both of its paths in the model.
  - Strings are sequences of 8-bit characters; case conversion and
    whitespace follow JavaScript on the ASCII range. *)

From Stdlib Require Import ZArith Lia Bool List Ascii String.
From Stdlib.Strings Require Import Byte.
From stdpp Require Import base option list gmap strings.
Import ListNotations.

Local Open Scope Z_scope.
Local Open Scope string_scope.
Local Open Scope list_scope.

(* ===================================================================== *)
(** * Part I. The model                                                   *)
(* ===================================================================== *)

(** ** JavaScript string primitives used by the bot *)

Module Js.

Definition code (c : ascii) : N := N_of_ascii c.

Definition inRange (lo hi : N) (c : ascii) : bool :=
  (N.leb lo (code c) && N.leb (code c) hi)%bool.

Definition isUpperChar (c : ascii) : bool := inRange 65 90 c.
Definition isLowerChar (c : ascii) : bool := inRange 97 122 c.
Definition isDigitChar (c : ascii) : bool := inRange 48 57 c.

Definition toLowerChar (c : ascii) : ascii :=
  if isUpperChar c then ascii_of_N (code c + 32) else c.

Definition toUpperChar (c : ascii) : ascii :=
  if isLowerChar c then ascii_of_N (code c - 32) else c.

Fixpoint mapChars (f : ascii -> ascii) (s : string) : string :=
  match s with
  | EmptyString => EmptyString
  | String c s' => String (f c) (mapChars f s')
  end.

(** [String.prototype.toLowerCase] and [toUpperCase] on strings of
    ASCII characters (codes below 128), where the host's mapping moves
    [A-Z] and [a-z] and nothing else.  Outside that range the host
    follows the Unicode tables, which this model does not hold: a
    statement that depends on them is made for ASCII strings ([isAscii]
    below). *)
Definition toLowerCase : string -> string := mapChars toLowerChar.
Definition toUpperCase : string -> string := mapChars toUpperChar.

(** White space and line terminators removed by [trim] as far as the
    ASCII range holds them: TAB, LF, VT, FF, CR and SPACE.  The host
    also removes the Unicode spaces (U+00A0, U+FEFF, U+2028, ...), which
    an ASCII string does not contain. *)
Definition isWhiteSpace (c : ascii) : bool :=
  (inRange 9 13 c || N.eqb (code c) 32)%bool.

Fixpoint trimStart (s : string) : string :=
  match s with
  | EmptyString => EmptyString
  | String c s' => if isWhiteSpace c then trimStart s' else s
  end.

Definition isEmpty (s : string) : bool :=
  match s with EmptyString => true | String _ _ => false end.

Fixpoint trimEnd (s : string) : string :=
  match s with
  | EmptyString => EmptyString
  | String c s' =>
      let r := trimEnd s' in
      if (isWhiteSpace c && isEmpty r)%bool then EmptyString else String c r
  end.

(** [String.prototype.trim] on strings of ASCII characters. *)
Definition trim (s : string) : string := trimEnd (trimStart s).

(** [s.startsWith(p)]. *)
Fixpoint startsWith (p s : string) : bool :=
  match p, s with
  | EmptyString, _ => true
  | String a p', String b s' => (Ascii.eqb a b && startsWith p' s')%bool
  | String _ _, EmptyString => false
  end.

(** [s.includes(sub)]. *)
Fixpoint includes (s sub : string) : bool :=
  (startsWith sub s ||
   match s with
   | EmptyString => false
   | String _ s' => includes s' sub
   end)%bool.

(** [l.join(sep)]. *)
Fixpoint join (sep : string) (l : list string) : string :=
  match l with
  | [] => EmptyString
  | [x] => x
  | x :: l' => x +:+ sep +:+ join sep l'
  end.

(** [s.split(sep)] for a one-character separator. *)
Fixpoint split (sep : ascii) (s : string) : list string :=
  match s with
  | EmptyString => [EmptyString]
  | String c s' =>
      if Ascii.eqb c sep then EmptyString :: split sep s'
      else match split sep s' with
           | [] => [String c EmptyString]
           | x :: l => String c x :: l
           end
  end.

(** Truthiness of a number ([if (chatId)], [!userId]). *)
Definition truthyNum (n : Z) : bool := negb (Z.eqb n 0).

(** Truthiness of an optional number ([chatId?: number]). *)
Definition truthyOptNum (n : option Z) : bool :=
  match n with Some k => truthyNum k | None => false end.



End Js.

(** ** The regular expression [new RegExp(`\\b${word}\\b`, 'i')] *)

Module RegExp.
Import Js.

(** The compiled object is used through [test] only. *)
Definition Test : Type := string -> bool.

(** [SyntaxCharacter] of the pattern grammar: a word containing one of
    these is not matched literally. *)
Definition isSyntaxChar (c : ascii) : bool :=
  existsb (Ascii.eqb c)
    ["^"; "$"; "\"; "."; "*"; "+"; "?"; "("; ")"; "["; "]"; "{"; "}"; "|"]%char.

Fixpoint isLiteral (w : string) : bool :=
  match w with
  | EmptyString => true
  | String c w' => (negb (isSyntaxChar c) && isLiteral w')%bool
  end.

(** [\w] without the [u] flag: [A-Za-z0-9_]. *)
Definition isWordChar (c : ascii) : bool :=
  (isUpperChar c || isLowerChar c || isDigitChar c || N.eqb (code c) 95)%bool.

Definition isWordAt (o : option ascii) : bool :=
  match o with Some c => isWordChar c | None => false end.

(** The assertion [\b] between the character before the position and
    the character after it ([None] outside the input). *)
Definition atBoundary (prev next : option ascii) : bool :=
  xorb (isWordAt prev) (isWordAt next).

Definition headChar (s : string) : option ascii :=
  match s with EmptyString => None | String c _ => Some c end.

(** Pattern characters compare through [Canonicalize] under the [i]
    flag, which is [toUpperCase] on one character; as [toUpperChar],
    this is the host's comparison for ASCII characters. *)
Definition canonEqb (a b : ascii) : bool :=
  Ascii.eqb (toUpperChar a) (toUpperChar b).

(** Match the literal characters [w] at the head of [t]; the result is
    the last input character consumed (or [prev]) and the rest. *)
Fixpoint matchLiteral (prev : option ascii) (w t : string)
  : option (option ascii * string) :=
  match w with
  | EmptyString => Some (prev, t)
  | String a w' =>
      match t with
      | EmptyString => None
      | String b t' =>
          if canonEqb a b then matchLiteral (Some b) w' t' else None
      end
  end.

Definition matchAt (prev : option ascii) (w t : string) : bool :=
  (atBoundary prev (headChar t) &&
   match matchLiteral prev w t with
   | Some (p, rest) => atBoundary p (headChar rest)
   | None => false
   end)%bool.

(** [test] tries every start position from left to right. *)
Fixpoint searchFrom (prev : option ascii) (w t : string) : bool :=
  (matchAt prev w t ||
   match t with
   | EmptyString => false
   | String c t' => searchFrom (Some c) w t'
   end)%bool.

Definition testLiteral (w : string) : Test := searchFrom None w.

(** The constructor applied to the pattern built from [word].  For a
    word of literal characters the pattern is [\b], the characters,
    [\b]; every other word is a pattern of the full grammar, whose
    compilation ([None] for a [SyntaxError]) and matching are those of
    the host engine [engine]. *)
Definition boundary (engine : string -> option Test) (word : string)
  : option Test :=
  if isLiteral word then Some (testLiteral word) else engine word.

End RegExp.

(** ** The MongoDB layer ([db]) *)

Module Db.

(** State of a collection variable at the time of a call.  The module
    keeps each collection in a [Collection | null] variable; a driver
    call on a non-null handle either answers or rejects. *)
Inductive Handle : Type :=
| HNull      (* the variable is still [null] *)
| HThrows    (* the driver call rejects *)
| HReady.    (* the driver call answers *)

(** *** Group settings *)

(** The fields of a [groupSettings] document that the bot reads; a
    missing field reads as [undefined], which is falsy, hence [false]. *)
Record GroupSettings : Type := mkGroupSettings {
  settingsChatId : Z;
  abusiveWordsEnabled : bool;
  imageModeration : bool;
  videoModeration : bool
}.

Definition getDefaultGroupSettings (chat : Z) : GroupSettings :=
  {| settingsChatId := chat;
     abusiveWordsEnabled := true;
     imageModeration := true;
     videoModeration := true |}.

(** [getGroupSettings] never returns [null] and never rejects: every
    failure path answers with the defaults. *)
Definition getGroupSettings
    (h : Handle) (groupSettings : gmap Z GroupSettings) (chat : Z)
  : GroupSettings :=
  if negb (Js.truthyNum chat) then getDefaultGroupSettings chat
  else match h with
       | HNull => getDefaultGroupSettings chat
       | HThrows => getDefaultGroupSettings chat
       | HReady =>
           match groupSettings !! chat with
           | None => getDefaultGroupSettings chat
           | Some settings => settings
           end
       end.

(** [updateOne({chatId}, {$set: settings}, {upsert: true})]. *)
Definition updateGroupSettings
    (h : Handle) (groupSettings : gmap Z GroupSettings)
    (chat : Z) (settings : GroupSettings)
  : gmap Z GroupSettings * bool :=
  if negb (Js.truthyNum chat) then (groupSettings, false)
  else match h with
       | HNull => (groupSettings, false)
       | HThrows => (groupSettings, false)
       | HReady =>
           (<[chat := mkGroupSettings chat (abusiveWordsEnabled settings)
                        (imageModeration settings) (videoModeration settings)]>
              groupSettings, true)
       end.

(** *** Per-group abusive words *)

(** A document of the [abusiveWords] collection: [{chatId, word}], in
    insertion order. *)
Definition WordDoc : Type := (Z * string)%type.

Definition sameDoc (chat : Z) (word : string) (d : WordDoc) : bool :=
  (Z.eqb (fst d) chat && String.eqb (snd d) word)%bool.

(** What a mutation reports: the returned boolean, and whether the call
    went through [console.error] (as opposed to [console.log]). *)
Record Outcome : Type := mkOutcome {
  returned : bool;
  consoleError : bool
}.

Definition getAbusiveWords
    (h : Handle) (abusiveWords : list WordDoc) (chat : Z) : list string :=
  if negb (Js.truthyNum chat) then []
  else match h with
       | HNull => []
       | HThrows => []
       | HReady =>
           map snd (List.filter (fun d => Z.eqb (fst d) chat) abusiveWords)
       end.

Definition addAbusiveWord
    (h : Handle) (abusiveWords : list WordDoc) (chat : Z) (word : string)
  : list WordDoc * Outcome :=
  if (negb (Js.truthyNum chat) || Js.isEmpty word)%bool
  then (abusiveWords, mkOutcome false true)
  else
    let word := Js.trim (Js.toLowerCase word) in
    if Js.isEmpty word then (abusiveWords, mkOutcome false true)
    else match h with
         | HNull => (abusiveWords, mkOutcome false true)
         | HThrows => (abusiveWords, mkOutcome false true)
         | HReady =>
             if existsb (sameDoc chat word) abusiveWords
             then (abusiveWords, mkOutcome true false)
             else (abusiveWords ++ [(chat, word)], mkOutcome true false)
         end.

(** [deleteOne]: the first matching document goes. *)
Fixpoint deleteOne (chat : Z) (word : string) (l : list WordDoc)
  : list WordDoc * Z :=
  match l with
  | [] => ([], 0)
  | d :: l' =>
      if sameDoc chat word d then (l', 1)
      else let '(r, n) := deleteOne chat word l' in (d :: r, n)
  end.

Definition removeAbusiveWord
    (h : Handle) (abusiveWords : list WordDoc) (chat : Z) (word : string)
  : list WordDoc * Outcome :=
  if (negb (Js.truthyNum chat) || Js.isEmpty word)%bool
  then (abusiveWords, mkOutcome false true)
  else
    let word := Js.trim (Js.toLowerCase word) in
    if Js.isEmpty word then (abusiveWords, mkOutcome false true)
    else match h with
         | HNull => (abusiveWords, mkOutcome false true)
         | HThrows => (abusiveWords, mkOutcome false true)
         | HReady =>
             let '(rest, deletedCount) := deleteOne chat word abusiveWords in
             (rest, mkOutcome (Z.gtb deletedCount 0) false)
         end.

(** *** Violation counters across sessions *)

(** The [userWarningsAcrossSessions] collection, unique on
    [(userId, chatId)]; the value is the [count] field. *)
Definition getUserWarningsAcrossSessions
    (h : Handle) (warnings : gmap (Z * Z) Z) (userId chat : Z) : option Z :=
  if (negb (Js.truthyNum userId) || negb (Js.truthyNum chat))%bool then None
  else match h with
       | HNull => None
       | HThrows => None
       | HReady => warnings !! (userId, chat)
       end.

Definition updateUserWarningsAcrossSessions
    (h : Handle) (warnings : gmap (Z * Z) Z) (userId chat count : Z)
  : gmap (Z * Z) Z * bool :=
  if (negb (Js.truthyNum userId) || negb (Js.truthyNum chat) || Z.ltb count 0)%bool
  then (warnings, false)
  else match h with
       | HNull => (warnings, false)
       | HThrows => (warnings, false)
       | HReady => (<[(userId, chat) := count]> warnings, true)
       end.

Definition resetUserWarningsAcrossSessions
    (h : Handle) (warnings : gmap (Z * Z) Z) (userId chat : Z)
  : gmap (Z * Z) Z * bool :=
  updateUserWarningsAcrossSessions h warnings userId chat 0.

(** *** Alert messages *)

(** A document of the [alertMessages] collection (unique on [chatId]). *)
Record AlertMessage : Type := mkAlertMessage {
  chatId : Z;
  message : string;
  interval : Z;     (* minutes *)
  lastSent : Z      (* epoch milliseconds, 0 when never sent *)
}.

(** The [$expr] of the query of [getAlertMessagesToSend]:
    [$gt: [now, {$add: ['$lastSent', {$multiply: ['$interval', 60000]}]}]]. *)
Definition alertQuery (now : Z) (a : AlertMessage) : bool :=
  Z.gtb now (lastSent a + interval a * 60000).

Definition getAlertMessagesToSend
    (h : Handle) (alertMessages : list AlertMessage) (now : Z)
  : list AlertMessage :=
  match h with
  | HNull => []
  | HThrows => []
  | HReady => List.filter (alertQuery now) alertMessages
  end.

(** [updateOne({chatId}, {$set: ...}, {upsert: true})] on a collection
    with at most one document per [chatId]. *)
Fixpoint upsertAlert (a : AlertMessage) (l : list AlertMessage)
  : list AlertMessage :=
  match l with
  | [] => [a]
  | b :: l' =>
      if Z.eqb (chatId b) (chatId a) then a :: l' else b :: upsertAlert a l'
  end.

Definition setAlertMessage
    (h : Handle) (alertMessages : list AlertMessage)
    (chat : Z) (msg : string) (ival : Z)
  : list AlertMessage * bool :=
  match h with
  | HNull => (alertMessages, false)
  | HThrows => (alertMessages, false)
  | HReady => (upsertAlert (mkAlertMessage chat msg ival 0) alertMessages, true)
  end.

(** [updateOne({chatId}, {$set: {lastSent: Date.now()}})], no upsert. *)
Fixpoint touchAlert (chat now : Z) (l : list AlertMessage)
  : list AlertMessage :=
  match l with
  | [] => []
  | b :: l' =>
      if Z.eqb (chatId b) chat
      then mkAlertMessage (chatId b) (message b) (interval b) now :: l'
      else b :: touchAlert chat now l'
  end.

Definition updateAlertMessageLastSent
    (h : Handle) (alertMessages : list AlertMessage) (chat now : Z)
  : list AlertMessage * bool :=
  match h with
  | HNull => (alertMessages, false)
  | HThrows => (alertMessages, false)
  | HReady => (touchAlert chat now alertMessages, true)
  end.

(** [findOne({chatId})] on the alerts. *)
Definition getAlertMessage
    (h : Handle) (alertMessages : list AlertMessage) (chat : Z)
  : option AlertMessage :=
  match h with
  | HNull => None
  | HThrows => None
  | HReady => List.find (fun a => Z.eqb (chatId a) chat) alertMessages
  end.

(** [deleteOne({chatId})]: the first matching document goes. *)
Fixpoint deleteAlert (chat : Z) (l : list AlertMessage) : list AlertMessage :=
  match l with
  | [] => []
  | b :: l' => if Z.eqb (chatId b) chat then l' else b :: deleteAlert chat l'
  end.

Definition removeAlertMessage
    (h : Handle) (alertMessages : list AlertMessage) (chat : Z)
  : list AlertMessage * bool :=
  match h with
  | HNull => (alertMessages, false)
  | HThrows => (alertMessages, false)
  | HReady => (deleteAlert chat alertMessages, true)
  end.

End Db.

(** ** Image and video moderation ([openai]) *)

Module OpenAI.
Import Js.

Definition Buffer : Type := list byte.

(** *** [buffer.toString('base64')] *)

Definition base64Alphabet : string :=
  "ABCDEFGHIJKLMNOPQRSTUVWXYZabcdefghijklmnopqrstuvwxyz0123456789+/".

Definition base64Char (n : N) : ascii :=
  match String.get (N.to_nat (n mod 64)%N) base64Alphabet with
  | Some c => c
  | None => "="%char
  end.

Fixpoint base64 (b : Buffer) : string :=
  match b with
  | [] => EmptyString
  | [x] =>
      let n := (Byte.to_N x * 65536)%N in
      String (base64Char (n / 262144)) (String (base64Char (n / 4096)) "==")
  | [x; y] =>
      let n := (Byte.to_N x * 65536 + Byte.to_N y * 256)%N in
      String (base64Char (n / 262144)) (String (base64Char (n / 4096))
        (String (base64Char (n / 64)) "="))
  | x :: y :: z :: rest =>
      let n := (Byte.to_N x * 65536 + Byte.to_N y * 256 + Byte.to_N z)%N in
      String (base64Char (n / 262144)) (String (base64Char (n / 4096))
        (String (base64Char (n / 64)) (String (base64Char n) (base64 rest))))
  end.

(** [Buffer.from(s)] for a string of ASCII characters. *)
Definition bufferFrom (s : string) : Buffer :=
  map byte_of_ascii (list_ascii_of_string s).

(** *** Collaborators *)

(** The first element of [moderationResponse.results], as far as it is
    read: [flagged] and the [categories] object as its list of entries. *)
Record ModerationResult : Type := mkModerationResult {
  flagged : bool;
  categories : option (list (string * bool))
}.

Inductive Prompt : Type := VisionPrompt | OcrPrompt.

Record Env : Type := mkEnv {
  OPENAI_API_KEY : option string;
  tempDirExists : bool;
  mkdirOk : bool;
  (** [sharp(...).resize(512, 512).jpeg(...).toBuffer()]; [None] rejects *)
  sharpResize : Buffer -> option Buffer;
  writeResizedOk : bool;
  writeOriginalOk : bool;
  (** [openai.moderations.create]: [None] when the call rejects or the
      response has no [results]; [Some None] when [results[0]] is
      undefined *)
  moderationsCreate : string -> option (option ModerationResult);
  (** [openai.chat.completions.create] with [gpt-4o]: [None] when the
      call rejects or the response has no [choices]; [Some None] when
      the optional chain to [content] ends in [undefined] *)
  chatCompletions : Prompt -> string -> option (option string);
  (** [extractFrameFromVideo]: the frame that [ffmpeg] produced, if any *)
  extractFrame : Buffer -> option Buffer
}.

(** *** The cascade *)

Inductive Stage : Type :=
| Primary | Secondary | PatternScan | Ocr | DirectPattern.

(** The local variables [isInappropriate] and [reason] of
    [moderateImage], and the stages entered so far. *)
Record Locals : Type := mkLocals {
  isInappropriate : bool;
  reason : string;
  entered : list Stage
}.

Definition enter (s : Stage) (l : Locals) : Locals :=
  mkLocals (isInappropriate l) (reason l) (entered l ++ [s]).

Definition explicitTerms : list string :=
  [ "slut"; "whore"; "bitch"; "fuck"; "sex"; "porn"; "xxx"; "nude"; "naked";
    "ass"; "tits"; "boobs"; "cock"; "dick"; "pussy"; "cunt"; "vagina"; "penis";
    "anal"; "cum"; "jizz"; "hooker"; "escort"; "stripper"; "hoe"; "thot" ].

Definition slut_patterns : list string :=
  [ "U1VMVA=="; "c2x1dA=="; "U2x1dA=="; "SLUT"; "slut"; "Slut" ].

(** First attempt: [omni-moderation-latest]. *)
Definition primaryReason (result : option ModerationResult) : string :=
  match result with
  | Some {| flagged := true; categories := Some cats |} =>
      let flaggedCategories := map fst (List.filter snd cats) in
      if Nat.ltb 0 (List.length flaggedCategories)
      then "Flagged categories: " +:+ join ", " flaggedCategories
      else "Inappropriate content detected"
  | _ => "Inappropriate content detected"
  end.

Definition primary (env : Env) (base64Image : string) (l : Locals) : Locals :=
  let l := enter Primary l in
  match moderationsCreate env base64Image with
  | None => l
  | Some result =>
      let isInappropriate :=
        match result with Some r => flagged r | None => false end in
      mkLocals isInappropriate (primaryReason result) (entered l)
  end.

(** Second attempt: [gpt-4o] with the vision prompt. *)
Definition secondaryReason (content : string) : string :=
  if includes content ":" then
    match nth_error (split ":" content) 1 with
    | Some part =>
        let reasonPart := trim part in
        if isEmpty reasonPart
        then "Secondary detection: Inappropriate content"
        else "Secondary detection: " +:+ reasonPart
    | None => "Secondary detection: Inappropriate content"
    end
  else "Secondary detection: Inappropriate content".

Definition secondary (env : Env) (base64Image : string) (l : Locals) : Locals :=
  if negb (isInappropriate l) then
    let l := enter Secondary l in
    match chatCompletions env VisionPrompt base64Image with
    | None => l
    | Some response =>
        let content :=
          match response with Some c => trim c | None => EmptyString end in
        if includes (toUpperCase content) "INAPPROPRIATE"
        then mkLocals true (secondaryReason content) (entered l)
        else l
    end
  else l.

(** Third attempt: the explicit terms and their encodings, searched in
    the lower-cased base64 text of the image. *)
Definition variations (term : string) : list string :=
  [ term; toUpperCase term;
    base64 (bufferFrom term); base64 (bufferFrom (toUpperCase term)) ].

(** The terms the loop over [explicitTerms] collects: a term is pushed
    at its first variation found in the lower-cased base64 text. *)
Definition termsInPayload (base64Image : string) : list string :=
  let base64Lower := toLowerCase base64Image in
  List.filter
    (fun term =>
       existsb (fun variation => includes base64Lower (toLowerCase variation))
               (variations term))
    explicitTerms.

Definition patternScan (base64Image : string) (l : Locals) : Locals :=
  if negb (isInappropriate l) then
    let l := enter PatternScan l in
    let foundExplicitTerms := termsInPayload base64Image in
    if Nat.ltb 0 (List.length foundExplicitTerms)
    then mkLocals true
           ("Pattern matching: Found explicit terms ("
              +:+ join ", " foundExplicitTerms +:+ ")")
           (entered l)
    else l
  else l.

(** Fourth attempt: text extracted by [gpt-4o]. *)
Definition termsInText (extractedText : string) : list string :=
  List.filter (fun term => includes extractedText (toLowerCase term))
              explicitTerms.

Definition ocr (env : Env) (base64Image : string) (l : Locals) : Locals :=
  if negb (isInappropriate l) then
    let l := enter Ocr l in
    match chatCompletions env OcrPrompt base64Image with
    | None => l
    | Some response =>
        let extractedText :=
          match response with
          | Some c => toLowerCase (trim c)
          | None => EmptyString
          end in
        let foundExplicitTerms := termsInText extractedText in
        if Nat.ltb 0 (List.length foundExplicitTerms)
        then mkLocals true
               ("OCR detection: Found explicit terms ("
                  +:+ join ", " foundExplicitTerms +:+ ")")
               (entered l)
        else l
    end
  else l.

(** Fifth attempt: fixed patterns in the base64 text. *)
Definition directPattern (base64Image : string) (l : Locals) : Locals :=
  if negb (isInappropriate l) then
    let l := enter DirectPattern l in
    if existsb (includes base64Image) slut_patterns
    then mkLocals true "Direct pattern matching: Detected explicit text" (entered l)
    else l
  else l.

(** The returned object [{isInappropriate, reason?}]. *)
Record Verdict : Type := mkVerdict {
  verdictInappropriate : bool;
  verdictReason : option string
}.

Definition notInappropriate : Verdict := mkVerdict false None.

(** The bytes that are classified: the resized image, or the original
    when [sharp] or the write of its result fails; [None] when the
    fallback write fails as well. *)
Definition resizedImageBuffer (env : Env) (imageBuffer : Buffer) : option Buffer :=
  match sharpResize env imageBuffer with
  | Some resized =>
      if writeResizedOk env then Some resized
      else if writeOriginalOk env then Some imageBuffer else None
  | None => if writeOriginalOk env then Some imageBuffer else None
  end.

Definition cascade (env : Env) (base64Image : string) : Locals :=
  directPattern base64Image
    (ocr env base64Image
       (patternScan base64Image
          (secondary env base64Image
             (primary env base64Image (mkLocals false EmptyString []))))).

(** [moderateImage]: the verdict and the stages that were entered.
    [imageBuffer] is [None] for a value that is not a [Buffer].  The
    removal of the temporary file at the end does not affect either. *)
Definition moderateImage (env : Env) (imageBuffer : option Buffer)
  : Verdict * list Stage :=
  match imageBuffer with
  | None => (notInappropriate, [])
  | Some imageBuffer =>
      match OPENAI_API_KEY env with
      | None => (notInappropriate, [])
      | Some key =>
          if isEmpty key then (notInappropriate, [])
          else if (negb (tempDirExists env) && negb (mkdirOk env))%bool
          then (notInappropriate, [])
          else
            match resizedImageBuffer env imageBuffer with
            | None => (notInappropriate, [])
            | Some resized =>
                let l := cascade env (base64 resized) in
                (mkVerdict (isInappropriate l)
                   (if isInappropriate l then Some (reason l) else None),
                 entered l)
            end
      end
  end.

(** [moderateVideo]: one extracted frame goes through [moderateImage]. *)
Definition moderateVideo (env : Env) (videoBuffer : option Buffer)
  : Verdict * list Stage :=
  match videoBuffer with
  | None => (notInappropriate, [])
  | Some video =>
      match extractFrame env video with
      | None => (notInappropriate, [])
      | Some frameBuffer => moderateImage env (Some frameBuffer)
      end
  end.

End OpenAI.

(** ** The bot: word matcher, term-list commands, handlers, scheduler *)

Module Bot.
Import Js.

(** *** Environment and state *)

Inductive ContentType : Type := Image | Video.

(** The texts the handlers send with [ctx.reply]. *)
Inductive Message : Type :=
| CannotModerateText
    (* I detected abusive language but cannot moderate because I am not
       an admin or lack necessary permissions. *)
| CannotModerateMedia (contentType : ContentType)
    (* I cannot moderate images/videos because I am not an admin or lack
       necessary permissions. *)
| CouldNotDeleteText
    (* I detected abusive language but could not delete the message.
       Please check my permissions. *)
| CouldNotDeleteMedia
    (* I detected inappropriate content but could not delete the
       message. Please check my permissions. *)
| BannedForLanguage
    (* User <name> has been banned for repeated use of abusive language. *)
| BannedForContent (contentType : ContentType)
    (* User <name> has been banned for sharing inappropriate
       <contentType> content. *)
| BanFailed
    (* I tried to ban a user but failed. Please check my permissions. *)
| WarningForLanguage (warningCount : Z)
    (* Warning to <name>: Abusive language is not allowed in this group.
       This is warning <warningCount>/3. You will be banned after 3
       warnings. *)
| WarningForContent (contentType : ContentType) (warningCount : Z).
    (* Warning to <name>: Sharing inappropriate <contentType> content is
       not allowed in this group. This is warning <warningCount>/3. You
       will be banned after 3 warnings. *)

(** Calls to the Telegram API, in the chat of the event. *)
Inductive ApiCall : Type :=
| DeleteMessage (chatId messageId : Z)
| BanChatMember (chatId userId : Z)
| Reply (m : Message)
| SendMessage (chatId : Z) (text : string).

(** A call and whether it went through. *)
Definition Trace : Type := list (ApiCall * bool).

(** The places where the bot reaches a collection. *)
Inductive DbCall : Type :=
| SettingsInHandler | SettingsInCheck | WordsInCheck
| WarningsRead | WarningsWrite | WarningsReset
| WordsAdd | WordsRemove
| AlertsDue | AlertsSent.

Record Env : Type := mkEnv {
  now : Z;                                     (* [Date.now()] *)
  regexpEngine : string -> option RegExp.Test; (* the host [RegExp] *)
  db : DbCall -> Db.Handle;
  botCanManage : bool;                         (* [isBotAdmin(chatId)] *)
  userIsAdmin : bool;                          (* [isAdmin(ctx, userId, chatId)] *)
  deleteMessageOk : bool;
  banChatMemberOk : bool;
  replyOk : Message -> bool;
  sendMessageOk : Z -> bool;
  writeFileOk : bool;                          (* [fs.writeFileSync] *)
  openai : OpenAI.Env
}.

(** [ctx.session[userKey]]. *)
Record UserData : Type := mkUserData {
  abusiveWordCount : Z;
  lastWarning : Z
}.

(** The module variable [abusiveWords], the collections, and the
    session entries.  Sessions are kept per chat and the entry key
    [user_<userId>_chat_<chatId>] names the user and the chat, so an
    entry is addressed by the pair. *)
Record State : Type := mkState {
  abusiveWords : list string;
  groupSettings : gmap Z Db.GroupSettings;
  dbAbusiveWords : list Db.WordDoc;
  userWarningsAcrossSessions : gmap (Z * Z) Z;
  alertMessages : list Db.AlertMessage;
  session : gmap (Z * Z) UserData
}.

Definition withAbusiveWords (st : State) (l : list string) : State :=
  mkState l (groupSettings st) (dbAbusiveWords st)
          (userWarningsAcrossSessions st) (alertMessages st) (session st).

Definition withDbAbusiveWords (st : State) (l : list Db.WordDoc) : State :=
  mkState (abusiveWords st) (groupSettings st) l
          (userWarningsAcrossSessions st) (alertMessages st) (session st).

Definition withWarnings (st : State) (m : gmap (Z * Z) Z) : State :=
  mkState (abusiveWords st) (groupSettings st) (dbAbusiveWords st)
          m (alertMessages st) (session st).

Definition withAlerts (st : State) (l : list Db.AlertMessage) : State :=
  mkState (abusiveWords st) (groupSettings st) (dbAbusiveWords st)
          (userWarningsAcrossSessions st) l (session st).

Definition withSession (st : State) (m : gmap (Z * Z) UserData) : State :=
  mkState (abusiveWords st) (groupSettings st) (dbAbusiveWords st)
          (userWarningsAcrossSessions st) (alertMessages st) m.

(** *** [containsAbusiveWord] *)

(** One iteration of the loop over a word list: the boundary pattern,
    or [includes] when the constructor throws. *)
Definition wordHits (env : Env) (lowerText word : string) : bool :=
  match RegExp.boundary (regexpEngine env) (toLowerCase word) with
  | Some regex => regex lowerText
  | None => includes lowerText (toLowerCase word)
  end.

Fixpoint scanWords (env : Env) (lowerText : string) (words : list string) : bool :=
  match words with
  | [] => false
  | word :: rest =>
      if wordHits env lowerText word then true
      else scanWords env lowerText rest
  end.

(** [text] is [None] for an argument that is not a string. *)
Definition containsAbusiveWord
    (env : Env) (st : State) (text : option string) (chatId : option Z) : bool :=
  match text with
  | None => false
  | Some text =>
      if isEmpty text then false
      else
        let lowerText := toLowerCase text in
        let disabled :=
          match chatId with
          | Some chat =>
              (truthyNum chat &&
               negb (Db.abusiveWordsEnabled
                       (Db.getGroupSettings (db env SettingsInCheck)
                                            (groupSettings st) chat)))%bool
          | None => false
          end in
        if disabled then false
        else if scanWords env lowerText (abusiveWords st) then true
        else
          match chatId with
          | Some chat =>
              if truthyNum chat
              then scanWords env lowerText
                     (Db.getAbusiveWords (db env WordsInCheck)
                                         (dbAbusiveWords st) chat)
              else false
          | None => false
          end
  end.

(** *** [addAbusiveWord] and [removeAbusiveWord] *)

Definition addAbusiveWord
    (env : Env) (st : State) (word : string) (chatId : option Z)
  : State * bool :=
  let normalizedWord := trim (toLowerCase word) in
  let '(st, thrown) :=
    if negb (existsb (String.eqb normalizedWord) (abusiveWords st))
    then (withAbusiveWords st (abusiveWords st ++ [normalizedWord]),
          negb (writeFileOk env))
    else (st, false) in
  if thrown then (st, false)
  else
    match chatId with
    | Some chat =>
        if truthyNum chat
        then (withDbAbusiveWords st
                (fst (Db.addAbusiveWord (db env WordsAdd) (dbAbusiveWords st)
                                        chat normalizedWord)),
              true)
        else (st, true)
    | None => (st, true)
    end.

(** [abusiveWords.splice(index, 1)] at the first index where
    [w.toLowerCase() === normalizedWord]; [None] when [findIndex]
    answers [-1]. *)
Fixpoint spliceFirst (normalizedWord : string) (l : list string)
  : option (list string) :=
  match l with
  | [] => None
  | w :: l' =>
      if String.eqb (toLowerCase w) normalizedWord then Some l'
      else option_map (cons w) (spliceFirst normalizedWord l')
  end.

Definition removeAbusiveWord
    (env : Env) (st : State) (word : string) (chatId : option Z)
  : State * bool :=
  let normalizedWord := trim (toLowerCase word) in
  let '(st, thrown) :=
    match spliceFirst normalizedWord (abusiveWords st) with
    | Some l => (withAbusiveWords st l, negb (writeFileOk env))
    | None => (st, false)
    end in
  if thrown then (st, false)
  else
    match chatId with
    | Some chat =>
        if truthyNum chat
        then (withDbAbusiveWords st
                (fst (Db.removeAbusiveWord (db env WordsRemove) (dbAbusiveWords st)
                                           chat normalizedWord)),
              true)
        else (st, true)
    | None => (st, true)
    end.

(** *** Violation counting and escalation *)

Definition freshUserData : UserData := mkUserData 0 0.

(** [if (!ctx.session[userKey]) ctx.session[userKey] = {...}]. *)
Definition initSession (st : State) (userKey : Z * Z) : State :=
  match session st !! userKey with
  | Some _ => st
  | None => withSession st (<[userKey := freshUserData]> (session st))
  end.

Definition userData (st : State) (userKey : Z * Z) : UserData :=
  default freshUserData (session st !! userKey).

Definition setAbusiveWordCount (st : State) (userKey : Z * Z) (n : Z) : State :=
  withSession st
    (<[userKey := mkUserData n (lastWarning (userData st userKey))]> (session st)).

Definition setLastWarning (st : State) (userKey : Z * Z) (t : Z) : State :=
  withSession st
    (<[userKey := mkUserData (abusiveWordCount (userData st userKey)) t]> (session st)).

(** Read the stored count, add one, write it back, mirror it in the
    session.  Neither database function rejects, so the [catch] that
    falls back to the session count is never entered. *)
Definition countViolation (env : Env) (st : State) (userId chatId : Z)
  : State * Z :=
  let warnings :=
    Db.getUserWarningsAcrossSessions (db env WarningsRead)
      (userWarningsAcrossSessions st) userId chatId in
  let warningCount := match warnings with Some count => count | None => 0 end + 1 in
  let st :=
    withWarnings st
      (fst (Db.updateUserWarningsAcrossSessions (db env WarningsWrite)
              (userWarningsAcrossSessions st) userId chatId warningCount)) in
  (setAbusiveWordCount st (userId, chatId) warningCount, warningCount).

(** [updateUserWarningsAcrossSessions(userId, chatId, 0)] followed by
    [ctx.session[userKey].abusiveWordCount = 0]. *)
Definition resetAfterBan (env : Env) (st : State) (userId chatId : Z) : State :=
  let st :=
    withWarnings st
      (fst (Db.updateUserWarningsAcrossSessions (db env WarningsReset)
              (userWarningsAcrossSessions st) userId chatId 0)) in
  setAbusiveWordCount st (userId, chatId) 0.

(** The warning branch: at most one warning per minute and user. *)
Definition cooldownOver (env : Env) (st : State) (userKey : Z * Z) : bool :=
  (negb (truthyNum (lastWarning (userData st userKey))) ||
   Z.gtb (now env - lastWarning (userData st userKey)) 60000)%bool.

Definition warn (env : Env) (st : State) (userKey : Z * Z) (m : Message)
  : State * Trace :=
  if cooldownOver env st userKey then
    if replyOk env m
    then (setLastWarning st userKey (now env), [(Reply m, true)])
    else (st, [(Reply m, false)])
  else (st, []).

(** The part of the text handler that follows the admin checks. *)
Definition escalateText (env : Env) (st : State) (userId chatId messageId : Z)
  : State * Trace :=
  let '(st, warningCount) := countViolation env st userId chatId in
  let messageDeleted := deleteMessageOk env in
  let deletion : Trace :=
    if messageDeleted then [(DeleteMessage chatId messageId, true)]
    else [(DeleteMessage chatId messageId, false);
          (Reply CouldNotDeleteText, replyOk env CouldNotDeleteText)] in
  if Z.geb warningCount 3 then
    if banChatMemberOk env then
      if replyOk env BannedForLanguage then
        (resetAfterBan env st userId chatId,
         deletion ++ [(BanChatMember chatId userId, true);
                      (Reply BannedForLanguage, true)])
      else
        (st, deletion ++ [(BanChatMember chatId userId, true);
                          (Reply BannedForLanguage, false);
                          (Reply BanFailed, replyOk env BanFailed)])
    else
      (st, deletion ++ [(BanChatMember chatId userId, false);
                        (Reply BanFailed, replyOk env BanFailed)])
  else if messageDeleted then
    let '(st, warning) :=
      warn env st (userId, chatId) (WarningForLanguage warningCount) in
    (st, deletion ++ warning)
  else (st, deletion).

Definition handleInappropriateContent
    (env : Env) (st : State) (userId chatId : Z) (contentType : ContentType)
  : State * Trace :=
  let st := initSession st (userId, chatId) in
  let '(st, warningCount) := countViolation env st userId chatId in
  if Z.geb warningCount 3 then
    if banChatMemberOk env then
      if replyOk env (BannedForContent contentType) then
        (resetAfterBan env st userId chatId,
         [(BanChatMember chatId userId, true);
          (Reply (BannedForContent contentType), true)])
      else
        (st, [(BanChatMember chatId userId, true);
              (Reply (BannedForContent contentType), false)])
    else (st, [(BanChatMember chatId userId, false)])
  else warn env st (userId, chatId) (WarningForContent contentType warningCount).

(** *** The handlers *)

Record TextEvent : Type := mkTextEvent {
  textPrivate : bool;          (* [ctx.chat.type === 'private'] *)
  textFrom : option Z;         (* [ctx.from?.id] *)
  textChat : Z;
  textMessageId : Z;
  text : string
}.

(** [bot.on('message:text')], up to the end of the moderation block. *)
Definition onMessageText (env : Env) (st : State) (ev : TextEvent)
  : State * Trace :=
  if textPrivate ev then (st, [])
  else
    match textFrom ev with
    | None => (st, [])
    | Some userId =>
        if negb (truthyNum userId) then (st, [])
        else
          let chatId := textChat ev in
          let settings :=
            Db.getGroupSettings (db env SettingsInHandler) (groupSettings st) chatId in
          if negb (Db.abusiveWordsEnabled settings) then (st, [])
          else
            let st := initSession st (userId, chatId) in
            if containsAbusiveWord env st (Some (text ev)) (Some chatId) then
              if negb (botCanManage env)
              then (st, [(Reply CannotModerateText, replyOk env CannotModerateText)])
              else if userIsAdmin env then (st, [])
              else escalateText env st userId chatId (textMessageId ev)
            else (st, [])
    end.

Record MediaEvent : Type := mkMediaEvent {
  mediaPrivate : bool;
  mediaFrom : option Z;
  mediaChat : Z;
  mediaMessageId : Z;
  mediaType : ContentType;
  (** the downloaded file; [None] when [getFile] or the download fails *)
  mediaFile : option OpenAI.Buffer
}.

Definition moderationEnabled (t : ContentType) (settings : Db.GroupSettings) : bool :=
  match t with
  | Image => Db.imageModeration settings
  | Video => Db.videoModeration settings
  end.

Definition moderate (env : Env) (t : ContentType) (b : OpenAI.Buffer)
  : OpenAI.Verdict :=
  match t with
  | Image => fst (OpenAI.moderateImage (openai env) (Some b))
  | Video => fst (OpenAI.moderateVideo (openai env) (Some b))
  end.

(** [bot.on('message:photo')] and [bot.on('message:video')], which
    differ in the setting they read, the moderation function and the
    content type they report. *)
Definition onMessageMedia (env : Env) (st : State) (ev : MediaEvent)
  : State * Trace :=
  if mediaPrivate ev then (st, [])
  else
    match mediaFrom ev with
    | None => (st, [])
    | Some userId =>
        if negb (truthyNum userId) then (st, [])
        else
          let chatId := mediaChat ev in
          let settings :=
            Db.getGroupSettings (db env SettingsInHandler) (groupSettings st) chatId in
          if negb (moderationEnabled (mediaType ev) settings) then (st, [])
          else if negb (botCanManage env)
          then (st, [(Reply (CannotModerateMedia (mediaType ev)),
                      replyOk env (CannotModerateMedia (mediaType ev)))])
          else if userIsAdmin env then (st, [])
          else
            match mediaFile ev with
            | None => (st, [])
            | Some [] => (st, [])
            | Some buffer =>
                if OpenAI.verdictInappropriate (moderate env (mediaType ev) buffer)
                then
                  if deleteMessageOk env then
                    let '(st, t) :=
                      handleInappropriateContent env st userId chatId (mediaType ev) in
                    (st, (DeleteMessage chatId (mediaMessageId ev), true) :: t)
                  else
                    (st, [(DeleteMessage chatId (mediaMessageId ev), false);
                          (Reply CouldNotDeleteMedia, replyOk env CouldNotDeleteMedia)])
                else (st, [])
            end
    end.

(** *** The alert scheduler *)

(** The body of the [setInterval] callback: every due alert is sent and,
    when the send went through, stamped. *)
Fixpoint dispatch (env : Env) (st : State) (alerts : list Db.AlertMessage)
  : State * Trace :=
  match alerts with
  | [] => (st, [])
  | alert :: rest =>
      let sent := sendMessageOk env (Db.chatId alert) in
      let st :=
        if sent
        then withAlerts st
               (fst (Db.updateAlertMessageLastSent (db env AlertsSent)
                       (alertMessages st) (Db.chatId alert) (now env)))
        else st in
      let '(st, t) := dispatch env st rest in
      (st, (SendMessage (Db.chatId alert) (Db.message alert), sent) :: t)
  end.

Definition tick (env : Env) (st : State) : State * Trace :=
  dispatch env st
    (Db.getAlertMessagesToSend (db env AlertsDue) (alertMessages st) (now env)).

End Bot.

(** ** Vocabulary of the properties *)

Module Spec.
Import Js RegExp.

(** The last character of [s], or [prev] when [s] is empty. *)
Fixpoint lastChar (prev : option ascii) (s : string) : option ascii :=
  match s with
  | EmptyString => prev
  | String c s' => lastChar (Some c) s'
  end.

(** [w] occurs in [t] between two word boundaries: [t] splits as
    [pre], [w], [post] with a [\b] position on either side of [w]. *)
Definition OccursAtBoundary (w t : string) : Prop :=
  exists pre post,
    t = pre +:+ w +:+ post /\
    atBoundary (lastChar None pre) (headChar (w +:+ post)) = true /\
    atBoundary (lastChar None (pre +:+ w)) (headChar post) = true.

(** [sub] occurs in [s] as a plain substring. *)
Definition Occurs (sub s : string) : Prop :=
  exists pre post, s = pre +:+ sub +:+ post.

(** A string that [toLowerCase] leaves alone. *)
Definition LowerCased (s : string) : Prop := toLowerCase s = s.

(** A term as the lists store it: trimmed and lower-cased. *)
Definition normalize (word : string) : string := trim (toLowerCase word).

(** What it takes for one stored [word] to flag the lower-cased text:
    a word of literal characters must occur between word boundaries;
    a word that the [RegExp] constructor rejects must occur as a
    substring; for any other word its pattern decides. *)
Definition TermHits (engine : string -> option Test) (lowerText word : string)
  : Prop :=
  let w := toLowerCase word in
  if isLiteral w then OccursAtBoundary w lowerText
  else match engine w with
       | Some regex => regex lowerText = true
       | None => Occurs w lowerText
       end.

(** The words [containsAbusiveWord] goes through for a chat: the global
    list, then the words stored for the chat. *)
Definition termList (env : Bot.Env) (st : Bot.State) (chatId : option Z)
  : list string :=
  Bot.abusiveWords st ++
  match chatId with
  | Some chat =>
      if truthyNum chat
      then Db.getAbusiveWords (Bot.db env Bot.WordsInCheck) (Bot.dbAbusiveWords st) chat
      else []
  | None => []
  end.

(** Abusive-word detection is switched on for the chat of the call (a
    call without chat is not subject to any setting). *)
Definition DetectionOn (env : Bot.Env) (st : Bot.State) (chatId : option Z)
  : Prop :=
  match chatId with
  | Some chat =>
      truthyNum chat = true ->
      Db.abusiveWordsEnabled
        (Db.getGroupSettings (Bot.db env Bot.SettingsInCheck)
                             (Bot.groupSettings st) chat) = true
  | None => True
  end.

(** [DetectionOn] as a boolean. *)
Definition detectionOnb (env : Bot.Env) (st : Bot.State) (chatId : option Z) : bool :=
  match chatId with
  | Some chat =>
      (negb (truthyNum chat) ||
       Db.abusiveWordsEnabled
         (Db.getGroupSettings (Bot.db env Bot.SettingsInCheck)
                              (Bot.groupSettings st) chat))%bool
  | None => true
  end.


(** *** The escalation ladder *)

(** A flagged item that reaches the escalation code: a text message
    (with the id of the message to delete) or an image or video that
    has just been deleted. *)
Inductive Violation : Type :=
| TextViolation (messageId : Z)
| MediaViolation (contentType : Bot.ContentType).

(** The escalation code of either handler, entered as the handler
    enters it: the text handler has initialised the session entry. *)
Definition escalate (env : Bot.Env) (st : Bot.State) (userId chatId : Z)
    (v : Violation) : Bot.State * Bot.Trace :=
  match v with
  | TextViolation messageId =>
      Bot.escalateText env (Bot.initSession st (userId, chatId))
                       userId chatId messageId
  | MediaViolation contentType =>
      Bot.handleInappropriateContent env st userId chatId contentType
  end.

(** The durable count of a user in a chat, [0] without a record. *)
Definition storedCount (st : Bot.State) (userId chatId : Z) : Z :=
  default 0 (Bot.userWarningsAcrossSessions st !! (userId, chatId)).

(** The time of the last warning kept in the session, [0] if none. *)
Definition lastWarningOf (st : Bot.State) (userId chatId : Z) : Z :=
  Bot.lastWarning (Bot.userData st (userId, chatId)).

Definition warningOf (v : Violation) (n : Z) : Bot.Message :=
  match v with
  | TextViolation _ => Bot.WarningForLanguage n
  | MediaViolation contentType => Bot.WarningForContent contentType n
  end.

Definition bannedOf (v : Violation) : Bot.Message :=
  match v with
  | TextViolation _ => Bot.BannedForLanguage
  | MediaViolation contentType => Bot.BannedForContent contentType
  end.

(** The calls around the deletion of a text message; a media message
    is deleted by its handler before the escalation. *)
Definition deletionTrace (env : Bot.Env) (chatId : Z) (v : Violation) : Bot.Trace :=
  match v with
  | TextViolation messageId =>
      if Bot.deleteMessageOk env
      then [(Bot.DeleteMessage chatId messageId, true)]
      else [(Bot.DeleteMessage chatId messageId, false);
            (Bot.Reply Bot.CouldNotDeleteText, Bot.replyOk env Bot.CouldNotDeleteText)]
  | MediaViolation _ => []
  end.

(** The warning with count [n], unless the cooldown of the user in the
    chat is still running in [st]. *)
Definition warningUnlessCooling (env : Bot.Env) (st : Bot.State)
    (userId chatId : Z) (v : Violation) (n : Z) : Bot.Trace :=
  if Bot.cooldownOver env st (userId, chatId)
  then [(Bot.Reply (warningOf v n), true)]
  else [].

(** The 60-second cooldown as the specification words it, to be
    compared with the test of the code: no warning went out so far (the
    time of the last one is [0]), or the last one is more than 60000
    milliseconds back. *)
Definition cooldownElapsed (now last : Z) : bool :=
  (Z.eqb last 0 || Z.gtb (now - last) 60000)%bool.

(** What a violation counted [n] is answered with while every call goes
    through: the warning with that count once the cooldown has elapsed,
    nothing before. *)
Definition warningAfterCooldown (now last : Z) (v : Violation) (n : Z)
  : Bot.Trace :=
  if cooldownElapsed now last then [(Bot.Reply (warningOf v n), true)] else [].

(** The time of the last warning after such an event. *)
Definition lastWarningAfter (now last : Z) : Z :=
  if cooldownElapsed now last then now else last.

(** Warnings that reached the chat. *)
Definition isSentWarning (c : Bot.ApiCall * bool) : bool :=
  match c with
  | (Bot.Reply (Bot.WarningForLanguage _), true) => true
  | (Bot.Reply (Bot.WarningForContent _ _), true) => true
  | _ => false
  end.

Definition warningsSent (t : Bot.Trace) : nat :=
  List.length (List.filter isSentWarning t).

(** The counters collection answers every call of the event. *)
Definition CountersReady (env : Bot.Env) : Prop :=
  Bot.db env Bot.WarningsRead = Db.HReady /\
  Bot.db env Bot.WarningsWrite = Db.HReady /\
  Bot.db env Bot.WarningsReset = Db.HReady.

(** Every Telegram call of the event goes through. *)
Definition TelegramAnswers (env : Bot.Env) : Prop :=
  Bot.deleteMessageOk env = true /\
  Bot.banChatMemberOk env = true /\
  forall m, Bot.replyOk env m = true.

(** A warning may go out: always for media, and for a text only when
    its message was deleted. *)
Definition canWarn (env : Bot.Env) (v : Violation) : bool :=
  match v with
  | TextViolation _ => Bot.deleteMessageOk env
  | MediaViolation _ => true
  end.

(** What the [catch] of the ban branch sends: a notice in the text
    handler, nothing in the media handler. *)
Definition banFailedNotice (env : Bot.Env) (v : Violation) : Bot.Trace :=
  match v with
  | TextViolation _ => [(Bot.Reply Bot.BanFailed, Bot.replyOk env Bot.BanFailed)]
  | MediaViolation _ => []
  end.

(** The two escalation paths as one decision on the new count. *)
Definition ladder (env : Bot.Env) (st : Bot.State) (userId chatId : Z)
    (v : Violation) : Bot.State * Bot.Trace :=
  let counted := Bot.countViolation env (Bot.initSession st (userId, chatId))
                                    userId chatId in
  let st1 := fst counted in
  let n := snd counted in
  let deletion := deletionTrace env chatId v in
  if Z.geb n 3 then
    if Bot.banChatMemberOk env then
      if Bot.replyOk env (bannedOf v) then
        (Bot.resetAfterBan env st1 userId chatId,
         deletion ++ [(Bot.BanChatMember chatId userId, true);
                      (Bot.Reply (bannedOf v), true)])
      else
        (st1, deletion ++ (Bot.BanChatMember chatId userId, true)
                       :: (Bot.Reply (bannedOf v), false)
                       :: banFailedNotice env v)
    else
      (st1, deletion ++ (Bot.BanChatMember chatId userId, false)
                     :: banFailedNotice env v)
  else if canWarn env v then
    (fst (Bot.warn env st1 (userId, chatId) (warningOf v n)),
     deletion ++ snd (Bot.warn env st1 (userId, chatId) (warningOf v n)))
  else (st1, deletion).

(** The count an event arrives at: what [countViolation] returns. *)
Definition newCount (env : Bot.Env) (st : Bot.State) (userId chatId : Z) : Z :=
  snd (Bot.countViolation env (Bot.initSession st (userId, chatId)) userId chatId).

(** What a failed deletion of a text message leaves in the chat. *)
Definition couldNotDelete (env : Bot.Env) (chatId messageId : Z) : Bot.Trace :=
  [(Bot.DeleteMessage chatId messageId, false);
   (Bot.Reply Bot.CouldNotDeleteText, Bot.replyOk env Bot.CouldNotDeleteText)].

(** A media event that gets as far as a flagged verdict. *)
Definition FlaggedMedia (env : Bot.Env) (st : Bot.State) (ev : Bot.MediaEvent)
  : Prop :=
  Bot.mediaPrivate ev = false /\
  (exists userId, Bot.mediaFrom ev = Some userId /\ userId <> 0) /\
  Bot.moderationEnabled (Bot.mediaType ev)
    (Db.getGroupSettings (Bot.db env Bot.SettingsInHandler)
                         (Bot.groupSettings st) (Bot.mediaChat ev)) = true /\
  Bot.botCanManage env = true /\
  Bot.userIsAdmin env = false /\
  exists b buffer,
    Bot.mediaFile ev = Some (b :: buffer) /\
    OpenAI.verdictInappropriate
      (Bot.moderate env (Bot.mediaType ev) (b :: buffer)) = true.

(** *** The cascade, stage by stage *)

Import OpenAI.

(** The five attempts of [moderateImage] in the order of the source. *)
Definition stageOrder : list Stage :=
  [Primary; Secondary; PatternScan; Ocr; DirectPattern].

(** The stages that precede a stage. *)
Definition before (s : Stage) : list Stage :=
  match s with
  | Primary => []
  | Secondary => [Primary]
  | PatternScan => [Primary; Secondary]
  | Ocr => [Primary; Secondary; PatternScan]
  | DirectPattern => [Primary; Secondary; PatternScan; Ocr]
  end.

(** The text that the stages classify: the base64 form of the resized
    (or original) image, when [moderateImage] gets as far as the
    cascade. *)
Definition payload (env : Env) (imageBuffer : option Buffer) : option string :=
  match imageBuffer with
  | None => None
  | Some imageBuffer =>
      match OPENAI_API_KEY env with
      | None => None
      | Some key =>
          if isEmpty key then None
          else if (negb (tempDirExists env) && negb (mkdirOk env))%bool then None
          else option_map base64 (resizedImageBuffer env imageBuffer)
      end
  end.

(** What one stage, taken alone, says about the payload: [Some r] when
    it flags with reason [r], [None] when it does not flag (or fails). *)
Definition stageVerdict (env : Env) (base64Image : string) (s : Stage)
  : option string :=
  match s with
  | Primary =>
      match moderationsCreate env base64Image with
      | Some (Some r) =>
          if flagged r then Some (primaryReason (Some r)) else None
      | _ => None
      end
  | Secondary =>
      match chatCompletions env VisionPrompt base64Image with
      | Some response =>
          let content :=
            match response with Some c => trim c | None => EmptyString end in
          if includes (toUpperCase content) "INAPPROPRIATE"
          then Some (secondaryReason content) else None
      | None => None
      end
  | PatternScan =>
      let found := termsInPayload base64Image in
      if Nat.ltb 0 (List.length found)
      then Some ("Pattern matching: Found explicit terms ("
                   +:+ join ", " found +:+ ")")
      else None
  | Ocr =>
      match chatCompletions env OcrPrompt base64Image with
      | Some response =>
          let extractedText :=
            match response with
            | Some c => toLowerCase (trim c)
            | None => EmptyString
            end in
          let found := termsInText extractedText in
          if Nat.ltb 0 (List.length found)
          then Some ("OCR detection: Found explicit terms ("
                       +:+ join ", " found +:+ ")")
          else None
      | None => None
      end
  | DirectPattern =>
      if existsb (includes base64Image) slut_patterns
      then Some "Direct pattern matching: Detected explicit text"
      else None
  end.

(** The name under which a stage reports, for the stages that put one
    in front of their reason. *)
Definition stageLabel (s : Stage) : option string :=
  match s with
  | Primary => None
  | Secondary => Some "Secondary detection"
  | PatternScan => Some "Pattern matching"
  | Ocr => Some "OCR detection"
  | DirectPattern => Some "Direct pattern matching"
  end.

(** The shape of the reason of each stage. *)
Definition ReasonOf (s : Stage) (r : string) : Prop :=
  match stageLabel s with
  | Some label => exists detail, r = label +:+ ": " +:+ detail
  | None =>
      r = "Inappropriate content detected" \/
      exists cats, cats <> [] /\ r = "Flagged categories: " +:+ join ", " cats
  end.

(** The stages that follow a stage. *)
Definition after (s : Stage) : list Stage :=
  match s with
  | Primary => [Secondary; PatternScan; Ocr; DirectPattern]
  | Secondary => [PatternScan; Ocr; DirectPattern]
  | PatternScan => [Ocr; DirectPattern]
  | Ocr => [DirectPattern]
  | DirectPattern => []
  end.

(** The block of [moderateImage] that belongs to a stage. *)
Definition step (env : Env) (base64Image : string) (s : Stage)
  : Locals -> Locals :=
  match s with
  | Primary => primary env base64Image
  | Secondary => secondary env base64Image
  | PatternScan => patternScan base64Image
  | Ocr => ocr env base64Image
  | DirectPattern => directPattern base64Image
  end.

(** Several blocks in a row. *)
Definition run (env : Env) (base64Image : string) (stages : list Stage)
    (l : Locals) : Locals :=
  fold_left (fun l s => step env base64Image s l) stages l.

Definition initialLocals : Locals := mkLocals false EmptyString [].

(** [p] is the beginning of [s]. *)
Definition Prefixed (p s : string) : Prop := exists rest, s = p +:+ rest.

End Spec.

(** ** Sample environments and states *)

Module Sample.

(** No API key, nothing on disk, every remote call rejects. *)
Definition offline : OpenAI.Env :=
  {| OpenAI.OPENAI_API_KEY := None;
     OpenAI.tempDirExists := true;
     OpenAI.mkdirOk := true;
     OpenAI.sharpResize := fun _ => None;
     OpenAI.writeResizedOk := true;
     OpenAI.writeOriginalOk := true;
     OpenAI.moderationsCreate := fun _ => None;
     OpenAI.chatCompletions := fun _ _ => None;
     OpenAI.extractFrame := fun _ => None |}.

(** Every collaborator of the bot answers; the sender is an ordinary
    member and the bot may delete and ban. *)
Definition allGood (now : Z) : Bot.Env :=
  {| Bot.now := now;
     Bot.regexpEngine := fun _ => None;
     Bot.db := fun _ => Db.HReady;
     Bot.botCanManage := true;
     Bot.userIsAdmin := false;
     Bot.deleteMessageOk := true;
     Bot.banChatMemberOk := true;
     Bot.replyOk := fun _ => true;
     Bot.sendMessageOk := fun _ => true;
     Bot.writeFileOk := true;
     Bot.openai := offline |}.

(** The default word list of the bot and empty collections. *)
Definition fresh : Bot.State :=
  {| Bot.abusiveWords :=
       [ "fuck"; "shit"; "asshole"; "bitch"; "dick"; "pussy"; "cunt";
         "whore"; "slut"; "bastard" ];
     Bot.groupSettings := ∅;
     Bot.dbAbusiveWords := [];
     Bot.userWarningsAcrossSessions := ∅;
     Bot.alertMessages := [];
     Bot.session := ∅ |}.


(** A configured classifier whose three remote calls answer with the
    given values for every image; [sharp] hands the image back. *)
Definition classifier
    (moderation : option (option OpenAI.ModerationResult))
    (vision extracted : option (option string)) : OpenAI.Env :=
  {| OpenAI.OPENAI_API_KEY := Some "sk-test";
     OpenAI.tempDirExists := true;
     OpenAI.mkdirOk := true;
     OpenAI.sharpResize := fun b => Some b;
     OpenAI.writeResizedOk := true;
     OpenAI.writeOriginalOk := true;
     OpenAI.moderationsCreate := fun _ => moderation;
     OpenAI.chatCompletions :=
       fun p _ => match p with
                  | OpenAI.VisionPrompt => vision
                  | OpenAI.OcrPrompt => extracted
                  end;
     OpenAI.extractFrame := fun b => Some b |}.

(** A one-byte image, whose base64 text is [AA==]. *)
Definition tinyImage : OpenAI.Buffer := [x00].

(** The primary stage flags without categories; the two later remote
    stages would flag as well. *)
Definition flagsBare : OpenAI.Env :=
  classifier (Some (Some (OpenAI.mkModerationResult true None)))
             (Some (Some "INAPPROPRIATE: nudity")) (Some (Some "slut")).

(** The primary stage flags the category [violence]. *)
Definition flagsViolence : OpenAI.Env :=
  classifier
    (Some (Some (OpenAI.mkModerationResult true
                   (Some [("sexual", false); ("violence", true)]))))
    (Some (Some "INAPPROPRIATE: nudity")) (Some (Some "slut")).

(** Only the text extraction finds something. *)
Definition flagsText : OpenAI.Env :=
  classifier (Some (Some (OpenAI.mkModerationResult false None)))
             (Some (Some "APPROPRIATE")) (Some (Some "You SLUT")).

(** As [allGood], with the given classifier behind it. *)
Definition classifying (now : Z) (o : OpenAI.Env) : Bot.Env :=
  {| Bot.now := now;
     Bot.regexpEngine := fun _ => None;
     Bot.db := fun _ => Db.HReady;
     Bot.botCanManage := true;
     Bot.userIsAdmin := false;
     Bot.deleteMessageOk := true;
     Bot.banChatMemberOk := true;
     Bot.replyOk := fun _ => true;
     Bot.sendMessageOk := fun _ => true;
     Bot.writeFileOk := true;
     Bot.openai := o |}.

(** As [classifying], but Telegram refuses to delete messages. *)
Definition deletionFails (now : Z) (o : OpenAI.Env) : Bot.Env :=
  {| Bot.now := now;
     Bot.regexpEngine := fun _ => None;
     Bot.db := fun _ => Db.HReady;
     Bot.botCanManage := true;
     Bot.userIsAdmin := false;
     Bot.deleteMessageOk := false;
     Bot.banChatMemberOk := true;
     Bot.replyOk := fun _ => true;
     Bot.sendMessageOk := fun _ => true;
     Bot.writeFileOk := true;
     Bot.openai := o |}.


(** User 42 writes in group 7. *)
Definition abusiveText : Bot.TextEvent :=
  {| Bot.textPrivate := false;
     Bot.textFrom := Some 42;
     Bot.textChat := 7;
     Bot.textMessageId := 1001;
     Bot.text := "you are a Fuck" |}.

(** User 42 posts a photo in group 7. *)
Definition photo : Bot.MediaEvent :=
  {| Bot.mediaPrivate := false;
     Bot.mediaFrom := Some 42;
     Bot.mediaChat := 7;
     Bot.mediaMessageId := 2001;
     Bot.mediaType := Bot.Image;
     Bot.mediaFile := Some tinyImage |}.

Definition noon : Z := 1700000000000.

End Sample.

(** ** Administration: commands and inline-keyboard callbacks *)

Module Admin.
Import Js.

(** Every handler of this module performs its effects on the state
    before its first call to the Telegram API, so the state it leaves
    does not depend on whether that call goes through.  The handlers are
    modelled by the state they leave and the first text they send. *)

(** *** The settings toggles *)

Inductive Feature : Type := AbusiveWords | ImageModeration | VideoModeration.

Definition flagOf (f : Feature) (settings : Db.GroupSettings) : bool :=
  match f with
  | AbusiveWords => Db.abusiveWordsEnabled settings
  | ImageModeration => Db.imageModeration settings
  | VideoModeration => Db.videoModeration settings
  end.

(** [{ ...settings, <field>: newValue }]. *)
Definition withFlag (f : Feature) (newValue : bool) (settings : Db.GroupSettings)
  : Db.GroupSettings :=
  match f with
  | AbusiveWords =>
      Db.mkGroupSettings (Db.settingsChatId settings) newValue
        (Db.imageModeration settings) (Db.videoModeration settings)
  | ImageModeration =>
      Db.mkGroupSettings (Db.settingsChatId settings)
        (Db.abusiveWordsEnabled settings) newValue (Db.videoModeration settings)
  | VideoModeration =>
      Db.mkGroupSettings (Db.settingsChatId settings)
        (Db.abusiveWordsEnabled settings) (Db.imageModeration settings) newValue
  end.

Definition withGroupSettings (st : Bot.State) (m : gmap Z Db.GroupSettings)
  : Bot.State :=
  Bot.mkState (Bot.abusiveWords st) m (Bot.dbAbusiveWords st)
              (Bot.userWarningsAcrossSessions st) (Bot.alertMessages st)
              (Bot.session st).

(** The collections a handler of this module reaches, each with the
    state of its handle at the call. *)
Record Handles : Type := mkHandles {
  settingsRead : Db.Handle;
  settingsWrite : Db.Handle;
  alertsRead : Db.Handle;
  alertsWrite : Db.Handle;
  wordsRead : Db.Handle
}.

(** The body shared by [handleToggleAbusiveWords],
    [handleToggleImageModeration] and [handleToggleVideoModeration], which
    differ in the field only.  [getGroupSettings] never answers [null], so
    the branch that creates settings is never taken.  The result of the
    write is not looked at; the answer carries [newValue]. *)
Definition handleToggle (f : Feature) (h : Handles) (st : Bot.State) (chatId : Z)
  : Bot.State * bool :=
  let settings := Db.getGroupSettings (settingsRead h) (Bot.groupSettings st) chatId in
  let newValue := negb (flagOf f settings) in
  (withGroupSettings st
     (fst (Db.updateGroupSettings (settingsWrite h) (Bot.groupSettings st) chatId
             (withFlag f newValue settings))),
   newValue).

Definition handleToggleAbusiveWords := handleToggle AbusiveWords.
Definition handleToggleImageModeration := handleToggle ImageModeration.
Definition handleToggleVideoModeration := handleToggle VideoModeration.

(** *** The callback dispatcher *)

(** [[...new Set(l)]]: the first occurrence of every element, in order. *)
Fixpoint dedupe (seen : list string) (l : list string) : list string :=
  match l with
  | [] => []
  | x :: l' =>
      if existsb (String.eqb x) seen then dedupe seen l'
      else x :: dedupe (x :: seen) l'
  end.

(** The first text each path of [bot.on('callback_query')] sends. *)
Inductive Answer : Type :=
| NoChat                  (* Error: Could not determine chat ID *)
| AdministratorsOnly      (* This action is only available to group administrators *)
| AddToGroup              (* Use the "Add to Group" button in Telegram ... *)
| Toggled (f : Feature) (newValue : bool)
                          (* <feature> enabled / disabled *)
| AlertMenu (current : option Db.AlertMessage)
                          (* Alert Messages Configuration, with the current alert *)
| NoWords                 (* No abusive words are currently configured *)
| WordList (allWords : list string)
                          (* Abusive Words List *)
| SetAlertHelp            (* To set an alert message, use the command ... *)
| NoAlert                 (* No alert message is currently set *)
| AlertRemoved            (* Alert message removed *)
| MainMenu                (* Group Configuration *)
| Help                    (* Help *)
| UnknownAction.          (* Unknown action *)

Definition adminOnlyActions : list string :=
  [ "toggle_abusive_words"; "toggle_image_moderation"; "toggle_video_moderation";
    "alert_messages"; "list_abusive_words"; "set_alert"; "remove_alert";
    "back_to_main" ].

Definition handleRemoveAlert (h : Handles) (st : Bot.State) (chatId : Z)
  : Bot.State * Answer :=
  match Db.getAlertMessage (alertsRead h) (Bot.alertMessages st) chatId with
  | None => (st, NoAlert)
  | Some _ =>
      (Bot.withAlerts st
         (fst (Db.removeAlertMessage (alertsWrite h) (Bot.alertMessages st) chatId)),
       AlertRemoved)
  end.

Definition handleListAbusiveWords (h : Handles) (st : Bot.State) (chatId : Z)
  : Bot.State * Answer :=
  let dbWords := Db.getAbusiveWords (wordsRead h) (Bot.dbAbusiveWords st) chatId in
  let allWords := dedupe [] (Bot.abusiveWords st ++ dbWords) in
  if Nat.eqb (List.length allWords) 0 then (st, NoWords)
  else (st, WordList allWords).

Record CallbackEvent : Type := mkCallbackEvent {
  data : string;              (* [ctx.callbackQuery.data || ''] *)
  callbackFrom : Z;
  callbackChat : option Z     (* [ctx.chat?.id] *)
}.

(** [isUserAdmin] is the answer of [isAdmin], asked for the actions of
    [adminOnlyActions] only. *)
Definition onCallbackQuery (isUserAdmin : bool) (h : Handles) (st : Bot.State)
    (ev : CallbackEvent) : Bot.State * Answer :=
  match callbackChat ev with
  | None => (st, NoChat)
  | Some chatId =>
      if negb (truthyNum chatId) then (st, NoChat)
      else if (existsb (String.eqb (data ev)) adminOnlyActions && negb isUserAdmin)%bool
      then (st, AdministratorsOnly)
      else if String.eqb (data ev) "add_to_group" then (st, AddToGroup)
      else if String.eqb (data ev) "toggle_abusive_words" then
        let '(st, v) := handleToggleAbusiveWords h st chatId in (st, Toggled AbusiveWords v)
      else if String.eqb (data ev) "toggle_image_moderation" then
        let '(st, v) := handleToggleImageModeration h st chatId in
        (st, Toggled ImageModeration v)
      else if String.eqb (data ev) "toggle_video_moderation" then
        let '(st, v) := handleToggleVideoModeration h st chatId in
        (st, Toggled VideoModeration v)
      else if String.eqb (data ev) "alert_messages" then
        (st, AlertMenu (Db.getAlertMessage (alertsRead h) (Bot.alertMessages st) chatId))
      else if String.eqb (data ev) "list_abusive_words" then
        handleListAbusiveWords h st chatId
      else if String.eqb (data ev) "set_alert" then (st, SetAlertHelp)
      else if String.eqb (data ev) "remove_alert" then handleRemoveAlert h st chatId
      else if String.eqb (data ev) "back_to_main" then (st, MainMenu)
      else if String.eqb (data ev) "help" then (st, Help)
      else (st, UnknownAction)
  end.

(** *** The commands *)

Record CommandEvent : Type := mkCommandEvent {
  commandPrivate : bool;       (* [ctx.chat.type === 'private'] *)
  commandFrom : option Z;      (* [ctx.from?.id] *)
  commandChat : Z;
  commandMatch : string;       (* [ctx.match]: the text after the command *)
  commandText : option string  (* [ctx.message?.text] *)
}.

(** The text a command answers with. *)
Inductive Notice : Type :=
| OnlyInGroups            (* This command can only be used in groups. *)
| OnlyAdministrators      (* Only administrators can use this command. *)
| ProvideWordToAdd        (* Please provide a word to add. ... *)
| Added (word : string)   (* Added "<word>" to the abusive words list. *)
| AlreadyInList (word : string)
                          (* "<word>" is already in the abusive words list. *)
| ProvideWordToRemove     (* Please provide a word to remove. ... *)
| Removed (word : string) (* Removed "<word>" from the abusive words list. *)
| NotInList (word : string)
                          (* "<word>" is not in the abusive words list. *)
| ListIsEmpty             (* The abusive words list is empty. *)
| Words (l : list string) (* Abusive Words List: ... *)
| CouldNotIdentifyUser    (* Could not identify user. *)
| OnlyGroupAdministrators (* This command is only available to group administrators. *)
| AlertUsage              (* Please provide both interval and message. ... *)
| InvalidInterval         (* Please provide a valid interval in minutes ... *)
| ProvideMessage          (* Please provide a message to be sent. *)
| AlertSet (message : string) (interval : Z).
                          (* Alert message set successfully! ... *)

Definition userOf (ev : CommandEvent) : option Z :=
  match commandFrom ev with
  | Some userId => if truthyNum userId then Some userId else None
  | None => None
  end.

(** [bot.command('addword')]. *)
Definition addword (env : Bot.Env) (st : Bot.State) (ev : CommandEvent)
  : Bot.State * option Notice :=
  if commandPrivate ev then (st, Some OnlyInGroups)
  else
    match userOf ev with
    | None => (st, None)
    | Some _ =>
        if negb (Bot.userIsAdmin env) then (st, Some OnlyAdministrators)
        else
          let word := commandMatch ev in
          if isEmpty word then (st, Some ProvideWordToAdd)
          else
            let '(st, added) :=
              Bot.addAbusiveWord env st word (Some (commandChat ev)) in
            (st, Some (if added then Added word else AlreadyInList word))
    end.

(** [bot.command('removeword')]. *)
Definition removeword (env : Bot.Env) (st : Bot.State) (ev : CommandEvent)
  : Bot.State * option Notice :=
  if commandPrivate ev then (st, Some OnlyInGroups)
  else
    match userOf ev with
    | None => (st, None)
    | Some _ =>
        if negb (Bot.userIsAdmin env) then (st, Some OnlyAdministrators)
        else
          let word := commandMatch ev in
          if isEmpty word then (st, Some ProvideWordToRemove)
          else
            let '(st, removed) :=
              Bot.removeAbusiveWord env st word (Some (commandChat ev)) in
            (st, Some (if removed then Removed word else NotInList word))
    end.

(** [bot.command('listwords')]: the module variable only. *)
Definition listwords (env : Bot.Env) (st : Bot.State) (ev : CommandEvent)
  : Bot.State * option Notice :=
  if commandPrivate ev then (st, Some OnlyInGroups)
  else
    match userOf ev with
    | None => (st, None)
    | Some _ =>
        if negb (Bot.userIsAdmin env) then (st, Some OnlyAdministrators)
        else if Nat.eqb (List.length (Bot.abusiveWords st)) 0
        then (st, Some ListIsEmpty)
        else (st, Some (Words (Bot.abusiveWords st)))
    end.

(** [bot.command('set_alert_message')].  [parseInt] is the host
    function on the second part of the text, [None] for [NaN]; [h] is the
    state of the alerts collection at the write, whose result the handler
    does not look at. *)
Definition set_alert_message
    (parseInt : string -> option Z) (h : Db.Handle)
    (env : Bot.Env) (st : Bot.State) (ev : CommandEvent)
  : Bot.State * option Notice :=
  match userOf ev with
  | None => (st, Some CouldNotIdentifyUser)
  | Some _ =>
      if negb (Bot.userIsAdmin env) then (st, Some OnlyGroupAdministrators)
      else
        let text :=
          match commandText ev with Some t => trim t | None => EmptyString end in
        let parts := split " " text in
        if Nat.ltb (List.length parts) 3 then (st, Some AlertUsage)
        else
          let interval := parseInt (nth 1 parts EmptyString) in
          let message := join " " (skipn 2 parts) in
          match interval with
          | None => (st, Some InvalidInterval)
          | Some interval =>
              if Z.leb interval 0 then (st, Some InvalidInterval)
              else if Nat.eqb (String.length message) 0 then (st, Some ProvideMessage)
              else
                (Bot.withAlerts st
                   (fst (Db.setAlertMessage h (Bot.alertMessages st)
                           (commandChat ev) message interval)),
                 Some (AlertSet message interval))
          end
  end.

End Admin.

(** ** Vocabulary of the further properties *)

Module Props.
Import Js.

(** At most one alert per chat, as the unique index has it. *)
Definition UniqueChats (alerts : list Db.AlertMessage) : Prop :=
  NoDup (map Db.chatId alerts).

(** An alert with its [lastSent] set to [now]. *)
Definition stamp (now : Z) (a : Db.AlertMessage) : Db.AlertMessage :=
  Db.mkAlertMessage (Db.chatId a) (Db.message a) (Db.interval a) now.

(** The alerts of the chats in [chats] stamped, the others as they are. *)
Definition stampAll (chats : list Z) (now : Z) (alerts : list Db.AlertMessage)
  : list Db.AlertMessage :=
  map (fun b => if existsb (Z.eqb (Db.chatId b)) chats then stamp now b else b)
      alerts.

(** The chats of the alerts whose send goes through. *)
Definition sentChats (env : Bot.Env) (due : list Db.AlertMessage) : list Z :=
  map Db.chatId (List.filter (fun a => Bot.sendMessageOk env (Db.chatId a)) due).

(** The send attempt of an alert. *)
Definition attempt (env : Bot.Env) (a : Db.AlertMessage) : Bot.ApiCall * bool :=
  (Bot.SendMessage (Db.chatId a) (Db.message a), Bot.sendMessageOk env (Db.chatId a)).

(** A call that deletes a message or bans a member. *)
Definition isModeration (c : Bot.ApiCall * bool) : bool :=
  match fst c with
  | Bot.DeleteMessage _ _ => true
  | Bot.BanChatMember _ _ => true
  | _ => false
  end.

(** A ban attempt. *)
Definition isBan (c : Bot.ApiCall * bool) : bool :=
  match fst c with
  | Bot.BanChatMember _ _ => true
  | _ => false
  end.

(** No stored count is negative. *)
Definition CountsNonNegative (st : Bot.State) : Prop :=
  forall k c, Bot.userWarningsAcrossSessions st !! k = Some c -> 0 <= c.

(** Everything of the state but the session entries. *)
Definition durable (st : Bot.State) :=
  (Bot.abusiveWords st, Bot.groupSettings st, Bot.dbAbusiveWords st,
   Bot.userWarningsAcrossSessions st, Bot.alertMessages st).

(** Every stored alert has a positive interval. *)
Definition IntervalsPositive (st : Bot.State) : Prop :=
  Forall (fun a => 0 < Db.interval a) (Bot.alertMessages st).

(** A word that starts and ends with a word character. *)
Definition WordShaped (w : string) : Prop :=
  RegExp.isWordAt (RegExp.headChar w) = true /\
  RegExp.isWordAt (Spec.lastChar None w) = true.

(** The count a warning shows. *)
Definition warningCount (m : Bot.Message) : option Z :=
  match m with
  | Bot.WarningForLanguage n => Some n
  | Bot.WarningForContent _ n => Some n
  | _ => None
  end.

(** [st'] differs from [st] at most in the count and the session entry
    of the pair [k]. *)
Definition SameElsewhere (k : Z * Z) (st st' : Bot.State) : Prop :=
  Bot.abusiveWords st' = Bot.abusiveWords st /\
  Bot.groupSettings st' = Bot.groupSettings st /\
  Bot.dbAbusiveWords st' = Bot.dbAbusiveWords st /\
  Bot.alertMessages st' = Bot.alertMessages st /\
  forall k', k' <> k ->
    Bot.userWarningsAcrossSessions st' !! k' = Bot.userWarningsAcrossSessions st !! k' /\
    Bot.session st' !! k' = Bot.session st !! k'.

(** Whether a stage, taken alone, flags the payload. *)
Definition flags (env : OpenAI.Env) (base64Image : string) (s : OpenAI.Stage) : bool :=
  match Spec.stageVerdict env base64Image s with Some _ => true | None => false end.

(** The in-memory word list holds lower-cased words, each once. *)
Definition Normalized (l : list string) : Prop :=
  NoDup l /\ Forall Spec.LowerCased l.

End Props.

(** ** Further sample collaborators, states and events *)

Module Cases.
Import Js.

(** Group 7 is reminded of its rules every ten minutes. *)
Definition rules : Db.AlertMessage := Db.mkAlertMessage 7 "Be kind" 10 0.

Definition withRules : Bot.State :=
  {| Bot.abusiveWords := Bot.abusiveWords Sample.fresh;
     Bot.groupSettings := ∅;
     Bot.dbAbusiveWords := [];
     Bot.userWarningsAcrossSessions := ∅;
     Bot.alertMessages := [rules];
     Bot.session := ∅ |}.

(** User 42 has two warnings in group 7. *)
Definition twoStrikes : Bot.State :=
  {| Bot.abusiveWords := Bot.abusiveWords Sample.fresh;
     Bot.groupSettings := ∅;
     Bot.dbAbusiveWords := [];
     Bot.userWarningsAcrossSessions := {[ (42, 7) := 2 ]};
     Bot.alertMessages := [];
     Bot.session := ∅ |}.

(** As [Sample.allGood], but Telegram refuses every [sendMessage]. *)
Definition sendFails (now : Z) : Bot.Env :=
  {| Bot.now := now;
     Bot.regexpEngine := fun _ => None;
     Bot.db := fun _ => Db.HReady;
     Bot.botCanManage := true;
     Bot.userIsAdmin := false;
     Bot.deleteMessageOk := true;
     Bot.banChatMemberOk := true;
     Bot.replyOk := fun _ => true;
     Bot.sendMessageOk := fun _ => false;
     Bot.writeFileOk := true;
     Bot.openai := Sample.offline |}.

(** As [Sample.allGood], but the counters collection is not connected
    when the count is read. *)
Definition countersDown (now : Z) : Bot.Env :=
  {| Bot.now := now;
     Bot.regexpEngine := fun _ => None;
     Bot.db := fun c => match c with
                        | Bot.WarningsRead => Db.HNull
                        | _ => Db.HReady
                        end;
     Bot.botCanManage := true;
     Bot.userIsAdmin := false;
     Bot.deleteMessageOk := true;
     Bot.banChatMemberOk := true;
     Bot.replyOk := fun _ => true;
     Bot.sendMessageOk := fun _ => true;
     Bot.writeFileOk := true;
     Bot.openai := Sample.offline |}.

(** As [Sample.allGood], but Telegram refuses to ban. *)
Definition banRefused (now : Z) : Bot.Env :=
  {| Bot.now := now;
     Bot.regexpEngine := fun _ => None;
     Bot.db := fun _ => Db.HReady;
     Bot.botCanManage := true;
     Bot.userIsAdmin := false;
     Bot.deleteMessageOk := true;
     Bot.banChatMemberOk := false;
     Bot.replyOk := fun _ => true;
     Bot.sendMessageOk := fun _ => true;
     Bot.writeFileOk := true;
     Bot.openai := Sample.offline |}.

(** As [Sample.allGood], with an administrator as the sender; the file
    of the word list can be written or not. *)
Definition administrator (now : Z) (diskOk : bool) : Bot.Env :=
  {| Bot.now := now;
     Bot.regexpEngine := fun _ => None;
     Bot.db := fun _ => Db.HReady;
     Bot.botCanManage := true;
     Bot.userIsAdmin := true;
     Bot.deleteMessageOk := true;
     Bot.banChatMemberOk := true;
     Bot.replyOk := fun _ => true;
     Bot.sendMessageOk := fun _ => true;
     Bot.writeFileOk := diskOk;
     Bot.openai := Sample.offline |}.

Definition handlesReady : Admin.Handles :=
  Admin.mkHandles Db.HReady Db.HReady Db.HReady Db.HReady Db.HReady.

(** The settings can be read but not written. *)
Definition handlesNoWrite : Admin.Handles :=
  Admin.mkHandles Db.HReady Db.HNull Db.HReady Db.HReady Db.HReady.

(** [/addword  Idiot ] by user 1 in group 7. *)
Definition addIdiot : Admin.CommandEvent :=
  {| Admin.commandPrivate := false;
     Admin.commandFrom := Some 1;
     Admin.commandChat := 7;
     Admin.commandMatch := " Idiot ";
     Admin.commandText := Some "/addword  Idiot " |}.




(** A configured classifier whose three remote stages pass. *)
Definition passing : OpenAI.Env :=
  Sample.classifier (Some (Some (OpenAI.mkModerationResult false None)))
                    (Some (Some "APPROPRIATE")) (Some (Some "hello")).

End Cases.

(* ===================================================================== *)
(** * Part II. Properties                                                 *)
(* ===================================================================== *)

(** ** Alert scheduler *)

Section AlertScheduler.
Import Db.

Lemma alertQuery_spec now a :
  alertQuery now a = true <-> now - lastSent a > interval a * 60000.
Proof. unfold alertQuery. rewrite Z.gtb_gt. lia. Qed.



(** An alert that was just set has never been sent, and is selected by
    any clock value past its interval, as every real clock value is. *)
Lemma new_alert_is_due chat msg ival now :
  now > ival * 60000 ->
  getAlertMessagesToSend HReady
    (fst (setAlertMessage HReady [] chat msg ival)) now
  = [mkAlertMessage chat msg ival 0].
Proof.
  intros H. simpl. unfold alertQuery. simpl.
  destruct (Z.gtb_spec now (0 + ival * 60000)); [reflexivity | lia].
Qed.

(** Once stamped at [sent], an alert is left alone up to and including
    [sent + interval * 60000]. *)
Lemma stamped_alert_waits chat msg ival sent now :
  now <= sent + ival * 60000 ->
  getAlertMessagesToSend HReady
    (fst (updateAlertMessageLastSent HReady [mkAlertMessage chat msg ival 0] chat sent))
    now
  = [].
Proof.
  intros H. simpl. rewrite Z.eqb_refl. simpl. unfold alertQuery. simpl.
  destruct (Z.gtb_spec now (sent + ival * 60000)); [lia | reflexivity].
Qed.

(** With the collection out of reach nothing is due. *)
Lemma unreachable_alerts_not_due alertMessages now :
  getAlertMessagesToSend HNull alertMessages now = [] /\
  getAlertMessagesToSend HThrows alertMessages now = [].
Proof. split; reflexivity. Qed.

End AlertScheduler.

(** ** JavaScript strings *)

Section JsFacts.
Import Js.

(** A fact about one character is checked on the 256 characters. *)
Ltac by_cases_on_char c :=
  destruct c as [[] [] [] [] [] [] [] []];
  vm_compute; try reflexivity; try congruence.

Lemma toLowerChar_idem c : toLowerChar (toLowerChar c) = toLowerChar c.
Proof. by_cases_on_char c. Qed.

Lemma toLower_toUpperChar c : toLowerChar (toUpperChar c) = toLowerChar c.
Proof. by_cases_on_char c. Qed.

Lemma isWhiteSpace_toLowerChar c : isWhiteSpace (toLowerChar c) = isWhiteSpace c.
Proof. by_cases_on_char c. Qed.

Lemma toLowerChar_whitespace c : isWhiteSpace c = true -> toLowerChar c = c.
Proof. by_cases_on_char c. Qed.

Lemma toLowerCase_idem s : toLowerCase (toLowerCase s) = toLowerCase s.
Proof.
  induction s as [|c s IH]; simpl; [reflexivity|].
  unfold toLowerCase in *. simpl. now rewrite toLowerChar_idem, IH.
Qed.

(** stdpp keeps [String.append] from unfolding under [simpl]; these
    two equations unfold it one step. *)
Lemma app_cons x a b : String x a +:+ b = String x (a +:+ b).
Proof. reflexivity. Qed.

Lemma app_nil_l b : EmptyString +:+ b = b.
Proof. reflexivity. Qed.

Lemma mapChars_app f a b : mapChars f (a +:+ b) = mapChars f a +:+ mapChars f b.
Proof.
  induction a as [|c a IH]; [reflexivity|].
  rewrite app_cons. simpl. now rewrite app_cons, IH.
Qed.

Lemma toLowerCase_app a b : toLowerCase (a +:+ b) = toLowerCase a +:+ toLowerCase b.
Proof. apply mapChars_app. Qed.

Lemma app_assoc_s (a b c : string) : (a +:+ b) +:+ c = a +:+ b +:+ c.
Proof.
  induction a as [|x a IH]; [reflexivity|]. now rewrite !app_cons, IH.
Qed.

Lemma app_empty_r (a : string) : a +:+ EmptyString = a.
Proof.
  induction a as [|x a IH]; [reflexivity|]. now rewrite app_cons, IH.
Qed.

Lemma app_inv_length (a a' b b' : string) :
  String.length a = String.length a' -> a +:+ b = a' +:+ b' -> a = a' /\ b = b'.
Proof.
  revert a'. induction a as [|x a IH]; intros [|x' a'] Hlen Heq;
    rewrite ?app_cons, ?app_nil_l in Heq; simpl in Hlen; try discriminate;
    [now split|].
  injection Hlen as Hlen. injection Heq as -> Heq.
  destruct (IH _ Hlen Heq) as [-> ->]. now split.
Qed.

Lemma mapChars_length f s : String.length (mapChars f s) = String.length s.
Proof. induction s as [|c s IH]; simpl; [reflexivity | now rewrite IH]. Qed.

(** [startsWith] and [includes] decide prefix and substring. *)
Lemma startsWith_spec p s : startsWith p s = true <-> exists post, s = p +:+ post.
Proof.
  revert s. induction p as [|a p IH]; intros s; simpl.
  - split; [intros _; now exists s | reflexivity].
  - destruct s as [|b s].
    + split; [discriminate | intros [post H]; discriminate].
    + rewrite andb_true_iff, Ascii.eqb_eq, IH. split.
      * intros [-> [post ->]]. now exists post.
      * intros [post H]. rewrite app_cons in H. injection H as -> ->.
        split; [reflexivity | now exists post].
Qed.

Lemma includes_spec s sub : includes s sub = true <-> Spec.Occurs sub s.
Proof.
  unfold Spec.Occurs. induction s as [|c s IH].
  - simpl. rewrite orb_false_r, startsWith_spec. split.
    + intros [post H]. now exists EmptyString, post.
    + intros [[|x pre] [post H]]; [now exists post | discriminate].
  - cbn [includes]. rewrite orb_true_iff, startsWith_spec, IH. split.
    + intros [[post H] | [pre [post H]]].
      * now exists EmptyString, post.
      * exists (String c pre), post. now rewrite app_cons, H.
    + intros [[|x pre] [post H]].
      * left. now exists post.
      * right. rewrite app_cons in H. injection H as -> ->. now exists pre, post.
Qed.

End JsFacts.

(** ** The boundary pattern on literal words *)

Section RegExpFacts.
Import Js RegExp Spec.

Lemma lastChar_app prev a b :
  lastChar prev (a +:+ b) = lastChar (lastChar prev a) b.
Proof.
  revert prev. induction a as [|x a IH]; intros prev; [reflexivity|].
  rewrite app_cons. simpl. apply IH.
Qed.

Lemma canonEqb_spec a b : canonEqb a b = true <-> toUpperChar a = toUpperChar b.
Proof. unfold canonEqb. apply Ascii.eqb_eq. Qed.

(** [matchLiteral] consumes exactly a canonical copy of the word. *)
Lemma matchLiteral_spec w : forall prev t p rest,
  matchLiteral prev w t = Some (p, rest) <->
  exists mid, t = mid +:+ rest /\ toUpperCase mid = toUpperCase w /\
              p = lastChar prev mid.
Proof.
  induction w as [|a w IH]; intros prev t p rest; simpl.
  - split.
    + intros [= <- <-]. now exists EmptyString.
    + intros [[|x mid] (Ht & Hc & Hp)]; [|discriminate].
      rewrite app_nil_l in Ht. now subst.
  - destruct t as [|b t].
    + split; [discriminate|].
      intros [[|x mid] (Ht & Hc & Hp)]; discriminate.
    + destruct (canonEqb a b) eqn:Hab.
      * rewrite IH. apply canonEqb_spec in Hab. split.
        -- intros (mid & -> & Hc & ->). exists (String b mid).
           rewrite app_cons. simpl. unfold toUpperCase in *. simpl.
           now rewrite Hab, Hc.
        -- intros ([|x mid] & Ht & Hc & Hp); [discriminate|].
           rewrite app_cons in Ht. injection Ht as <- ->.
           unfold toUpperCase in Hc. simpl in Hc. injection Hc as _ Hc.
           now exists mid.
      * split; [discriminate|].
        intros ([|x mid] & Ht & Hc & Hp); [discriminate|].
        rewrite app_cons in Ht. injection Ht as <- ->.
        unfold toUpperCase in Hc. simpl in Hc. injection Hc as Hx _.
        symmetry in Hx. apply canonEqb_spec in Hx. congruence.
Qed.

Lemma matchAt_spec prev w t :
  matchAt prev w t = true <->
  exists mid post,
    t = mid +:+ post /\ toUpperCase mid = toUpperCase w /\
    atBoundary prev (headChar (mid +:+ post)) = true /\
    atBoundary (lastChar prev mid) (headChar post) = true.
Proof.
  unfold matchAt. rewrite andb_true_iff. split.
  - intros [Hb Hm].
    destruct (matchLiteral prev w t) as [[p rest]|] eqn:E; [|discriminate].
    apply matchLiteral_spec in E as (mid & -> & Hc & ->).
    now exists mid, rest.
  - intros (mid & post & -> & Hc & Hb1 & Hb2). split; [exact Hb1|].
    assert (E : matchLiteral prev w (mid +:+ post)
                = Some (lastChar prev mid, post)).
    { apply matchLiteral_spec. now exists mid. }
    now rewrite E.
Qed.

(** [test] finds a match exactly when the input splits around a
    canonical copy of the word with a boundary on both sides. *)
Lemma searchFrom_spec w : forall t prev,
  searchFrom prev w t = true <->
  exists pre mid post,
    t = pre +:+ mid +:+ post /\ toUpperCase mid = toUpperCase w /\
    atBoundary (lastChar prev pre) (headChar (mid +:+ post)) = true /\
    atBoundary (lastChar prev (pre +:+ mid)) (headChar post) = true.
Proof.
  induction t as [|c t IH]; intros prev; cbn [searchFrom];
    rewrite orb_true_iff, matchAt_spec.
  - split.
    + intros [(mid & post & H) | H]; [|discriminate].
      exists EmptyString, mid, post. now rewrite !app_nil_l.
    + intros ([|x pre] & mid & post & Ht & H); [|discriminate].
      rewrite !app_nil_l in *. left. now exists mid, post.
  - rewrite IH. split.
    + intros [(mid & post & H) | (pre & mid & post & -> & Hc & Hb1 & Hb2)].
      * exists EmptyString, mid, post. now rewrite !app_nil_l.
      * exists (String c pre), mid, post. now rewrite !app_cons.
    + intros ([|x pre] & mid & post & Ht & Hc & Hb1 & Hb2).
      * rewrite !app_nil_l in *. left. now exists mid, post.
      * rewrite !app_cons in *. injection Ht as <- ->. simpl in Hb1.
        right. now exists pre, mid, post.
Qed.

Lemma toLower_toUpperCase s : toLowerCase (toUpperCase s) = toLowerCase s.
Proof.
  unfold toLowerCase, toUpperCase.
  induction s as [|c s IH]; simpl; [reflexivity|].
  now rewrite toLower_toUpperChar, IH.
Qed.

Lemma LowerCased_canon a b :
  LowerCased a -> LowerCased b -> toUpperCase a = toUpperCase b -> a = b.
Proof.
  unfold LowerCased. intros Ha Hb H.
  rewrite <- Ha, <- Hb, <- (toLower_toUpperCase a), <- (toLower_toUpperCase b).
  now rewrite H.
Qed.

Lemma LowerCased_app a b : LowerCased (a +:+ b) -> LowerCased a /\ LowerCased b.
Proof.
  unfold LowerCased. rewrite toLowerCase_app. intros H.
  apply app_inv_length in H; [exact H|]. apply mapChars_length.
Qed.

Lemma LowerCased_toLowerCase s : LowerCased (toLowerCase s).
Proof. apply toLowerCase_idem. Qed.

(** On lower-cased word and text, as [containsAbusiveWord] passes them,
    the pattern of a literal word matches exactly when the word occurs
    between two word boundaries. *)
Lemma testLiteral_lower w t :
  LowerCased w -> LowerCased t ->
  testLiteral w t = true <-> OccursAtBoundary w t.
Proof.
  intros Hw Ht. unfold testLiteral, OccursAtBoundary.
  rewrite searchFrom_spec. split.
  - intros (pre & mid & post & E & Hc & Hb1 & Hb2).
    assert (mid = w) as ->.
    { apply LowerCased_canon; [|exact Hw|exact Hc].
      rewrite E in Ht. apply LowerCased_app in Ht as [_ Ht].
      now apply LowerCased_app in Ht as [Ht _]. }
    now exists pre, post.
  - intros (pre & post & E & Hb1 & Hb2). now exists pre, w, post.
Qed.

End RegExpFacts.

(** ** The word matcher *)

Section WordMatcher.
Import Js RegExp Spec.

Lemma wordHits_spec env lowerText word :
  LowerCased lowerText ->
  Bot.wordHits env lowerText word = true <->
  TermHits (Bot.regexpEngine env) lowerText word.
Proof.
  intros Ht. unfold Bot.wordHits, TermHits, boundary.
  destruct (isLiteral (toLowerCase word)).
  - apply testLiteral_lower; [apply LowerCased_toLowerCase | exact Ht].
  - destruct (Bot.regexpEngine env (toLowerCase word)); [reflexivity|].
    apply includes_spec.
Qed.

Lemma scanWords_spec env lowerText words :
  Bot.scanWords env lowerText words = true <->
  exists word, In word words /\ Bot.wordHits env lowerText word = true.
Proof.
  induction words as [|w words IH]; simpl.
  - split; [discriminate | intros (? & [] & _)].
  - destruct (Bot.wordHits env lowerText w) eqn:E.
    + split; [intros _; exists w; auto | reflexivity].
    + rewrite IH. split.
      * intros (x & Hin & Hx). exists x. auto.
      * intros (x & [<- | Hin] & Hx); [congruence | now exists x].
Qed.

Lemma scanWords_app env lowerText l1 l2 :
  Bot.scanWords env lowerText (l1 ++ l2) =
  (Bot.scanWords env lowerText l1 || Bot.scanWords env lowerText l2)%bool.
Proof.
  induction l1 as [|w l1 IH]; simpl; [reflexivity|].
  destruct (Bot.wordHits env lowerText w); [reflexivity | exact IH].
Qed.

Lemma detectionOnb_spec env st chatId :
  detectionOnb env st chatId = true <-> DetectionOn env st chatId.
Proof.
  unfold detectionOnb, DetectionOn. destruct chatId as [chat|]; [|tauto].
  destruct (truthyNum chat); simpl; [|split; [discriminate | reflexivity]].
  split; [intros H _; exact H | intros H; now apply H].
Qed.

(** On a non-empty string the check is the conjunction of the setting
    and of the scan of the two lists. *)
Lemma containsAbusiveWord_nonempty env st c t chatId :
  Bot.containsAbusiveWord env st (Some (String c t)) chatId =
  (detectionOnb env st chatId &&
   Bot.scanWords env (toLowerCase (String c t)) (termList env st chatId))%bool.
Proof.
  unfold Bot.containsAbusiveWord, detectionOnb, termList.
  rewrite scanWords_app. cbn [isEmpty].
  destruct chatId as [chat|]; cbn [negb andb orb].
  - destruct (truthyNum chat); cbn [negb andb orb].
    + destruct (Db.abusiveWordsEnabled _); cbn [negb andb orb]; [|reflexivity].
      now destruct (Bot.scanWords env _ (Bot.abusiveWords st)).
    + destruct (Bot.scanWords env _ (Bot.abusiveWords st)); reflexivity.
  - destruct (Bot.scanWords env _ (Bot.abusiveWords st)); reflexivity.
Qed.



End WordMatcher.

(** ** Term-list mutation *)

Section TermList.
Import Js Spec.

Lemma isEmpty_false s : isEmpty s = false <-> s <> EmptyString.
Proof. destruct s; simpl; split; congruence. Qed.

Lemma isEmpty_mapChars f s : isEmpty (mapChars f s) = isEmpty s.
Proof. now destruct s. Qed.

Lemma toLowerCase_trimStart s : toLowerCase (trimStart s) = trimStart (toLowerCase s).
Proof.
  unfold toLowerCase. induction s as [|c s IH]; simpl; [reflexivity|].
  rewrite isWhiteSpace_toLowerChar. now destruct (isWhiteSpace c).
Qed.

Lemma toLowerCase_trimEnd s : toLowerCase (trimEnd s) = trimEnd (toLowerCase s).
Proof.
  unfold toLowerCase. induction s as [|c s IH]; simpl; [reflexivity|].
  rewrite isWhiteSpace_toLowerChar, <- IH, isEmpty_mapChars.
  now destruct (isWhiteSpace c && isEmpty (trimEnd s))%bool.
Qed.

Lemma toLowerCase_trim s : toLowerCase (trim s) = trim (toLowerCase s).
Proof. unfold trim. now rewrite toLowerCase_trimEnd, toLowerCase_trimStart. Qed.







Lemma includes_word_spec n (l : list string) :
  existsb (String.eqb n) l = true <-> In n l.
Proof.
  rewrite existsb_exists. split.
  - intros (x & Hin & Hx). apply String.eqb_eq in Hx. now subst.
  - intros Hin. exists n. split; [exact Hin | apply String.eqb_refl].
Qed.


(** In a list of lower-cased words, a word that is not a member matches
    no member. *)
Lemma absent_from_lowercased_list n (l : list string) :
  Forall LowerCased l -> ~ In n l ->
  forall w, In w l -> toLowerCase w <> n.
Proof.
  intros Hl Hn w Hw E. rewrite List.Forall_forall in Hl.
  rewrite (Hl w Hw) in E. subst. contradiction.
Qed.

Lemma sameDoc_spec chat word d : Db.sameDoc chat word d = true <-> d = (chat, word).
Proof.
  destruct d as [c w]. unfold Db.sameDoc. simpl.
  rewrite andb_true_iff, Z.eqb_eq, String.eqb_eq. split.
  - now intros [-> ->].
  - now intros [= -> ->].
Qed.

Lemma findOne_spec chat word docs :
  existsb (Db.sameDoc chat word) docs = true <-> In (chat, word) docs.
Proof.
  rewrite existsb_exists. split.
  - intros (d & Hin & Hd). apply sameDoc_spec in Hd. now subst.
  - intros Hin. exists (chat, word). split; [exact Hin | now apply sameDoc_spec].
Qed.





Lemma normalize_nonempty word :
  normalize word <> EmptyString -> isEmpty word = false.
Proof. destruct word; [intros H; now contradiction H | reflexivity]. Qed.

Lemma addAbusiveWord_list env st word chatId :
  Bot.abusiveWords (fst (Bot.addAbusiveWord env st word chatId))
  = if existsb (String.eqb (normalize word)) (Bot.abusiveWords st)
    then Bot.abusiveWords st
    else Bot.abusiveWords st ++ [normalize word].
Proof.
  unfold Bot.addAbusiveWord. fold (normalize word).
  destruct (existsb _ (Bot.abusiveWords st)); cbn [negb].
  - destruct chatId as [chat|]; [destruct (truthyNum chat)|]; reflexivity.
  - destruct (Bot.writeFileOk env); cbn [negb]; [|reflexivity].
    destruct chatId as [chat|]; [destruct (truthyNum chat)|]; reflexivity.
Qed.

Lemma removeAbusiveWord_list env st word chatId :
  Bot.abusiveWords (fst (Bot.removeAbusiveWord env st word chatId))
  = match Bot.spliceFirst (normalize word) (Bot.abusiveWords st) with
    | Some l => l
    | None => Bot.abusiveWords st
    end.
Proof.
  unfold Bot.removeAbusiveWord. fold (normalize word).
  destruct (Bot.spliceFirst _ (Bot.abusiveWords st)).
  - destruct (Bot.writeFileOk env); cbn [negb]; [|reflexivity].
    destruct chatId as [chat|]; [destruct (truthyNum chat)|]; reflexivity.
  - destruct chatId as [chat|]; [destruct (truthyNum chat)|]; reflexivity.
Qed.








End TermList.

(** ** The image moderation cascade *)

Section Cascade.
Import Js OpenAI Spec.

Variable env : Env.
Variable base64Image : string.

Lemma cascade_run : cascade env base64Image = run env base64Image stageOrder initialLocals.
Proof. reflexivity. Qed.

Lemma stageOrder_split s : stageOrder = before s ++ s :: after s.
Proof. now destruct s. Qed.

(** A stage entered with nothing flagged so far records itself and
    reports its own verdict. *)
Lemma step_clean s l :
  isInappropriate l = false ->
  entered (step env base64Image s l) = entered l ++ [s] /\
  match stageVerdict env base64Image s with
  | Some r => isInappropriate (step env base64Image s l) = true /\
              reason (step env base64Image s l) = r
  | None => isInappropriate (step env base64Image s l) = false
  end.
Proof.
  intros Hl. destruct l as [i r e]. cbn [isInappropriate] in Hl. subst i.
  destruct s; unfold step, stageVerdict.
  - unfold primary, enter. cbn [isInappropriate reason entered].
    destruct (moderationsCreate env base64Image) as [[[[] c]|]|];
      cbn [isInappropriate reason entered flagged]; auto.
  - unfold secondary, enter. cbn [isInappropriate reason entered negb].
    destruct (chatCompletions env VisionPrompt base64Image) as [resp|];
      cbn [isInappropriate reason entered]; auto.
    destruct (includes _ "INAPPROPRIATE");
      cbn [isInappropriate reason entered]; auto.
  - unfold patternScan, enter. cbn [isInappropriate reason entered negb].
    destruct (Nat.ltb 0 _); cbn [isInappropriate reason entered]; auto.
  - unfold ocr, enter. cbn [isInappropriate reason entered negb].
    destruct (chatCompletions env OcrPrompt base64Image) as [resp|];
      cbn [isInappropriate reason entered]; auto.
    destruct (Nat.ltb 0 _); cbn [isInappropriate reason entered]; auto.
  - unfold directPattern, enter. cbn [isInappropriate reason entered negb].
    destruct (existsb _ slut_patterns); cbn [isInappropriate reason entered]; auto.
Qed.

(** Once something is flagged, every later block is skipped. *)
Lemma step_skipped s l :
  s <> Primary -> isInappropriate l = true -> step env base64Image s l = l.
Proof.
  intros Hs Hl. destruct s; simpl; try congruence.
  - unfold secondary. now rewrite Hl.
  - unfold patternScan. now rewrite Hl.
  - unfold ocr. now rewrite Hl.
  - unfold directPattern. now rewrite Hl.
Qed.

Lemma run_app stages1 stages2 l :
  run env base64Image (stages1 ++ stages2) l =
  run env base64Image stages2 (run env base64Image stages1 l).
Proof. apply fold_left_app. Qed.

Lemma run_cons s stages l :
  run env base64Image (s :: stages) l =
  run env base64Image stages (step env base64Image s l).
Proof. reflexivity. Qed.

Lemma run_skipped stages l :
  ~ In Primary stages -> isInappropriate l = true ->
  run env base64Image stages l = l.
Proof.
  revert l. induction stages as [|s stages IH]; intros l Hnot Hl; [reflexivity|].
  rewrite run_cons, step_skipped; [|intros ->; apply Hnot; now left|exact Hl].
  apply IH; [|exact Hl]. intros H. apply Hnot. now right.
Qed.

Lemma run_clean stages : forall l,
  isInappropriate l = false ->
  (forall s, In s stages -> stageVerdict env base64Image s = None) ->
  isInappropriate (run env base64Image stages l) = false /\
  entered (run env base64Image stages l) = entered l ++ stages.
Proof.
  induction stages as [|s stages IH]; intros l Hl Hnone.
  - cbn [run fold_left]. now rewrite app_nil_r.
  - rewrite run_cons. destruct (step_clean s l Hl) as [He Hv].
    rewrite (Hnone s) in Hv by now left.
    destruct (IH (step env base64Image s l) Hv) as [Hi He'].
    { intros s' Hs'. apply Hnone. now right. }
    split; [exact Hi|]. rewrite He', He, <- app_assoc. reflexivity.
Qed.

Lemma Primary_not_after s : ~ In Primary (after s).
Proof. destruct s; simpl; intuition discriminate. Qed.

(** The local variables at the end of the cascade when [s] is the
    first stage that flags. *)
Lemma cascade_first_flag s r :
  stageVerdict env base64Image s = Some r ->
  (forall s', In s' (before s) -> stageVerdict env base64Image s' = None) ->
  isInappropriate (cascade env base64Image) = true /\
  reason (cascade env base64Image) = r /\
  entered (cascade env base64Image) = before s ++ [s].
Proof.
  intros Hs Hbefore.
  rewrite cascade_run, (stageOrder_split s), run_app.
  destruct (run_clean (before s) initialLocals eq_refl Hbefore) as [Hi He].
  rewrite run_cons.
  destruct (step_clean s _ Hi) as [He' Hv]. rewrite Hs in Hv.
  destruct Hv as [Hi' Hr].
  rewrite run_skipped; [|apply Primary_not_after|exact Hi'].
  repeat split; [exact Hi' | exact Hr |].
  rewrite He', He. reflexivity.
Qed.

(** The local variables at the end of the cascade when no stage flags. *)
Lemma cascade_no_flag :
  (forall s, stageVerdict env base64Image s = None) ->
  isInappropriate (cascade env base64Image) = false /\
  entered (cascade env base64Image) = stageOrder.
Proof.
  intros Hnone. rewrite cascade_run.
  apply (run_clean stageOrder initialLocals eq_refl). auto.
Qed.

End Cascade.

(** ** Verdicts of [moderateImage] *)

Section Verdicts.
Import Js OpenAI Spec.

(** [moderateImage] either stops before the cascade or reports the
    local variables at its end. *)
Lemma moderateImage_payload env imageBuffer :
  moderateImage env imageBuffer =
  match payload env imageBuffer with
  | None => (notInappropriate, [])
  | Some base64Image =>
      let l := cascade env base64Image in
      (mkVerdict (isInappropriate l)
         (if isInappropriate l then Some (reason l) else None),
       entered l)
  end.
Proof.
  unfold moderateImage, payload.
  destruct imageBuffer as [b|]; [|reflexivity].
  destruct (OPENAI_API_KEY env) as [key|]; [|reflexivity].
  destruct (isEmpty key); [reflexivity|].
  destruct (negb (tempDirExists env) && negb (mkdirOk env))%bool; [reflexivity|].
  destruct (resizedImageBuffer env b); reflexivity.
Qed.

Lemma first_flag_verdict env imageBuffer base64Image s r :
  payload env imageBuffer = Some base64Image ->
  stageVerdict env base64Image s = Some r ->
  (forall s', In s' (before s) -> stageVerdict env base64Image s' = None) ->
  moderateImage env imageBuffer = (mkVerdict true (Some r), before s ++ [s]).
Proof.
  intros Hp Hs Hbefore.
  rewrite moderateImage_payload, Hp. cbv zeta.
  destruct (cascade_first_flag env base64Image s r Hs Hbefore) as (-> & -> & ->).
  reflexivity.
Qed.

Lemma no_flag_verdict env imageBuffer base64Image :
  payload env imageBuffer = Some base64Image ->
  (forall s, stageVerdict env base64Image s = None) ->
  moderateImage env imageBuffer = (notInappropriate, stageOrder).
Proof.
  intros Hp Hnone.
  rewrite moderateImage_payload, Hp. cbv zeta.
  destruct (cascade_no_flag env base64Image Hnone) as (-> & ->).
  reflexivity.
Qed.

(** C6: the cascade runs in order and stops at the first stage that
    flags.  When [s] flags the classified payload with reason [r] and
    no stage before [s] flags it, the verdict is flagged with reason [r]
    and the stages entered are exactly those before [s], in order,
    followed by [s]: no later stage is entered.  For the primary stage
    nothing comes before, so a flag there leaves it the only stage
    entered. *)
Theorem C6_first_flagging_stage_decides :
  forall (env : Env) (imageBuffer : option Buffer) (base64Image : string)
         (s : Stage) (r : string),
    payload env imageBuffer = Some base64Image ->
    stageVerdict env base64Image s = Some r ->
    (forall s', In s' (before s) -> stageVerdict env base64Image s' = None) ->
    moderateImage env imageBuffer = (mkVerdict true (Some r), before s ++ [s]) /\
    (s = Primary -> snd (moderateImage env imageBuffer) = [Primary]).
Proof.
  intros env img b64 s r Hp Hs Hbefore.
  rewrite (first_flag_verdict env img b64 s r Hp Hs Hbefore).
  split; [reflexivity | now intros ->].
Qed.

(** Every stage that flags gives a reason of its own shape. *)
Lemma labelled label rest detail :
  rest = ": " +:+ detail ->
  exists d, label +:+ rest = label +:+ ": " +:+ d.
Proof. intros ->. now exists detail. Qed.

Lemma stageVerdict_reason env base64Image s r :
  stageVerdict env base64Image s = Some r -> ReasonOf s r.
Proof.
  destruct s; unfold stageVerdict, ReasonOf, stageLabel.
  - destruct (moderationsCreate env base64Image) as [[[f c]|]|]; try discriminate.
    cbn [flagged]. destruct f; [|discriminate]. intros [= <-].
    unfold primaryReason. destruct c as [cats|]; [|now left].
    generalize (map fst (List.filter snd cats)). intros [|x l]; [now left|].
    right. exists (x :: l). split; [discriminate | reflexivity].
  - destruct (chatCompletions env VisionPrompt base64Image) as [resp|];
      [|discriminate].
    cbv zeta. generalize (match resp with Some c => trim c | None => EmptyString end).
    intros content. destruct (includes _ "INAPPROPRIATE"); [|discriminate].
    intros [= <-]. unfold secondaryReason.
    destruct (includes content ":");
      [|apply (labelled "Secondary detection" _ "Inappropriate content");
        reflexivity].
    destruct (nth_error (split ":" content) 1) as [part|];
      [|apply (labelled "Secondary detection" _ "Inappropriate content");
        reflexivity].
    generalize (trim part). intros reasonPart.
    destruct (isEmpty reasonPart);
      [apply (labelled "Secondary detection" _ "Inappropriate content")
      |apply (labelled "Secondary detection" _ reasonPart)];
      reflexivity.
  - cbv zeta. generalize (termsInPayload base64Image). intros found.
    destruct (Nat.ltb 0 (List.length found)); [|discriminate]. intros [= <-].
    apply (labelled "Pattern matching" _
             ("Found explicit terms (" +:+ join ", " found +:+ ")")).
    generalize (join ", " found +:+ ")"). reflexivity.
  - destruct (chatCompletions env OcrPrompt base64Image) as [resp|]; [|discriminate].
    cbv zeta.
    generalize (termsInText
      (match resp with Some c => toLowerCase (trim c) | None => EmptyString end)).
    intros found.
    destruct (Nat.ltb 0 (List.length found)); [|discriminate]. intros [= <-].
    apply (labelled "OCR detection" _
             ("Found explicit terms (" +:+ join ", " found +:+ ")")).
    generalize (join ", " found +:+ ")"). reflexivity.
  - generalize (existsb (includes base64Image) slut_patterns).
    intros [|]; [|discriminate]. intros [= <-].
    apply (labelled "Direct pattern matching" _ "Detected explicit text").
    reflexivity.
Qed.

(** C8 (as amended): a verdict that is not flagged carries no reason.  A
    flagged verdict carries the reason of the stage that flagged, which
    is the last stage entered.  For the secondary pass, the payload scan,
    the text extraction and the direct patterns that reason starts with
    the label of the stage and a colon; for the primary stage it is
    [Inappropriate content detected] or [Flagged categories: ...],
    without any mention of the stage. *)
Theorem C8_reason_of_the_flagging_stage :
  forall (env : Env) (imageBuffer : option Buffer),
    let verdict := fst (moderateImage env imageBuffer) in
    let stages := snd (moderateImage env imageBuffer) in
    (verdictInappropriate verdict = false /\ verdictReason verdict = None) \/
    (exists base64Image s r,
        payload env imageBuffer = Some base64Image /\
        stageVerdict env base64Image s = Some r /\
        verdictInappropriate verdict = true /\
        verdictReason verdict = Some r /\
        stages = before s ++ [s] /\
        ReasonOf s r).
Proof.
  intros env img. cbv zeta.
  destruct (payload env img) as [b64|] eqn:Hp.
  2:{ rewrite moderateImage_payload, Hp. now left. }
  assert (Hflag : forall s r,
    stageVerdict env b64 s = Some r ->
    (forall s', In s' (before s) -> stageVerdict env b64 s' = None) ->
    exists base64Image s r,
      Some b64 = Some base64Image /\
      stageVerdict env base64Image s = Some r /\
      verdictInappropriate (fst (moderateImage env img)) = true /\
      verdictReason (fst (moderateImage env img)) = Some r /\
      snd (moderateImage env img) = before s ++ [s] /\ ReasonOf s r).
  { intros s r Hs Hb. exists b64, s, r.
    rewrite (first_flag_verdict env img b64 s r Hp Hs Hb).
    repeat split; [exact Hs|]. now apply (stageVerdict_reason env b64). }
  destruct (stageVerdict env b64 Primary) as [r|] eqn:H1.
  { right. apply (Hflag Primary r H1). intros s' []. }
  destruct (stageVerdict env b64 Secondary) as [r|] eqn:H2.
  { right. apply (Hflag Secondary r H2). intros s' [<-|[]]. exact H1. }
  destruct (stageVerdict env b64 PatternScan) as [r|] eqn:H3.
  { right. apply (Hflag PatternScan r H3). intros s' [<-|[<-|[]]]; assumption. }
  destruct (stageVerdict env b64 Ocr) as [r|] eqn:H4.
  { right. apply (Hflag Ocr r H4). intros s' [<-|[<-|[<-|[]]]]; assumption. }
  destruct (stageVerdict env b64 DirectPattern) as [r|] eqn:H5.
  { right. apply (Hflag DirectPattern r H5).
    intros s' [<-|[<-|[<-|[<-|[]]]]]; assumption. }
  left. rewrite (no_flag_verdict env img b64 Hp); [now split|].
  intros []; assumption.
Qed.

Lemma Prefixed_head name c s :
  name <> EmptyString -> Prefixed name (String c s) ->
  exists rest, name = String c rest.
Proof.
  intros Hne [rest H]. destruct name as [|x name]; [congruence|].
  rewrite app_cons in H. injection H as -> _. now exists name.
Qed.

(** The specification's wording asks for the name of the stage in
    front of every reason.  The two reasons that the primary stage gives
    begin with different letters, so no name at all is in front of
    both. *)
Lemma C8_primary_reasons_share_no_prefix :
  moderateImage Sample.flagsBare (Some Sample.tinyImage)
    = (mkVerdict true (Some "Inappropriate content detected"), [Primary]) /\
  moderateImage Sample.flagsViolence (Some Sample.tinyImage)
    = (mkVerdict true (Some "Flagged categories: violence"), [Primary]) /\
  forall name,
    name <> EmptyString ->
    ~ (Prefixed name "Inappropriate content detected" /\
       Prefixed name "Flagged categories: violence").
Proof.
  split; [vm_compute; reflexivity|]. split; [vm_compute; reflexivity|].
  intros name Hne [H1 H2].
  apply Prefixed_head in H1 as [r1 E1]; [|exact Hne].
  apply Prefixed_head in H2 as [r2 E2]; [|exact Hne].
  congruence.
Qed.

(** C10: without a configured API key (unset or empty), and likewise for
    an argument that is not a buffer, [moderateImage] answers "not
    inappropriate", without a reason, and enters no stage of the
    cascade, the local ones included. *)
Theorem C10_no_key_or_no_buffer_enters_no_stage :
  forall (env : Env) (imageBuffer : option Buffer),
    OPENAI_API_KEY env = None \/
    OPENAI_API_KEY env = Some EmptyString \/
    imageBuffer = None ->
    moderateImage env imageBuffer = (mkVerdict false None, []).
Proof.
  intros env img H. unfold moderateImage.
  destruct img as [b|]; [|reflexivity].
  destruct H as [-> | [-> | H]]; [reflexivity | reflexivity | discriminate].
Qed.

End Verdicts.

(** ** Violation counters and session entries *)

Section Counters.
Import Js Spec.

Lemma truthyNum_true n : n <> 0 -> truthyNum n = true.
Proof. intros H. unfold truthyNum. now apply negb_true_iff, Z.eqb_neq. Qed.

(** The session entry of the user keeps its [lastWarning] through
    everything but [setLastWarning]. *)
Lemma lastWarningOf_initSession st u g :
  lastWarningOf (Bot.initSession st (u, g)) u g = lastWarningOf st u g.
Proof.
  unfold lastWarningOf, Bot.userData, Bot.initSession.
  destruct (Bot.session st !! (u, g)) as [d|] eqn:E; [now rewrite E|].
  cbn [Bot.session Bot.withSession]. now rewrite lookup_insert_eq.
Qed.

Lemma lastWarningOf_withWarnings st m u g :
  lastWarningOf (Bot.withWarnings st m) u g = lastWarningOf st u g.
Proof. reflexivity. Qed.

Lemma lastWarningOf_setAbusiveWordCount st u g n :
  lastWarningOf (Bot.setAbusiveWordCount st (u, g) n) u g = lastWarningOf st u g.
Proof.
  unfold lastWarningOf, Bot.userData at 1, Bot.setAbusiveWordCount.
  cbn [Bot.session Bot.withSession]. now rewrite lookup_insert_eq.
Qed.

Lemma lastWarningOf_setLastWarning st u g t :
  lastWarningOf (Bot.setLastWarning st (u, g) t) u g = t.
Proof.
  unfold lastWarningOf, Bot.userData at 1, Bot.setLastWarning.
  cbn [Bot.session Bot.withSession]. now rewrite lookup_insert_eq.
Qed.

Lemma cooldownOver_lastWarning env st st' u g :
  lastWarningOf st' u g = lastWarningOf st u g ->
  Bot.cooldownOver env st' (u, g) = Bot.cooldownOver env st (u, g).
Proof. unfold Bot.cooldownOver, lastWarningOf. now intros ->. Qed.

(** The durable count is touched by [withWarnings] only. *)
Lemma storedCount_withSession st m u g :
  storedCount (Bot.withSession st m) u g = storedCount st u g.
Proof. reflexivity. Qed.

Lemma storedCount_setAbusiveWordCount st k n u g :
  storedCount (Bot.setAbusiveWordCount st k n) u g = storedCount st u g.
Proof. reflexivity. Qed.

Lemma storedCount_setLastWarning st k t u g :
  storedCount (Bot.setLastWarning st k t) u g = storedCount st u g.
Proof. reflexivity. Qed.

Lemma storedCount_initSession st k u g :
  storedCount (Bot.initSession st k) u g = storedCount st u g.
Proof. unfold Bot.initSession. now destruct (Bot.session st !! k). Qed.

Lemma storedCount_insert st u g n :
  storedCount (Bot.withWarnings st (<[(u, g) := n]> (Bot.userWarningsAcrossSessions st))) u g = n.
Proof.
  unfold storedCount. cbn [Bot.userWarningsAcrossSessions Bot.withWarnings].
  now rewrite lookup_insert_eq.
Qed.

(** [countViolation] whatever the database does: the session keeps its
    [lastWarning]. *)
Lemma countViolation_lastWarning env st u g :
  lastWarningOf (fst (Bot.countViolation env st u g)) u g = lastWarningOf st u g.
Proof.
  unfold Bot.countViolation. cbn [fst].
  now rewrite lastWarningOf_setAbusiveWordCount, lastWarningOf_withWarnings.
Qed.

Lemma resetAfterBan_lastWarning env st u g :
  lastWarningOf (Bot.resetAfterBan env st u g) u g = lastWarningOf st u g.
Proof.
  unfold Bot.resetAfterBan.
  now rewrite lastWarningOf_setAbusiveWordCount, lastWarningOf_withWarnings.
Qed.

(** With the collection reachable, [countViolation] stores and returns
    the count it found plus one. *)
Lemma countViolation_ready env st u g :
  u <> 0 -> g <> 0 -> CountersReady env -> 0 <= storedCount st u g ->
  snd (Bot.countViolation env st u g) = storedCount st u g + 1 /\
  storedCount (fst (Bot.countViolation env st u g)) u g = storedCount st u g + 1.
Proof.
  intros Hu Hg (Hr & Hw & _) Hc.
  unfold Bot.countViolation, Db.getUserWarningsAcrossSessions,
    Db.updateUserWarningsAcrossSessions.
  rewrite Hr, Hw, (truthyNum_true u Hu), (truthyNum_true g Hg).
  cbn [negb orb fst snd].
  fold (storedCount st u g).
  assert (E : match Bot.userWarningsAcrossSessions st !! (u, g) with
              | Some count => count | None => 0 end = storedCount st u g).
  { unfold storedCount. now destruct (_ !! _). }
  rewrite E.
  destruct (Z.ltb_spec (storedCount st u g + 1) 0) as [Hneg|_]; [lia|].
  cbn [fst]. split; [reflexivity|].
  rewrite storedCount_setAbusiveWordCount. apply storedCount_insert.
Qed.

(** With the collection out of reach every violation arrives at count 1:
    the read answers [null], the write answers [false], and neither
    rejects, so the session count is not consulted. *)
Lemma countViolation_unreachable env st u g :
  Bot.db env Bot.WarningsRead <> Db.HReady ->
  snd (Bot.countViolation env st u g) = 1.
Proof.
  intros Hr. unfold Bot.countViolation, Db.getUserWarningsAcrossSessions.
  cbn [snd].
  destruct (negb (truthyNum u) || negb (truthyNum g))%bool; [reflexivity|].
  destruct (Bot.db env Bot.WarningsRead); [reflexivity | reflexivity | congruence].
Qed.

Lemma resetAfterBan_ready env st u g :
  u <> 0 -> g <> 0 -> CountersReady env ->
  storedCount (Bot.resetAfterBan env st u g) u g = 0.
Proof.
  intros Hu Hg (_ & _ & Hz).
  unfold Bot.resetAfterBan, Db.updateUserWarningsAcrossSessions.
  rewrite Hz, (truthyNum_true u Hu), (truthyNum_true g Hg).
  cbn [negb orb fst Z.ltb Z.compare].
  rewrite storedCount_setAbusiveWordCount. apply storedCount_insert.
Qed.

End Counters.

(** ** The escalation ladder *)

Section Escalation.
Import Js Spec.

(** Both handlers take the same decision on the new count. *)
Lemma escalate_ladder env st u g v :
  escalate env st u g v = ladder env st u g v.
Proof.
  unfold escalate, ladder.
  destruct v as [messageId|contentType].
  - unfold Bot.escalateText, deletionTrace, canWarn, bannedOf, banFailedNotice, warningOf.
    destruct (Bot.countViolation env (Bot.initSession st (u, g)) u g) as [st1 n].
    cbn [fst snd].
    destruct (Z.geb n 3).
    + destruct (Bot.banChatMemberOk env); [|now destruct (Bot.deleteMessageOk env)].
      destruct (Bot.replyOk env Bot.BannedForLanguage);
        now destruct (Bot.deleteMessageOk env).
    + destruct (Bot.deleteMessageOk env); [|reflexivity].
      now destruct (Bot.warn env st1 (u, g) (Bot.WarningForLanguage n)).
  - unfold Bot.handleInappropriateContent, deletionTrace, canWarn, bannedOf,
      banFailedNotice, warningOf.
    destruct (Bot.countViolation env (Bot.initSession st (u, g)) u g) as [st1 n].
    cbn [fst snd app].
    destruct (Z.geb n 3).
    + destruct (Bot.banChatMemberOk env); [|reflexivity].
      now destruct (Bot.replyOk env (Bot.BannedForContent contentType)).
    + now destruct (Bot.warn env st1 (u, g) (Bot.WarningForContent contentType n)).
Qed.




Lemma isSentWarning_banned v b : isSentWarning (Bot.Reply (bannedOf v), b) = false.
Proof. now destruct v, b. Qed.







Lemma escalate_stored env st u g v :
  u <> 0 -> g <> 0 -> CountersReady env -> 0 <= storedCount st u g ->
  (storedCount st u g + 1 < 3 ->
   storedCount (fst (escalate env st u g v)) u g = storedCount st u g + 1) /\
  0 <= storedCount (fst (escalate env st u g v)) u g.
Proof.
  intros Hu Hg Hdb Hc. rewrite escalate_ladder. unfold ladder.
  destruct (countViolation_ready env (Bot.initSession st (u, g)) u g Hu Hg Hdb)
    as [Hn Hs]; [now rewrite storedCount_initSession|].
  rewrite storedCount_initSession in Hn, Hs.
  set (st1 := fst (Bot.countViolation env (Bot.initSession st (u, g)) u g)) in *.
  rewrite Hn.
  assert (Hwarn : forall m, storedCount (fst (Bot.warn env st1 (u, g) m)) u g
                            = storedCount st u g + 1).
  { intros m. unfold Bot.warn.
    destruct (Bot.cooldownOver env st1 (u, g)); [|exact Hs].
    destruct (Bot.replyOk env m); [|exact Hs].
    cbn [fst]. now rewrite storedCount_setLastWarning. }
  destruct (Z.geb_spec (storedCount st u g + 1) 3) as [Hge|Hlt].
  - split; [lia|].
    destruct (Bot.banChatMemberOk env);
      [destruct (Bot.replyOk env (bannedOf v))|]; cbn [fst]; try lia.
    now rewrite (resetAfterBan_ready env st1 u g Hu Hg Hdb).
  - destruct (canWarn env v); cbn [fst]; rewrite ?Hwarn; lia.
Qed.

(** One violation when every collaborator answers. *)
Lemma escalate_cooperative env st u g v :
  u <> 0 -> g <> 0 -> CountersReady env -> TelegramAnswers env ->
  0 <= storedCount st u g ->
  (storedCount st u g + 1 < 3 ->
   snd (escalate env st u g v) =
     deletionTrace env g v
     ++ warningUnlessCooling env st u g v (storedCount st u g + 1)) /\
  (3 <= storedCount st u g + 1 ->
   snd (escalate env st u g v) =
     deletionTrace env g v
     ++ [(Bot.BanChatMember g u, true); (Bot.Reply (bannedOf v), true)] /\
   storedCount (fst (escalate env st u g v)) u g = 0).
Proof.
  intros Hu Hg Hdb (Hdel & Hban & Hreply) Hc.
  rewrite escalate_ladder. unfold ladder.
  destruct (countViolation_ready env (Bot.initSession st (u, g)) u g Hu Hg Hdb)
    as [Hn Hs]; [now rewrite storedCount_initSession|].
  rewrite storedCount_initSession in Hn, Hs.
  assert (Hcool : Bot.cooldownOver env
                    (fst (Bot.countViolation env (Bot.initSession st (u, g)) u g))
                    (u, g)
                  = Bot.cooldownOver env st (u, g)).
  { apply cooldownOver_lastWarning.
    now rewrite countViolation_lastWarning, lastWarningOf_initSession. }
  set (st1 := fst (Bot.countViolation env (Bot.initSession st (u, g)) u g)) in *.
  rewrite Hn, Hban, Hreply.
  assert (Hcan : canWarn env v = true) by (destruct v; [exact Hdel | reflexivity]).
  rewrite Hcan.
  destruct (Z.geb_spec (storedCount st u g + 1) 3) as [Hge|Hlt].
  - split; [lia|]. intros _. cbn [fst snd]. split; [reflexivity|].
    apply (resetAfterBan_ready env st1 u g Hu Hg Hdb).
  - split; [|lia]. intros _. cbn [fst snd]. f_equal.
    unfold Bot.warn, warningUnlessCooling. rewrite Hcool, Hreply.
    now destruct (Bot.cooldownOver env st (u, g)).
Qed.

(** The test of the code is the cooldown of the specification. *)
Lemma cooldownOver_elapsed env st u g :
  Bot.cooldownOver env st (u, g)
  = cooldownElapsed (Bot.now env) (lastWarningOf st u g).
Proof.
  unfold Bot.cooldownOver, cooldownElapsed, truthyNum.
  fold (lastWarningOf st u g). now rewrite negb_involutive.
Qed.

(** One violation when every collaborator answers, with the cooldown
    spelled out. *)
Lemma escalate_nominal env st u g v :
  u <> 0 -> g <> 0 -> CountersReady env -> TelegramAnswers env ->
  0 <= storedCount st u g ->
  (storedCount st u g + 1 < 3 ->
   snd (escalate env st u g v) =
     deletionTrace env g v
     ++ warningAfterCooldown (Bot.now env) (lastWarningOf st u g) v
          (storedCount st u g + 1) /\
   storedCount (fst (escalate env st u g v)) u g = storedCount st u g + 1 /\
   lastWarningOf (fst (escalate env st u g v)) u g
     = lastWarningAfter (Bot.now env) (lastWarningOf st u g)) /\
  (3 <= storedCount st u g + 1 ->
   snd (escalate env st u g v) =
     deletionTrace env g v
     ++ [(Bot.BanChatMember g u, true); (Bot.Reply (bannedOf v), true)] /\
   storedCount (fst (escalate env st u g v)) u g = 0 /\
   lastWarningOf (fst (escalate env st u g v)) u g = lastWarningOf st u g).
Proof.
  intros Hu Hg Hdb Htg Hc.
  destruct (escalate_cooperative env st u g v Hu Hg Hdb Htg Hc) as [W B].
  destruct (escalate_stored env st u g v Hu Hg Hdb Hc) as [S _].
  destruct Htg as (Hdel & Hban & Hreply).
  assert (Hlast : lastWarningOf
                    (fst (Bot.countViolation env (Bot.initSession st (u, g)) u g)) u g
                  = lastWarningOf st u g)
    by now rewrite countViolation_lastWarning, lastWarningOf_initSession.
  split.
  - intros Hlt. split; [|split; [exact (S Hlt)|]].
    + rewrite (W Hlt). unfold warningUnlessCooling, warningAfterCooldown.
      now rewrite cooldownOver_elapsed.
    + rewrite escalate_ladder. unfold ladder.
      destruct (countViolation_ready env (Bot.initSession st (u, g)) u g Hu Hg Hdb)
        as [Hn _]; [now rewrite storedCount_initSession|].
      rewrite storedCount_initSession in Hn. rewrite Hn.
      destruct (Z.geb_spec (storedCount st u g + 1) 3); [lia|].
      assert (Hcan : canWarn env v = true) by (destruct v; [exact Hdel | reflexivity]).
      rewrite Hcan. cbn [fst]. unfold Bot.warn, lastWarningAfter.
      rewrite cooldownOver_elapsed, Hlast, Hreply.
      destruct (cooldownElapsed (Bot.now env) (lastWarningOf st u g)); cbn [fst].
      * apply lastWarningOf_setLastWarning.
      * exact Hlast.
  - intros Hge. destruct (B Hge) as [Bt Bs]. split; [exact Bt|]. split; [exact Bs|].
    rewrite escalate_ladder. unfold ladder.
    destruct (countViolation_ready env (Bot.initSession st (u, g)) u g Hu Hg Hdb)
      as [Hn _]; [now rewrite storedCount_initSession|].
    rewrite storedCount_initSession in Hn. rewrite Hn.
    destruct (Z.geb_spec (storedCount st u g + 1) 3); [|lia].
    rewrite Hban, Hreply. cbn [fst].
    now rewrite resetAfterBan_lastWarning.
Qed.

(** C2 (as amended): the escalation ladder.  For a user and a chat whose
    stored count is 0, four violations in a row, with the counters
    reachable and Telegram answering: the first and the second are
    counted 1 and 2 and answered by the warning that shows the count,
    exactly when no warning went out to the user before or the last one
    is more than 60000 ms back, and by nothing otherwise; a warning that
    goes out becomes the last one.  The third is answered by the ban and
    its notice and leaves the stored count at 0; the fourth is counted 1
    and answered as the first, under the same cooldown. *)
Theorem C2_escalation_ladder :
  forall (e1 e2 e3 e4 : Bot.Env) (st : Bot.State) (u g : Z) (v1 v2 v3 v4 : Violation),
    u <> 0 -> g <> 0 ->
    CountersReady e1 /\ TelegramAnswers e1 ->
    CountersReady e2 /\ TelegramAnswers e2 ->
    CountersReady e3 /\ TelegramAnswers e3 ->
    CountersReady e4 /\ TelegramAnswers e4 ->
    storedCount st u g = 0 ->
    let r1 := escalate e1 st u g v1 in
    let r2 := escalate e2 (fst r1) u g v2 in
    let r3 := escalate e3 (fst r2) u g v3 in
    let r4 := escalate e4 (fst r3) u g v4 in
    let last0 := lastWarningOf st u g in
    let last1 := lastWarningAfter (Bot.now e1) last0 in
    let last2 := lastWarningAfter (Bot.now e2) last1 in
    (snd r1 = deletionTrace e1 g v1
              ++ warningAfterCooldown (Bot.now e1) last0 v1 1 /\
     storedCount (fst r1) u g = 1 /\
     lastWarningOf (fst r1) u g = last1) /\
    (snd r2 = deletionTrace e2 g v2
              ++ warningAfterCooldown (Bot.now e2) last1 v2 2 /\
     storedCount (fst r2) u g = 2 /\
     lastWarningOf (fst r2) u g = last2) /\
    (snd r3 = deletionTrace e3 g v3
              ++ [(Bot.BanChatMember g u, true); (Bot.Reply (bannedOf v3), true)] /\
     storedCount (fst r3) u g = 0 /\
     lastWarningOf (fst r3) u g = last2) /\
    (snd r4 = deletionTrace e4 g v4
              ++ warningAfterCooldown (Bot.now e4) last2 v4 1 /\
     storedCount (fst r4) u g = 1 /\
     lastWarningOf (fst r4) u g = lastWarningAfter (Bot.now e4) last2).
Proof.
  intros e1 e2 e3 e4 st u g v1 v2 v3 v4 Hu Hg [D1 T1] [D2 T2] [D3 T3] [D4 T4] H0.
  cbv zeta.
  destruct (escalate_nominal e1 st u g v1 Hu Hg D1 T1) as [W1 _]; [lia|].
  rewrite H0 in W1. destruct (W1 ltac:(lia)) as (W1t & W1s & W1l).
  set (st1 := fst (escalate e1 st u g v1)) in *.
  destruct (escalate_nominal e2 st1 u g v2 Hu Hg D2 T2) as [W2 _]; [lia|].
  rewrite W1s, W1l in W2. destruct (W2 ltac:(lia)) as (W2t & W2s & W2l).
  set (st2 := fst (escalate e2 st1 u g v2)) in *.
  destruct (escalate_nominal e3 st2 u g v3 Hu Hg D3 T3) as [_ B3]; [lia|].
  rewrite W2s, W2l in B3. destruct (B3 ltac:(lia)) as (B3t & B3s & B3l).
  set (st3 := fst (escalate e3 st2 u g v3)) in *.
  destruct (escalate_nominal e4 st3 u g v4 Hu Hg D4 T4) as [W4 _]; [lia|].
  rewrite B3s, B3l in W4. destruct (W4 ltac:(lia)) as (W4t & W4s & W4l).
  repeat split; assumption.
Qed.




(** The same decision seen from the text handler. *)
Lemma onMessageText_flagged env st ev u :
  Bot.textPrivate ev = false ->
  Bot.textFrom ev = Some u -> u <> 0 ->
  Db.abusiveWordsEnabled
    (Db.getGroupSettings (Bot.db env Bot.SettingsInHandler)
                         (Bot.groupSettings st) (Bot.textChat ev)) = true ->
  Bot.containsAbusiveWord env (Bot.initSession st (u, Bot.textChat ev))
    (Some (Bot.text ev)) (Some (Bot.textChat ev)) = true ->
  Bot.botCanManage env = true -> Bot.userIsAdmin env = false ->
  Bot.onMessageText env st ev =
  escalate env st u (Bot.textChat ev) (TextViolation (Bot.textMessageId ev)).
Proof.
  intros Hp Hf Hu Hs Hc Hb Ha. unfold Bot.onMessageText, escalate.
  now rewrite Hp, Hf, (truthyNum_true u Hu), Hs, Hc, Hb, Ha.
Qed.

(** C7 (as amended): when the deletion of a flagged text message fails,
    the handler says that it could not delete the message and asks to
    check its permissions; the violation is counted all the same; at a
    count of 3 or more the ban is attempted regardless; below 3 nothing
    else is sent, the warning being reserved to deleted messages.  When
    the deletion of a flagged image or video fails, the handler sends
    the corresponding notice and does nothing else: the state is as
    before, no count, no warning, no ban. *)
Theorem C7_failed_deletion :
  forall (env : Bot.Env) (st : Bot.State) (u g messageId : Z),
    Bot.deleteMessageOk env = false ->
    let r := escalate env st u g (TextViolation messageId) in
    (newCount env st u g < 3 ->
     snd r = couldNotDelete env g messageId /\
     fst r = fst (Bot.countViolation env (Bot.initSession st (u, g)) u g)) /\
    (3 <= newCount env st u g ->
     exists rest,
       snd r = couldNotDelete env g messageId
               ++ (Bot.BanChatMember g u, Bot.banChatMemberOk env) :: rest) /\
    (forall ev,
       FlaggedMedia env st ev ->
       Bot.onMessageMedia env st ev =
       (st, [(Bot.DeleteMessage (Bot.mediaChat ev) (Bot.mediaMessageId ev), false);
             (Bot.Reply Bot.CouldNotDeleteMedia,
              Bot.replyOk env Bot.CouldNotDeleteMedia)])).
Proof.
  intros env st u g messageId Hdel. cbv zeta.
  rewrite escalate_ladder. unfold ladder, newCount, couldNotDelete.
  cbn [deletionTrace canWarn]. rewrite Hdel.
  set (n := snd (Bot.countViolation env (Bot.initSession st (u, g)) u g)).
  split; [|split].
  - intros Hn. destruct (Z.geb_spec n 3); [lia|]. split; reflexivity.
  - intros Hn. destruct (Z.geb_spec n 3); [|lia].
    destruct (Bot.banChatMemberOk env);
      [destruct (Bot.replyOk env (bannedOf (TextViolation messageId)))|];
      cbn [snd]; eexists; reflexivity.
  - intros ev (Hp & (w & Hf & Hw) & Hs & Hb & Ha & b & buffer & Hfile & Hv).
    unfold Bot.onMessageMedia.
    now rewrite Hp, Hf, (truthyNum_true w Hw), Hs, Hb, Ha, Hfile, Hv, Hdel.
Qed.

End Escalation.

(** ** Group settings *)

Section Settings.
Import Spec.

(** C3 (as amended): when no settings document exists for a group, the
    lookup is not an error and answers with the default settings, in
    which abusive-word detection, image moderation and video moderation
    are all switched on; this is so whatever the state of the
    collection handle. *)
Theorem C3_absent_settings_are_the_enabling_defaults :
  forall (h : Db.Handle) (groupSettings : gmap Z Db.GroupSettings) (chat : Z),
    groupSettings !! chat = None ->
    Db.getGroupSettings h groupSettings chat = Db.getDefaultGroupSettings chat /\
    Db.abusiveWordsEnabled (Db.getGroupSettings h groupSettings chat) = true /\
    Bot.moderationEnabled Bot.Image (Db.getGroupSettings h groupSettings chat) = true /\
    Bot.moderationEnabled Bot.Video (Db.getGroupSettings h groupSettings chat) = true.
Proof.
  intros h gs chat Hnone.
  assert (E : Db.getGroupSettings h gs chat = Db.getDefaultGroupSettings chat).
  { unfold Db.getGroupSettings. rewrite Hnone.
    destruct (negb (Js.truthyNum chat)); [reflexivity|]. now destruct h. }
  rewrite E. repeat split.
Qed.

(** The specification's wording has an unknown group unmoderated.  In
    group 7, which has no settings document, an abusive text is deleted
    and answered with the first warning, and so is a flagged photo. *)
Lemma C3_unknown_group_is_moderated :
  Bot.groupSettings Sample.fresh !! 7 = None /\
  Db.getGroupSettings Db.HReady (Bot.groupSettings Sample.fresh) 7
    = Db.mkGroupSettings 7 true true true /\
  snd (Bot.onMessageText (Sample.allGood Sample.noon) Sample.fresh Sample.abusiveText)
    = [(Bot.DeleteMessage 7 1001, true);
       (Bot.Reply (Bot.WarningForLanguage 1), true)] /\
  snd (Bot.onMessageMedia (Sample.classifying Sample.noon Sample.flagsViolence)
                          Sample.fresh Sample.photo)
    = [(Bot.DeleteMessage 7 2001, true);
       (Bot.Reply (Bot.WarningForContent Bot.Image 1), true)].
Proof. repeat split; vm_compute; reflexivity. Qed.

End Settings.

(** ** Scenarios *)

Section Scenarios.
Import Js Spec.

(** Scenario 1 of the specification: the starred spelling is not
    flagged by the plain word, and is flagged once the plain word
    stands in the text. *)
Example starred_spelling_not_flagged :
  Bot.containsAbusiveWord (Sample.allGood Sample.noon) Sample.fresh
    (Some "you are a f*ck idiot") (Some 7) = false /\
  Bot.containsAbusiveWord (Sample.allGood Sample.noon) Sample.fresh
    (Some "you are a fuck idiot") (Some 7) = true.
Proof. split; vm_compute; reflexivity. Qed.

(** [\b] needs a word character on one side: a listed word that begins
    with another character is found after a word character only. *)
Example word_with_leading_symbol :
  let st := Bot.withAbusiveWords Sample.fresh ["@ss"] in
  Bot.containsAbusiveWord (Sample.allGood Sample.noon) st (Some "@ss") None = false /\
  Bot.containsAbusiveWord (Sample.allGood Sample.noon) st (Some "kick@ss") None = true.
Proof. split; vm_compute; reflexivity. Qed.

(** The specification's wording has the warning or the ban go out
    whether or not the deletion went through.  Here the deletion fails
    on the first violation of user 42: the violation is counted, the
    notice about the failed deletion is sent, and no warning follows.
    For the photo not even the count moves. *)
Lemma C7_no_warning_after_failed_deletion :
  let env := Sample.deletionFails Sample.noon Sample.flagsViolence in
  let text := Bot.onMessageText env Sample.fresh Sample.abusiveText in
  let media := Bot.onMessageMedia env Sample.fresh Sample.photo in
  snd text = [(Bot.DeleteMessage 7 1001, false);
              (Bot.Reply Bot.CouldNotDeleteText, true)] /\
  storedCount (fst text) 42 7 = 1 /\
  warningsSent (snd text) = 0%nat /\
  snd media = [(Bot.DeleteMessage 7 2001, false);
               (Bot.Reply Bot.CouldNotDeleteMedia, true)] /\
  storedCount (fst media) 42 7 = 0.
Proof. repeat split; vm_compute; reflexivity. Qed.

(** The ladder as the specification words it holds however the
    collaborators answer.  Here Telegram refuses the ban at the third
    violation of user 42: the count is not reset but stays at 3, and the
    fourth violation is counted 4 and answered by a ban, not by warning
    1.  And with the counters collection not connected when the count
    is read, the third violation of the user is counted 1 and answered
    by warning 1, not by a ban. *)
Lemma C2_no_reset_after_refused_ban :
  let r1 := escalate (Sample.allGood Sample.noon) Sample.fresh 42 7
              (TextViolation 1001) in
  let r2 := escalate (Sample.allGood (Sample.noon + 70000)) (fst r1) 42 7
              (TextViolation 1002) in
  let r3 := escalate (Cases.banRefused (Sample.noon + 140000)) (fst r2) 42 7
              (TextViolation 1003) in
  let r4 := escalate (Sample.allGood (Sample.noon + 210000)) (fst r3) 42 7
              (TextViolation 1004) in
  let q1 := escalate (Cases.countersDown Sample.noon) Sample.fresh 42 7
              (TextViolation 1001) in
  let q2 := escalate (Cases.countersDown (Sample.noon + 70000)) (fst q1) 42 7
              (TextViolation 1002) in
  let q3 := escalate (Cases.countersDown (Sample.noon + 140000)) (fst q2) 42 7
              (TextViolation 1003) in
  (snd r3 = [(Bot.DeleteMessage 7 1003, true);
             (Bot.BanChatMember 7 42, false);
             (Bot.Reply Bot.BanFailed, true)] /\
   storedCount (fst r3) 42 7 = 3 /\
   snd r4 = [(Bot.DeleteMessage 7 1004, true);
             (Bot.BanChatMember 7 42, true);
             (Bot.Reply Bot.BannedForLanguage, true)]) /\
  snd q3 = [(Bot.DeleteMessage 7 1003, true);
            (Bot.Reply (Bot.WarningForLanguage 1), true)].
Proof. repeat split; vm_compute; reflexivity. Qed.


End Scenarios.

(** ** The theorems at concrete inputs *)

Section Instances.
Import Js Spec.

Lemma allGood_ready now : CountersReady (Sample.allGood now).
Proof. repeat split. Defined.

Lemma allGood_answers now : TelegramAnswers (Sample.allGood now).
Proof. repeat split. Defined.

(** C2 at user 42 in group 7: a photo, a text, a video and a text, 70
    seconds apart, so that no cooldown is running. *)
Lemma C2_ladder_of_user_42 :
  let r1 := escalate (Sample.allGood Sample.noon) Sample.fresh 42 7
              (MediaViolation Bot.Image) in
  let r2 := escalate (Sample.allGood (Sample.noon + 70000)) (fst r1) 42 7
              (TextViolation 1002) in
  let r3 := escalate (Sample.allGood (Sample.noon + 140000)) (fst r2) 42 7
              (MediaViolation Bot.Video) in
  let r4 := escalate (Sample.allGood (Sample.noon + 210000)) (fst r3) 42 7
              (TextViolation 1004) in
  (snd r1 = [(Bot.Reply (Bot.WarningForContent Bot.Image 1), true)] /\
   storedCount (fst r1) 42 7 = 1 /\
   lastWarningOf (fst r1) 42 7 = 1700000000000) /\
  (snd r2 = [(Bot.DeleteMessage 7 1002, true);
             (Bot.Reply (Bot.WarningForLanguage 2), true)] /\
   storedCount (fst r2) 42 7 = 2 /\
   lastWarningOf (fst r2) 42 7 = 1700000070000) /\
  (snd r3 = [(Bot.BanChatMember 7 42, true);
             (Bot.Reply (Bot.BannedForContent Bot.Video), true)] /\
   storedCount (fst r3) 42 7 = 0 /\
   lastWarningOf (fst r3) 42 7 = 1700000070000) /\
  (snd r4 = [(Bot.DeleteMessage 7 1004, true);
             (Bot.Reply (Bot.WarningForLanguage 1), true)] /\
   storedCount (fst r4) 42 7 = 1 /\
   lastWarningOf (fst r4) 42 7 = 1700000210000).
Proof.
  assert (H42 : (42 : Z) <> 0) by discriminate.
  assert (H7 : (7 : Z) <> 0) by discriminate.
  exact (C2_escalation_ladder
           (Sample.allGood Sample.noon) (Sample.allGood (Sample.noon + 70000))
           (Sample.allGood (Sample.noon + 140000)) (Sample.allGood (Sample.noon + 210000))
           Sample.fresh 42 7
           (MediaViolation Bot.Image) (TextViolation 1002)
           (MediaViolation Bot.Video) (TextViolation 1004)
           H42 H7
           (conj (allGood_ready _) (allGood_answers _))
           (conj (allGood_ready _) (allGood_answers _))
           (conj (allGood_ready _) (allGood_answers _))
           (conj (allGood_ready _) (allGood_answers _))
           eq_refl).
Defined.

(** The same four events as the chat sees them. *)
Example ladder_of_user_42_in_the_chat :
  let r1 := escalate (Sample.allGood Sample.noon) Sample.fresh 42 7
              (MediaViolation Bot.Image) in
  let r2 := escalate (Sample.allGood (Sample.noon + 70000)) (fst r1) 42 7
              (TextViolation 1002) in
  let r3 := escalate (Sample.allGood (Sample.noon + 140000)) (fst r2) 42 7
              (MediaViolation Bot.Video) in
  let r4 := escalate (Sample.allGood (Sample.noon + 210000)) (fst r3) 42 7
              (TextViolation 1004) in
  snd r1 = [(Bot.Reply (Bot.WarningForContent Bot.Image 1), true)] /\
  snd r2 = [(Bot.DeleteMessage 7 1002, true);
            (Bot.Reply (Bot.WarningForLanguage 2), true)] /\
  snd r3 = [(Bot.BanChatMember 7 42, true);
            (Bot.Reply (Bot.BannedForContent Bot.Video), true)] /\
  snd r4 = [(Bot.DeleteMessage 7 1004, true);
            (Bot.Reply (Bot.WarningForLanguage 1), true)].
Proof. repeat split; vm_compute; reflexivity. Qed.

(** C3 at group 7 and an empty collection. *)
Lemma C3_defaults_for_group_7 :
  (∅ : gmap Z Db.GroupSettings) !! 7 = None /\
  Db.getGroupSettings Db.HReady ∅ 7 = Db.getDefaultGroupSettings 7 /\
  Db.abusiveWordsEnabled (Db.getGroupSettings Db.HReady ∅ 7) = true /\
  Bot.moderationEnabled Bot.Image (Db.getGroupSettings Db.HReady ∅ 7) = true /\
  Bot.moderationEnabled Bot.Video (Db.getGroupSettings Db.HReady ∅ 7) = true.
Proof.
  split; [reflexivity|].
  apply (C3_absent_settings_are_the_enabling_defaults Db.HReady ∅ 7). reflexivity.
Defined.



(** The same two events as the chat and the collection see them. *)
Example two_texts_30_seconds_apart_in_the_chat :
  let e1 := Sample.allGood Sample.noon in
  let e2 := Sample.allGood (Sample.noon + 30000) in
  let r1 := escalate e1 Sample.fresh 42 7 (TextViolation 1001) in
  let r2 := escalate e2 (fst r1) 42 7 (TextViolation 1002) in
  snd r1 = [(Bot.DeleteMessage 7 1001, true);
            (Bot.Reply (Bot.WarningForLanguage 1), true)] /\
  snd r2 = [(Bot.DeleteMessage 7 1002, true)] /\
  storedCount (fst r2) 42 7 = 2.
Proof. repeat split; vm_compute; reflexivity. Qed.

(** C6 at an image that only the text extraction flags. *)
Lemma C6_text_extraction_flags_tiny_image :
  OpenAI.moderateImage Sample.flagsText (Some Sample.tinyImage)
    = (OpenAI.mkVerdict true (Some "OCR detection: Found explicit terms (slut)"),
       [OpenAI.Primary; OpenAI.Secondary; OpenAI.PatternScan; OpenAI.Ocr]).
Proof.
  apply (C6_first_flagging_stage_decides Sample.flagsText (Some Sample.tinyImage)
           "AA==" OpenAI.Ocr "OCR detection: Found explicit terms (slut)").
  - reflexivity.
  - vm_compute. reflexivity.
  - intros s' [<-|[<-|[<-|[]]]]; vm_compute; reflexivity.
Defined.

(** C6 at an image that the primary stage flags: the later stages,
    which would flag too, are not entered. *)
Example primary_flags_tiny_image :
  OpenAI.moderateImage Sample.flagsViolence (Some Sample.tinyImage)
    = (OpenAI.mkVerdict true (Some "Flagged categories: violence"), [OpenAI.Primary]) /\
  stageVerdict Sample.flagsViolence "AA==" OpenAI.Secondary
    = Some "Secondary detection: nudity" /\
  stageVerdict Sample.flagsViolence "AA==" OpenAI.Ocr
    = Some "OCR detection: Found explicit terms (slut)".
Proof. repeat split; vm_compute; reflexivity. Qed.

(** C7 at user 42 in group 7. *)
Lemma C7_failed_deletion_for_user_42 :
  let env := Sample.deletionFails Sample.noon Sample.flagsViolence in
  let r := escalate env Sample.fresh 42 7 (TextViolation 1001) in
  Bot.deleteMessageOk env = false /\
  (newCount env Sample.fresh 42 7 < 3 ->
   snd r = couldNotDelete env 7 1001 /\
   fst r = fst (Bot.countViolation env (Bot.initSession Sample.fresh (42, 7)) 42 7)) /\
  (3 <= newCount env Sample.fresh 42 7 ->
   exists rest,
     snd r = couldNotDelete env 7 1001
             ++ (Bot.BanChatMember 7 42, Bot.banChatMemberOk env) :: rest) /\
  (forall ev,
     FlaggedMedia env Sample.fresh ev ->
     Bot.onMessageMedia env Sample.fresh ev =
     (Sample.fresh,
      [(Bot.DeleteMessage (Bot.mediaChat ev) (Bot.mediaMessageId ev), false);
       (Bot.Reply Bot.CouldNotDeleteMedia, Bot.replyOk env Bot.CouldNotDeleteMedia)])).
Proof.
  split; [reflexivity|].
  apply (C7_failed_deletion
           (Sample.deletionFails Sample.noon Sample.flagsViolence)
           Sample.fresh 42 7 1001).
  reflexivity.
Defined.


(** C10 at an image, without an API key. *)
Lemma C10_offline_enters_no_stage :
  OpenAI.OPENAI_API_KEY Sample.offline = None /\
  OpenAI.moderateImage Sample.offline (Some Sample.tinyImage)
    = (OpenAI.mkVerdict false None, []).
Proof.
  split; [reflexivity|].
  apply (C10_no_key_or_no_buffer_enters_no_stage Sample.offline (Some Sample.tinyImage)).
  left. reflexivity.
Defined.

End Instances.

(* ===================================================================== *)
(** * Part III. Further properties of the code                            *)
(* ===================================================================== *)

(** ** The collections *)

Section Collections.
Import Js Spec.

Lemma getAbusiveWords_In docs chat w :
  chat <> 0 ->
  In w (Db.getAbusiveWords Db.HReady docs chat) <-> In (chat, w) docs.
Proof.
  intros Hc. unfold Db.getAbusiveWords. rewrite (truthyNum_true chat Hc).
  cbn [negb]. rewrite in_map_iff. split.
  - intros ([c x] & <- & Hin). apply filter_In in Hin as [Hin E].
    cbn [fst snd] in *. apply Z.eqb_eq in E. now subst.
  - intros Hin. exists (chat, w). split; [reflexivity|].
    apply filter_In. split; [exact Hin | apply Z.eqb_refl].
Qed.

Lemma filter_chat_app_other (docs : list Db.WordDoc) chat chat' w :
  chat' <> chat ->
  List.filter (fun d : Db.WordDoc => Z.eqb (fst d) chat') (docs ++ [(chat, w)])
    = List.filter (fun d : Db.WordDoc => Z.eqb (fst d) chat') docs.
Proof.
  intros Hne. rewrite List.filter_app. cbn [List.filter fst].
  destruct (Z.eqb_spec chat chat'); [congruence | apply app_nil_r].
Qed.

Lemma addAbusiveWord_ready docs chat word :
  chat <> 0 -> normalize word <> EmptyString ->
  Db.addAbusiveWord Db.HReady docs chat word =
  (if existsb (Db.sameDoc chat (normalize word)) docs
   then docs else docs ++ [(chat, normalize word)],
   Db.mkOutcome true false).
Proof.
  intros Hc Hn. unfold Db.addAbusiveWord. fold (normalize word).
  rewrite (truthyNum_true chat Hc), (normalize_nonempty _ Hn). cbn [negb orb].
  apply isEmpty_false in Hn. rewrite Hn.
  now destruct (existsb (Db.sameDoc chat (normalize word)) docs).
Qed.

(** X1: a successful [addAbusiveWord] of the database layer stores the
    normalized word for the chat, where [getAbusiveWords] finds it; it
    keeps the collection free of duplicate documents (the unique index is
    never put to the test); and it leaves the words of every other chat
    as they were. *)
Theorem X1_added_word_is_stored_once :
  forall (docs : list Db.WordDoc) (chat : Z) (word : string),
    chat <> 0 -> normalize word <> EmptyString -> NoDup docs ->
    let docs' := fst (Db.addAbusiveWord Db.HReady docs chat word) in
    NoDup docs' /\
    In (normalize word) (Db.getAbusiveWords Db.HReady docs' chat) /\
    Db.returned (snd (Db.addAbusiveWord Db.HReady docs chat word)) = true /\
    forall h chat', chat' <> chat ->
      Db.getAbusiveWords h docs' chat' = Db.getAbusiveWords h docs chat'.
Proof.
  intros docs chat word Hc Hn Hnd. cbv zeta.
  rewrite (addAbusiveWord_ready docs chat word Hc Hn). cbn [fst snd Db.returned].
  destruct (existsb (Db.sameDoc chat (normalize word)) docs) eqn:E.
  - apply findOne_spec in E. repeat split; auto.
    now apply getAbusiveWords_In.
  - assert (Hnot : ~ In (chat, normalize word) docs).
    { intros Hin. apply findOne_spec in Hin. congruence. }
    repeat split.
    + apply NoDup_app. repeat split; [exact Hnd | | apply NoDup_singleton].
      intros d Hd Hd'. apply list_elem_of_In in Hd, Hd'.
      destruct Hd' as [<-|[]]. contradiction.
    + apply getAbusiveWords_In; [exact Hc|]. apply in_or_app. right. now left.
    + intros h chat' Hne. unfold Db.getAbusiveWords.
      now rewrite filter_chat_app_other.
Qed.

Lemma deleteOne_appended chat word docs :
  ~ In (chat, word) docs ->
  Db.deleteOne chat word (docs ++ [(chat, word)]) = (docs, 1).
Proof.
  induction docs as [|d docs IH]; intros Hnot.
  - cbn. assert (E : Db.sameDoc chat word (chat, word) = true)
      by now apply sameDoc_spec.
    now rewrite E.
  - cbn [app Db.deleteOne].
    destruct (Db.sameDoc chat word d) eqn:E.
    + apply sameDoc_spec in E. subst. exfalso. apply Hnot. now left.
    + rewrite IH; [reflexivity|]. intros Hin. apply Hnot. now right.
Qed.

(** X2: adding a word that the chat does not have and removing it again
    gives back the collection as it was, and the removal reports
    success. *)
Theorem X2_add_then_remove_restores :
  forall (docs : list Db.WordDoc) (chat : Z) (word : string),
    chat <> 0 -> normalize word <> EmptyString ->
    ~ In (chat, normalize word) docs ->
    Db.removeAbusiveWord Db.HReady
      (fst (Db.addAbusiveWord Db.HReady docs chat word)) chat word
    = (docs, Db.mkOutcome true false).
Proof.
  intros docs chat word Hc Hn Hnot.
  rewrite (addAbusiveWord_ready docs chat word Hc Hn).
  assert (E : existsb (Db.sameDoc chat (normalize word)) docs = false).
  { destruct (existsb _ docs) eqn:E; [|reflexivity].
    apply findOne_spec in E. contradiction. }
  rewrite E. cbn [fst].
  unfold Db.removeAbusiveWord. fold (normalize word).
  rewrite (truthyNum_true chat Hc), (normalize_nonempty _ Hn). cbn [negb orb].
  apply isEmpty_false in Hn. rewrite Hn.
  now rewrite deleteOne_appended.
Qed.

Lemma deleteOne_present chat word docs :
  NoDup docs -> In (chat, word) docs ->
  snd (Db.deleteOne chat word docs) = 1 /\
  ~ In (chat, word) (fst (Db.deleteOne chat word docs)) /\
  forall d, d <> (chat, word) ->
    (In d (fst (Db.deleteOne chat word docs)) <-> In d docs).
Proof.
  induction docs as [|d0 docs IH]; intros Hnd Hin; [destruct Hin|].
  apply NoDup_cons in Hnd as [Hd0 Hnd]. rewrite list_elem_of_In in Hd0.
  cbn [Db.deleteOne].
  destruct (Db.sameDoc chat word d0) eqn:E.
  - apply sameDoc_spec in E. subst d0. cbn [fst snd].
    split; [reflexivity|]. split; [exact Hd0|].
    intros d Hd. split; [intros Hx; now right|].
    intros [Hx|Hx]; [congruence | exact Hx].
  - destruct Hin as [->|Hin].
    { assert (Db.sameDoc chat word (chat, word) = true) by now apply sameDoc_spec.
      congruence. }
    destruct (IH Hnd Hin) as (Hn & Hnot & Hrest).
    destruct (Db.deleteOne chat word docs) as [r n]. cbn [fst snd] in *.
    split; [exact Hn|]. split.
    + intros [->|Hr]; [|contradiction].
      assert (Db.sameDoc chat word (chat, word) = true) by now apply sameDoc_spec.
      congruence.
    + intros d Hd. split.
      * intros [->|Hr]; [now left | right; now apply Hrest].
      * intros [->|Hr]; [now left | right; now apply Hrest].
Qed.

(** X3: removing a word that the chat has, from a collection without
    duplicate documents, reports success, leaves the chat without the
    word, and keeps every other document. *)
Theorem X3_removed_word_is_gone :
  forall (docs : list Db.WordDoc) (chat : Z) (word : string),
    chat <> 0 -> normalize word <> EmptyString -> NoDup docs ->
    In (chat, normalize word) docs ->
    let r := Db.removeAbusiveWord Db.HReady docs chat word in
    snd r = Db.mkOutcome true false /\
    ~ In (normalize word) (Db.getAbusiveWords Db.HReady (fst r) chat) /\
    forall d, d <> (chat, normalize word) -> (In d (fst r) <-> In d docs).
Proof.
  intros docs chat word Hc Hn Hnd Hin. cbv zeta.
  unfold Db.removeAbusiveWord. fold (normalize word).
  rewrite (truthyNum_true chat Hc), (normalize_nonempty _ Hn). cbn [negb orb].
  pose proof Hn as Hn'. apply isEmpty_false in Hn'. rewrite Hn'.
  destruct (deleteOne_present chat (normalize word) docs Hnd Hin) as (H1 & H2 & H3).
  destruct (Db.deleteOne chat (normalize word) docs) as [r n]. cbn [fst snd] in *.
  subst n. split; [reflexivity|]. split; [|exact H3].
  intros H. apply getAbusiveWords_In in H; [contradiction | exact Hc].
Qed.

(** X4: a count written for a user in a chat is the count read back, and
    the counts of all other pairs stay; a negative count, a user id 0 or
    a chat id 0 is refused without a write. *)
Theorem X4_counter_write_read :
  forall (warnings : gmap (Z * Z) Z) (userId chat count : Z),
    (userId <> 0 -> chat <> 0 -> 0 <= count ->
     let w := fst (Db.updateUserWarningsAcrossSessions Db.HReady warnings
                     userId chat count) in
     Db.getUserWarningsAcrossSessions Db.HReady w userId chat = Some count /\
     forall k, k <> (userId, chat) -> w !! k = warnings !! k) /\
    (forall h, userId = 0 \/ chat = 0 \/ count < 0 ->
     Db.updateUserWarningsAcrossSessions h warnings userId chat count
     = (warnings, false)).
Proof.
  intros warnings u g c. split.
  - intros Hu Hg Hc. cbv zeta.
    unfold Db.updateUserWarningsAcrossSessions, Db.getUserWarningsAcrossSessions.
    rewrite (truthyNum_true u Hu), (truthyNum_true g Hg). cbn [negb orb].
    destruct (Z.ltb_spec c 0); [lia|]. cbn [fst]. split.
    + apply lookup_insert_eq.
    + intros k Hk. now apply lookup_insert_ne.
  - intros h H. unfold Db.updateUserWarningsAcrossSessions.
    destruct H as [-> | [-> | H]].
    + reflexivity.
    + now destruct (negb (truthyNum u)).
    + destruct (Z.ltb_spec c 0); [|lia].
      now rewrite orb_true_r.
Qed.

End Collections.

(** ** Alerts and the scheduler *)

Section Alerts.
Import Js Spec Props.

Lemma find_upsert_same a l :
  List.find (fun b => Z.eqb (Db.chatId b) (Db.chatId a)) (Db.upsertAlert a l) = Some a.
Proof.
  induction l as [|b l IH]; cbn [Db.upsertAlert List.find].
  - now rewrite Z.eqb_refl.
  - destruct (Z.eqb (Db.chatId b) (Db.chatId a)) eqn:E; cbn [List.find].
    + now rewrite Z.eqb_refl.
    + now rewrite E.
Qed.

Lemma find_upsert_other a l chat :
  chat <> Db.chatId a ->
  List.find (fun b => Z.eqb (Db.chatId b) chat) (Db.upsertAlert a l)
  = List.find (fun b => Z.eqb (Db.chatId b) chat) l.
Proof.
  intros Hne. induction l as [|b l IH]; cbn [Db.upsertAlert List.find].
  - destruct (Z.eqb_spec (Db.chatId a) chat); [congruence | reflexivity].
  - destruct (Z.eqb_spec (Db.chatId b) (Db.chatId a)) as [E|E]; cbn [List.find].
    + rewrite E. destruct (Z.eqb_spec (Db.chatId a) chat); [congruence | reflexivity].
    + now rewrite IH.
Qed.

Lemma In_chats_upsert a l x :
  In x (map Db.chatId (Db.upsertAlert a l)) ->
  x = Db.chatId a \/ In x (map Db.chatId l).
Proof.
  induction l as [|b l IH]; cbn [Db.upsertAlert map].
  - intros [<-|[]]. now left.
  - destruct (Z.eqb_spec (Db.chatId b) (Db.chatId a)) as [E|E]; cbn [map].
    + intros [<-|H]; [now left | right; now right].
    + intros [<-|H]; [right; now left|].
      destruct (IH H); [now left | right; now right].
Qed.

Lemma UniqueChats_upsert a l : UniqueChats l -> UniqueChats (Db.upsertAlert a l).
Proof.
  unfold UniqueChats. induction l as [|b l IH]; cbn [Db.upsertAlert map].
  - intros _. apply NoDup_singleton.
  - intros H. apply NoDup_cons in H as [Hb Hl]. rewrite list_elem_of_In in Hb.
    destruct (Z.eqb_spec (Db.chatId b) (Db.chatId a)) as [E|E]; cbn [map].
    + apply NoDup_cons. rewrite list_elem_of_In, <- E. now split.
    + apply NoDup_cons. rewrite list_elem_of_In. split; [|now apply IH].
      intros H. apply In_chats_upsert in H as [H|H]; [congruence | contradiction].
Qed.

(** X5: setting an alert for a chat stores exactly what was given, with
    [lastSent] 0, where [getAlertMessage] finds it; an alert the chat
    already had is overwritten, not doubled (one alert per chat stays one
    alert per chat); and the alerts of the other chats are untouched. *)
Theorem X5_alert_set_then_get :
  forall (alerts : list Db.AlertMessage) (chat : Z) (msg : string) (ival : Z),
    UniqueChats alerts ->
    let alerts' := fst (Db.setAlertMessage Db.HReady alerts chat msg ival) in
    UniqueChats alerts' /\
    Db.getAlertMessage Db.HReady alerts' chat
      = Some (Db.mkAlertMessage chat msg ival 0) /\
    forall h chat', chat' <> chat ->
      Db.getAlertMessage h alerts' chat' = Db.getAlertMessage h alerts chat'.
Proof.
  intros alerts chat msg ival Hu. cbv zeta. cbn [Db.setAlertMessage fst].
  split; [now apply UniqueChats_upsert|]. split.
  - apply (find_upsert_same (Db.mkAlertMessage chat msg ival 0)).
  - intros h chat' Hne. unfold Db.getAlertMessage. destruct h; try reflexivity.
    now apply find_upsert_other.
Qed.

Lemma In_deleteAlert chat l a : In a (Db.deleteAlert chat l) -> In a l.
Proof.
  induction l as [|b l IH]; cbn [Db.deleteAlert]; [auto|].
  destruct (Z.eqb (Db.chatId b) chat); [now right|].
  intros [<-|H]; [now left | right; now apply IH].
Qed.

Lemma deleteAlert_gone chat l a :
  UniqueChats l -> In a (Db.deleteAlert chat l) -> Db.chatId a <> chat.
Proof.
  unfold UniqueChats. induction l as [|b l IH]; cbn [Db.deleteAlert map]; [intros _ []|].
  intros H. apply NoDup_cons in H as [Hb Hl]. rewrite list_elem_of_In in Hb.
  destruct (Z.eqb_spec (Db.chatId b) chat) as [E|E].
  - intros Ha Hc. apply Hb. rewrite E, <- Hc. now apply in_map.
  - intros [<-|Ha]; [exact E | now apply IH].
Qed.

Lemma find_deleteAlert_other chat chat' l :
  chat' <> chat ->
  List.find (fun b => Z.eqb (Db.chatId b) chat') (Db.deleteAlert chat l)
  = List.find (fun b => Z.eqb (Db.chatId b) chat') l.
Proof.
  intros Hne. induction l as [|b l IH]; cbn [Db.deleteAlert List.find]; [reflexivity|].
  destruct (Z.eqb_spec (Db.chatId b) chat) as [E|E]; cbn [List.find].
  - destruct (Z.eqb_spec (Db.chatId b) chat'); [congruence | reflexivity].
  - now rewrite IH.
Qed.

(** X6: once the alert of a chat is removed (one alert per chat), the
    chat has no alert, no clock value makes the scheduler select one for
    it, and the alerts of the other chats are as before. *)
Theorem X6_removed_alert_is_never_due :
  forall (alerts : list Db.AlertMessage) (chat : Z),
    UniqueChats alerts ->
    let alerts' := fst (Db.removeAlertMessage Db.HReady alerts chat) in
    Db.getAlertMessage Db.HReady alerts' chat = None /\
    (forall h now a,
        In a (Db.getAlertMessagesToSend h alerts' now) -> Db.chatId a <> chat) /\
    forall h chat', chat' <> chat ->
      Db.getAlertMessage h alerts' chat' = Db.getAlertMessage h alerts chat'.
Proof.
  intros alerts chat Hu. cbv zeta. cbn [Db.removeAlertMessage fst].
  split; [|split].
  - cbn [Db.getAlertMessage].
    destruct (List.find _ (Db.deleteAlert chat alerts)) as [a|] eqn:E; [|reflexivity].
    apply find_some in E as [Hin Ha]. apply Z.eqb_eq in Ha.
    now apply deleteAlert_gone in Hin.
  - intros h now a Hin. destruct h; cbn [Db.getAlertMessagesToSend] in Hin;
      try contradiction.
    apply filter_In in Hin as [Hin _]. now apply deleteAlert_gone in Hin.
  - intros h chat' Hne. unfold Db.getAlertMessage. destruct h; try reflexivity.
    now apply find_deleteAlert_other.
Qed.

Lemma dispatch_trace env due : forall st,
  snd (Bot.dispatch env st due) = map (attempt env) due.
Proof.
  induction due as [|a due IH]; intros st; [reflexivity|].
  cbn [Bot.dispatch map].
  set (st1 := if Bot.sendMessageOk env (Db.chatId a) then _ else st).
  specialize (IH st1). destruct (Bot.dispatch env st1 due) as [st2 t].
  cbn [snd] in *. now rewrite IH.
Qed.

Lemma dispatch_rest env due : forall st,
  let st' := fst (Bot.dispatch env st due) in
  Bot.abusiveWords st' = Bot.abusiveWords st /\
  Bot.groupSettings st' = Bot.groupSettings st /\
  Bot.dbAbusiveWords st' = Bot.dbAbusiveWords st /\
  Bot.userWarningsAcrossSessions st' = Bot.userWarningsAcrossSessions st /\
  Bot.session st' = Bot.session st.
Proof.
  induction due as [|a due IH]; intros st; [now repeat split|].
  cbn [Bot.dispatch]. cbv zeta.
  set (st1 := if Bot.sendMessageOk env (Db.chatId a) then _ else st).
  specialize (IH st1). cbv zeta in IH.
  destruct (Bot.dispatch env st1 due) as [st2 t]. cbn [fst] in *.
  assert (E : Bot.abusiveWords st1 = Bot.abusiveWords st /\
              Bot.groupSettings st1 = Bot.groupSettings st /\
              Bot.dbAbusiveWords st1 = Bot.dbAbusiveWords st /\
              Bot.userWarningsAcrossSessions st1 = Bot.userWarningsAcrossSessions st /\
              Bot.session st1 = Bot.session st).
  { unfold st1. now destruct (Bot.sendMessageOk env (Db.chatId a)). }
  destruct IH as (-> & -> & -> & -> & ->). exact E.
Qed.

(** X7: in a tick the scheduler tries to send every alert that is due,
    once, in the order of the collection, whether or not the sends to
    other chats go through; and a tick touches nothing but the alerts. *)
Theorem X7_every_due_alert_is_attempted :
  forall (env : Bot.Env) (st : Bot.State),
    snd (Bot.tick env st)
    = map (attempt env)
        (Db.getAlertMessagesToSend (Bot.db env Bot.AlertsDue)
           (Bot.alertMessages st) (Bot.now env)) /\
    Bot.abusiveWords (fst (Bot.tick env st)) = Bot.abusiveWords st /\
    Bot.groupSettings (fst (Bot.tick env st)) = Bot.groupSettings st /\
    Bot.dbAbusiveWords (fst (Bot.tick env st)) = Bot.dbAbusiveWords st /\
    Bot.userWarningsAcrossSessions (fst (Bot.tick env st))
      = Bot.userWarningsAcrossSessions st /\
    Bot.session (fst (Bot.tick env st)) = Bot.session st.
Proof.
  intros env st. unfold Bot.tick. split; [apply dispatch_trace|].
  apply dispatch_rest.
Qed.

Lemma stampAll_chats chats now l :
  map Db.chatId (stampAll chats now l) = map Db.chatId l.
Proof.
  unfold stampAll. rewrite map_map. apply map_ext. intros b.
  now destruct (existsb _ chats).
Qed.

Lemma stampAll_step chats now b l :
  stampAll chats now (b :: l)
  = (if existsb (Z.eqb (Db.chatId b)) chats then stamp now b else b)
      :: stampAll chats now l.
Proof. reflexivity. Qed.

Lemma existsb_one (x c : Z) : existsb (Z.eqb x) [c] = Z.eqb x c.
Proof. cbn [existsb]. apply orb_false_r. Qed.

Lemma stampAll_notin c now l :
  ~ In c (map Db.chatId l) -> stampAll [c] now l = l.
Proof.
  induction l as [|b l IH]; cbn [map]; [reflexivity|].
  intros H. rewrite stampAll_step, existsb_one.
  destruct (Z.eqb_spec (Db.chatId b) c) as [E|E].
  - exfalso. apply H. now left.
  - rewrite IH; [reflexivity|]. intros Hin. apply H. now right.
Qed.

Lemma touchAlert_stampAll c now l :
  UniqueChats l -> Db.touchAlert c now l = stampAll [c] now l.
Proof.
  unfold UniqueChats. induction l as [|b l IH]; cbn [map]; [reflexivity|].
  intros H. apply NoDup_cons in H as [Hb Hl]. rewrite list_elem_of_In in Hb.
  cbn [Db.touchAlert]. rewrite stampAll_step, existsb_one.
  destruct (Z.eqb_spec (Db.chatId b) c) as [E|E].
  - rewrite stampAll_notin; [reflexivity | now rewrite <- E].
  - now rewrite IH.
Qed.

Lemma stampAll_cons c cs now l :
  stampAll cs now (stampAll [c] now l) = stampAll (c :: cs) now l.
Proof.
  unfold stampAll. rewrite map_map. apply map_ext. intros b.
  rewrite existsb_one. cbn [existsb].
  destruct (Z.eqb (Db.chatId b) c); cbn [orb Db.chatId stamp].
  - now destruct (existsb _ cs).
  - reflexivity.
Qed.

(** The alerts after the sends of a tick: those that went out are
    stamped with the time of the tick. *)
Lemma dispatch_alerts env due : forall st,
  Bot.db env Bot.AlertsSent = Db.HReady ->
  UniqueChats (Bot.alertMessages st) ->
  Bot.alertMessages (fst (Bot.dispatch env st due))
  = stampAll (sentChats env due) (Bot.now env) (Bot.alertMessages st).
Proof.
  induction due as [|a due IH]; intros st Hdb Hu.
  - cbn. unfold stampAll. cbn. now rewrite map_id.
  - cbn [Bot.dispatch]. unfold sentChats. cbn [List.filter].
    destruct (Bot.sendMessageOk env (Db.chatId a)) eqn:Hs.
    + rewrite Hdb. cbn [Db.updateAlertMessageLastSent fst map].
      specialize (IH (Bot.withAlerts st
                        (Db.touchAlert (Db.chatId a) (Bot.now env)
                           (Bot.alertMessages st))) Hdb).
      destruct (Bot.dispatch env _ due) as [st2 t]. cbn [fst] in *.
      cbn [Bot.alertMessages Bot.withAlerts] in IH.
      rewrite (touchAlert_stampAll _ _ _ Hu) in IH.
      rewrite IH; [apply stampAll_cons|].
      unfold UniqueChats. now rewrite stampAll_chats.
    + specialize (IH st Hdb Hu).
      destruct (Bot.dispatch env st due) as [st2 t]. exact IH.
Qed.

Lemma unique_chat_eq l a b :
  UniqueChats l -> In a l -> In b l -> Db.chatId a = Db.chatId b -> a = b.
Proof.
  unfold UniqueChats. induction l as [|x l IH]; cbn [map]; [intros _ []|].
  intros H. apply NoDup_cons in H as [Hx Hl]. rewrite list_elem_of_In in Hx.
  intros [->|Ha] [->|Hb] E; try reflexivity.
  - exfalso. apply Hx. rewrite E. now apply in_map.
  - exfalso. apply Hx. rewrite <- E. now apply in_map.
  - now apply IH.
Qed.

(** X8: an alert that a tick has sent is not sent again by any later
    tick whose clock has not passed the time of that tick by more than
    the interval of the alert (one alert per chat, the stamp written). *)
Theorem X8_sent_alert_waits_for_its_interval :
  forall (env1 env2 : Bot.Env) (st : Bot.State) (a : Db.AlertMessage),
    Bot.db env1 Bot.AlertsSent = Db.HReady ->
    UniqueChats (Bot.alertMessages st) ->
    In a (Db.getAlertMessagesToSend (Bot.db env1 Bot.AlertsDue)
            (Bot.alertMessages st) (Bot.now env1)) ->
    Bot.sendMessageOk env1 (Db.chatId a) = true ->
    Bot.now env2 <= Bot.now env1 + Db.interval a * 60000 ->
    forall text b,
      ~ In (Bot.SendMessage (Db.chatId a) text, b)
           (snd (Bot.tick env2 (fst (Bot.tick env1 st)))).
Proof.
  intros env1 env2 st a Hdb Hu Hdue Hsent Hnow text b Hin.
  assert (Ha : In a (Bot.alertMessages st)).
  { destruct (Bot.db env1 Bot.AlertsDue); cbn in Hdue; try contradiction.
    now apply filter_In in Hdue as [Ha _]. }
  unfold Bot.tick at 1 in Hin. rewrite dispatch_trace in Hin.
  apply in_map_iff in Hin as (a2 & E & Hin2). injection E as Hc _ _.
  destruct (Bot.db env2 Bot.AlertsDue); cbn [Db.getAlertMessagesToSend] in Hin2;
    try contradiction.
  apply filter_In in Hin2 as [Hin2 Hq].
  unfold Bot.tick in Hin2. rewrite (dispatch_alerts _ _ _ Hdb Hu) in Hin2.
  unfold stampAll in Hin2. apply in_map_iff in Hin2 as (b0 & Eb & Hb0).
  assert (Echat : Db.chatId b0 = Db.chatId a).
  { rewrite <- Hc, <- Eb. now destruct (existsb _ _). }
  assert (b0 = a) as -> by (apply (unique_chat_eq _ _ _ Hu Hb0 Ha Echat)).
  assert (Hs : existsb (Z.eqb (Db.chatId a))
                 (sentChats env1
                    (Db.getAlertMessagesToSend (Bot.db env1 Bot.AlertsDue)
                       (Bot.alertMessages st) (Bot.now env1))) = true).
  { apply existsb_exists. exists (Db.chatId a). split; [|apply Z.eqb_refl].
    unfold sentChats. apply in_map. apply filter_In. now split. }
  rewrite Hs in Eb. subst a2.
  apply alertQuery_spec in Hq. cbn [stamp Db.lastSent Db.interval] in Hq. lia.
Qed.

Lemma In_touchAlert_other c now l a :
  In a l -> Db.chatId a <> c -> In a (Db.touchAlert c now l).
Proof.
  intros Hin Hne. induction l as [|b l IH]; [destruct Hin|].
  cbn [Db.touchAlert]. destruct (Z.eqb_spec (Db.chatId b) c) as [E|E].
  - destruct Hin as [->|Hin]; [congruence | now right].
  - destruct Hin as [->|Hin]; [now left | right; now apply IH].
Qed.

Lemma dispatch_keeps_unsent env a due : forall st,
  In a (Bot.alertMessages st) ->
  Bot.sendMessageOk env (Db.chatId a) = false ->
  In a (Bot.alertMessages (fst (Bot.dispatch env st due))).
Proof.
  induction due as [|x due IH]; intros st Hin Hs; [exact Hin|].
  cbn [Bot.dispatch].
  set (st1 := if Bot.sendMessageOk env (Db.chatId x) then _ else st).
  assert (H1 : In a (Bot.alertMessages st1)).
  { unfold st1. destruct (Bot.sendMessageOk env (Db.chatId x)) eqn:Hx; [|exact Hin].
    cbn [Bot.alertMessages Bot.withAlerts].
    destruct (Bot.db env Bot.AlertsSent); cbn [Db.updateAlertMessageLastSent fst];
      try exact Hin.
    apply In_touchAlert_other; [exact Hin | congruence]. }
  specialize (IH st1 H1 Hs). now destruct (Bot.dispatch env st1 due).
Qed.

(** X9: an alert whose send fails in a tick keeps its [lastSent], so the
    scheduler selects it again at every later tick that reaches the
    collection. *)
Theorem X9_failed_send_is_retried :
  forall (env : Bot.Env) (st : Bot.State) (a : Db.AlertMessage) (later : Z),
    In a (Db.getAlertMessagesToSend (Bot.db env Bot.AlertsDue)
            (Bot.alertMessages st) (Bot.now env)) ->
    Bot.sendMessageOk env (Db.chatId a) = false ->
    Bot.now env <= later ->
    In a (Db.getAlertMessagesToSend Db.HReady
            (Bot.alertMessages (fst (Bot.tick env st))) later).
Proof.
  intros env st a later Hdue Hs Hlater.
  destruct (Bot.db env Bot.AlertsDue) eqn:Hdb;
    cbn [Db.getAlertMessagesToSend] in Hdue; try contradiction.
  apply filter_In in Hdue as [Ha Hq].
  cbn [Db.getAlertMessagesToSend]. apply filter_In. split.
  - unfold Bot.tick. now apply dispatch_keeps_unsent.
  - apply alertQuery_spec in Hq. apply alertQuery_spec. lia.
Qed.

End Alerts.

(** ** Safety of the escalation *)

Section EscalationSafety.
Import Js Spec Props.

Lemma In_deletionTrace env g v c b :
  In (c, b) (deletionTrace env g v) ->
  (exists m, c = Bot.DeleteMessage g m) \/ c = Bot.Reply Bot.CouldNotDeleteText.
Proof.
  destruct v as [m|ct]; cbn [deletionTrace]; [|intros []].
  destruct (Bot.deleteMessageOk env).
  - intros [[= <- <-]|[]]. left. now exists m.
  - intros [[= <- <-]|[[= <- <-]|[]]]; [left; now exists m | now right].
Qed.

Lemma In_banFailedNotice env v c b :
  In (c, b) (banFailedNotice env v) -> c = Bot.Reply Bot.BanFailed.
Proof.
  destruct v; cbn [banFailedNotice]; [|intros []].
  now intros [[= <- <-]|[]].
Qed.

Lemma In_warn env st k m c b :
  In (c, b) (snd (Bot.warn env st k m)) -> c = Bot.Reply m.
Proof.
  unfold Bot.warn. destruct (Bot.cooldownOver env st k); [|intros []].
  destruct (Bot.replyOk env m); now intros [[= <- <-]|[]].
Qed.

Lemma warningCount_banned v : warningCount (bannedOf v) = None.
Proof. now destruct v. Qed.

Lemma warningCount_warning v n : warningCount (warningOf v n) = Some n.
Proof. now destruct v. Qed.

Lemma ban_branch_calls env g u v b1 rest n :
  3 <= n ->
  (forall c b, In (c, b) rest ->
               exists m, c = Bot.Reply m /\ warningCount m = None) ->
  (forall c b, In (c, b) (deletionTrace env g v ++ (Bot.BanChatMember g u, b1) :: rest) ->
               isBan (c, b) = true -> c = Bot.BanChatMember g u /\ 3 <= n) /\
  (forall m b k,
      In (Bot.Reply m, b) (deletionTrace env g v ++ (Bot.BanChatMember g u, b1) :: rest) ->
      warningCount m = Some k -> m = warningOf v n /\ k = n /\ n < 3).
Proof.
  intros Hn Hrest. split.
  - intros c b Hin Hb. apply in_app_or in Hin as [Hin|[Hin|Hin]].
    + apply In_deletionTrace in Hin as [[m ->]| ->]; discriminate.
    + injection Hin as <- <-. now split.
    + apply Hrest in Hin as (m & -> & _). discriminate.
  - intros m b k Hin Hk. exfalso. apply in_app_or in Hin as [Hin|[Hin|Hin]].
    + apply In_deletionTrace in Hin as [[x [=]]| [= ->]]. discriminate.
    + discriminate.
    + apply Hrest in Hin as (m' & [= ->] & Hnone). congruence.
Qed.

Lemma escalate_calls env st u g v :
  (forall c b, In (c, b) (snd (escalate env st u g v)) -> isBan (c, b) = true ->
               c = Bot.BanChatMember g u /\ 3 <= newCount env st u g) /\
  (forall m b k, In (Bot.Reply m, b) (snd (escalate env st u g v)) ->
                 warningCount m = Some k ->
                 m = warningOf v (newCount env st u g) /\
                 k = newCount env st u g /\ newCount env st u g < 3).
Proof.
  cbv zeta. rewrite escalate_ladder. unfold ladder, newCount.
  set (st1 := fst (Bot.countViolation env (Bot.initSession st (u, g)) u g)).
  set (n := snd (Bot.countViolation env (Bot.initSession st (u, g)) u g)).
  assert (Hfail : forall c b, In (c, b) (banFailedNotice env v) ->
                              exists m, c = Bot.Reply m /\ warningCount m = None).
  { intros c b H. apply In_banFailedNotice in H as ->. now eexists. }
  destruct (Z.geb_spec n 3) as [Hge|Hlt].
  - destruct (Bot.banChatMemberOk env);
      [destruct (Bot.replyOk env (bannedOf v))|]; cbn [fst snd];
      apply ban_branch_calls; try exact Hge.
    + intros c b [[= <- <-]|[]]. eexists. split; [reflexivity|].
      apply warningCount_banned.
    + intros c b [[= <- <-]|Hin]; [|now apply (Hfail c b)].
      eexists. split; [reflexivity|]. apply warningCount_banned.
    + exact Hfail.
  - destruct (canWarn env v); cbn [fst snd]; split.
    + intros c b Hin Hb. exfalso. apply in_app_or in Hin as [Hin|Hin].
      * apply In_deletionTrace in Hin as [[m ->]| ->]; discriminate.
      * apply In_warn in Hin as ->. destruct v; discriminate.
    + intros m b k Hin Hk. apply in_app_or in Hin as [Hin|Hin].
      * exfalso. apply In_deletionTrace in Hin as [[x [=]]| [= ->]]. discriminate.
      * apply In_warn in Hin as [= ->]. rewrite warningCount_warning in Hk.
        injection Hk as <-. repeat split. lia.
    + intros c b Hin Hb. exfalso.
      apply In_deletionTrace in Hin as [[m ->]| ->]; discriminate.
    + intros m b k Hin Hk. exfalso.
      apply In_deletionTrace in Hin as [[x [=]]| [= ->]]. discriminate.
Qed.

(** X10: whatever the collaborators do, one violation leads to a ban
    attempt only when the count it arrives at is 3 or more, and then of
    the offender in the chat of the event; it leads to a warning only when
    that count is below 3, and the warning shows that count.  Hence no
    event both warns and bans. *)
Theorem X10_ban_from_three_warning_below :
  forall (env : Bot.Env) (st : Bot.State) (u g : Z) (v : Violation),
    let t := snd (escalate env st u g v) in
    let n := newCount env st u g in
    (forall c b, In (c, b) t -> isBan (c, b) = true ->
                 c = Bot.BanChatMember g u /\ 3 <= n) /\
    (forall m b k, In (Bot.Reply m, b) t -> warningCount m = Some k ->
                   m = warningOf v n /\ k = n /\ n < 3).
Proof. intros env st u g v. apply escalate_calls. Qed.

(** With the counters out of reach at the read, every violation arrives
    at count 1, so no ban is ever attempted. *)
Lemma newCount_unreachable env st u g :
  Bot.db env Bot.WarningsRead <> Db.HReady -> newCount env st u g = 1.
Proof. intros H. unfold newCount. now apply countViolation_unreachable. Qed.

(** X11: while the counters collection cannot be read, every violation
    arrives at count 1, however many came before, and no ban is
    attempted. *)
Theorem X11_no_ban_while_counters_unreachable :
  forall (env : Bot.Env) (st : Bot.State) (u g : Z) (v : Violation),
    Bot.db env Bot.WarningsRead <> Db.HReady ->
    newCount env st u g = 1 /\
    forall c b, In (c, b) (snd (escalate env st u g v)) -> isBan (c, b) = false.
Proof.
  intros env st u g v Hdb.
  pose proof (newCount_unreachable env st u g Hdb) as Hn. split; [exact Hn|].
  intros c b Hin. destruct (isBan (c, b)) eqn:E; [|reflexivity].
  destruct (escalate_calls env st u g v) as [Hban _].
  destruct (Hban c b Hin E) as [_ H3]. lia.
Qed.

(** X12: at a count of 3 or more, when the ban is refused, or when the
    ban goes through but its notice cannot be sent, the stored count is
    not reset: it stays at the count the event arrived at, and the ban
    was attempted. *)
Theorem X12_count_kept_when_ban_or_notice_fails :
  forall (env : Bot.Env) (st : Bot.State) (u g : Z) (v : Violation),
    u <> 0 -> g <> 0 -> CountersReady env ->
    0 <= storedCount st u g -> 3 <= storedCount st u g + 1 ->
    Bot.banChatMemberOk env = false \/ Bot.replyOk env (bannedOf v) = false ->
    storedCount (fst (escalate env st u g v)) u g = storedCount st u g + 1 /\
    In (Bot.BanChatMember g u, Bot.banChatMemberOk env) (snd (escalate env st u g v)).
Proof.
  intros env st u g v Hu Hg Hdb Hc H3 Hfail.
  rewrite escalate_ladder. unfold ladder.
  destruct (countViolation_ready env (Bot.initSession st (u, g)) u g Hu Hg Hdb)
    as [Hn Hs]; [now rewrite storedCount_initSession|].
  rewrite storedCount_initSession in Hn, Hs. rewrite Hn.
  destruct (Z.geb_spec (storedCount st u g + 1) 3); [|lia].
  destruct (Bot.banChatMemberOk env) eqn:Hb.
  - destruct Hfail as [Hfail|Hfail]; [discriminate|]. rewrite Hfail. cbn [fst snd].
    split; [exact Hs|]. apply in_or_app. right. now left.
  - cbn [fst snd]. split; [exact Hs|]. apply in_or_app. right. now left.
Qed.

Lemma SameElsewhere_refl k st : SameElsewhere k st st.
Proof. unfold SameElsewhere. repeat split. Qed.

Lemma SameElsewhere_trans k st1 st2 st3 :
  SameElsewhere k st1 st2 -> SameElsewhere k st2 st3 -> SameElsewhere k st1 st3.
Proof.
  intros (A1 & B1 & C1 & D1 & E1) (A2 & B2 & C2 & D2 & E2).
  unfold SameElsewhere. repeat split; try congruence.
  - destruct (E1 k' H), (E2 k' H). congruence.
  - destruct (E1 k' H), (E2 k' H). congruence.
Qed.

Lemma update_elsewhere (h : Db.Handle) (m : gmap (Z * Z) Z) (u g c : Z) (k' : Z * Z) :
  k' <> (u, g) ->
  fst (Db.updateUserWarningsAcrossSessions h m u g c) !! k' = m !! k'.
Proof.
  intros Hk. unfold Db.updateUserWarningsAcrossSessions.
  destruct (_ || _ || _)%bool; [reflexivity|].
  destruct h; try reflexivity. cbn [fst]. now apply lookup_insert_ne.
Qed.

Lemma SameElsewhere_initSession st k : SameElsewhere k st (Bot.initSession st k).
Proof.
  unfold Bot.initSession. destruct (Bot.session st !! k); [apply SameElsewhere_refl|].
  unfold SameElsewhere. cbn. repeat split. now apply lookup_insert_ne.
Qed.

Lemma SameElsewhere_countViolation env st u g :
  SameElsewhere (u, g) st (fst (Bot.countViolation env st u g)).
Proof.
  unfold Bot.countViolation, SameElsewhere. cbn. repeat split.
  - now apply update_elsewhere.
  - now apply lookup_insert_ne.
Qed.

Lemma SameElsewhere_resetAfterBan env st u g :
  SameElsewhere (u, g) st (Bot.resetAfterBan env st u g).
Proof.
  unfold Bot.resetAfterBan, SameElsewhere. cbn. repeat split.
  - now apply update_elsewhere.
  - now apply lookup_insert_ne.
Qed.

Lemma SameElsewhere_warn env st k m :
  SameElsewhere k st (fst (Bot.warn env st k m)).
Proof.
  unfold Bot.warn. destruct (Bot.cooldownOver env st k); [|apply SameElsewhere_refl].
  destruct (Bot.replyOk env m); [|apply SameElsewhere_refl].
  unfold SameElsewhere. cbn. repeat split. now apply lookup_insert_ne.
Qed.

Lemma escalate_elsewhere env st u g v :
  SameElsewhere (u, g) st (fst (escalate env st u g v)).
Proof.
  rewrite escalate_ladder. unfold ladder.
  pose proof (SameElsewhere_trans _ _ _ _
                (SameElsewhere_initSession st (u, g))
                (SameElsewhere_countViolation env (Bot.initSession st (u, g)) u g))
    as H1.
  set (st1 := fst (Bot.countViolation env (Bot.initSession st (u, g)) u g)) in *.
  destruct (Z.geb _ 3).
  - destruct (Bot.banChatMemberOk env);
      [destruct (Bot.replyOk env (bannedOf v))|]; cbn [fst]; try exact H1.
    apply (SameElsewhere_trans _ _ _ _ H1), SameElsewhere_resetAfterBan.
  - destruct (canWarn env v); cbn [fst]; [|exact H1].
    apply (SameElsewhere_trans _ _ _ _ H1), SameElsewhere_warn.
Qed.

(** X13: the escalation of one user in one chat touches the count and
    the session entry of that pair only: the counts and session entries
    of all other users and chats, the word lists, the settings and the
    alerts are as before, whatever the collaborators do. *)
Theorem X13_escalation_is_local_to_the_pair :
  forall (env : Bot.Env) (st : Bot.State) (u g : Z) (v : Violation),
    let st' := fst (escalate env st u g v) in
    Bot.abusiveWords st' = Bot.abusiveWords st /\
    Bot.groupSettings st' = Bot.groupSettings st /\
    Bot.dbAbusiveWords st' = Bot.dbAbusiveWords st /\
    Bot.alertMessages st' = Bot.alertMessages st /\
    forall u' g', (u', g') <> (u, g) ->
      storedCount st' u' g' = storedCount st u' g' /\
      lastWarningOf st' u' g' = lastWarningOf st u' g' /\
      Bot.session st' !! (u', g') = Bot.session st !! (u', g').
Proof.
  intros env st u g v. cbv zeta.
  destruct (escalate_elsewhere env st u g v) as (A & B & C & D & E).
  repeat split; auto.
  - unfold storedCount. destruct (E _ H) as [-> _]. reflexivity.
  - unfold lastWarningOf, Bot.userData. destruct (E _ H) as [_ ->]. reflexivity.
  - now destruct (E _ H).
Qed.

End EscalationSafety.

(** ** What the handlers never do *)

Section Handlers.
Import Js Spec Props.

Lemma durable_initSession st k : durable (Bot.initSession st k) = durable st.
Proof. unfold Bot.initSession. now destruct (Bot.session st !! k). Qed.

(** The text handler either escalates, or leaves everything but the
    sender's session entry alone and neither deletes nor bans. *)
Lemma onMessageText_shape env st ev :
  (exists u, Bot.textPrivate ev = false /\ Bot.textFrom ev = Some u /\ u <> 0 /\
             Db.abusiveWordsEnabled
               (Db.getGroupSettings (Bot.db env Bot.SettingsInHandler)
                  (Bot.groupSettings st) (Bot.textChat ev)) = true /\
             Bot.botCanManage env = true /\ Bot.userIsAdmin env = false /\
             Bot.onMessageText env st ev =
             escalate env st u (Bot.textChat ev)
                      (TextViolation (Bot.textMessageId ev))) \/
  (durable (fst (Bot.onMessageText env st ev)) = durable st /\
   (forall c, In c (snd (Bot.onMessageText env st ev)) -> isModeration c = false) /\
   (fst (Bot.onMessageText env st ev) = st \/
    exists u, Bot.textFrom ev = Some u /\
              fst (Bot.onMessageText env st ev) =
              Bot.initSession st (u, Bot.textChat ev))).
Proof.
  unfold Bot.onMessageText.
  destruct (Bot.textPrivate ev) eqn:Hp;
    [right; cbn; repeat split; [easy | now left]|].
  destruct (Bot.textFrom ev) as [u|] eqn:Hf;
    [|right; cbn; repeat split; [easy | now left]].
  destruct (truthyNum u) eqn:Hu; cbn [negb];
    [|right; cbn; repeat split; [easy | now left]].
  destruct (Db.abusiveWordsEnabled _) eqn:Hs; cbn [negb];
    [|right; cbn; repeat split; [easy | now left]].
  destruct (Bot.containsAbusiveWord _ _ _ _) eqn:Hc.
  - destruct (Bot.botCanManage env) eqn:Hb; cbn [negb].
    + destruct (Bot.userIsAdmin env) eqn:Ha.
      * right. cbn [fst snd]. split; [apply durable_initSession|].
        split; [easy|]. right. now exists u.
      * left. exists u. repeat split; auto.
        unfold truthyNum in Hu. apply negb_true_iff, Z.eqb_neq in Hu. exact Hu.
    + right. cbn [fst snd]. split; [apply durable_initSession|].
      split; [|right; now exists u].
      intros c [<-|[]]. reflexivity.
  - right. cbn [fst snd]. split; [apply durable_initSession|].
    split; [easy|]. right. now exists u.
Qed.

(** The photo and video handlers either delete and escalate, or fail to
    delete and say so, or do nothing to the state and neither delete nor
    ban. *)
Lemma onMessageMedia_shape env st ev :
  (exists u, Bot.mediaPrivate ev = false /\ Bot.mediaFrom ev = Some u /\ u <> 0 /\
             Bot.moderationEnabled (Bot.mediaType ev)
               (Db.getGroupSettings (Bot.db env Bot.SettingsInHandler)
                  (Bot.groupSettings st) (Bot.mediaChat ev)) = true /\
             Bot.botCanManage env = true /\ Bot.userIsAdmin env = false /\
             ((Bot.deleteMessageOk env = true /\
               Bot.onMessageMedia env st ev =
               (fst (escalate env st u (Bot.mediaChat ev)
                              (MediaViolation (Bot.mediaType ev))),
                (Bot.DeleteMessage (Bot.mediaChat ev) (Bot.mediaMessageId ev), true)
                  :: snd (escalate env st u (Bot.mediaChat ev)
                                   (MediaViolation (Bot.mediaType ev))))) \/
              (Bot.deleteMessageOk env = false /\
               Bot.onMessageMedia env st ev =
               (st, [(Bot.DeleteMessage (Bot.mediaChat ev) (Bot.mediaMessageId ev), false);
                     (Bot.Reply Bot.CouldNotDeleteMedia,
                      Bot.replyOk env Bot.CouldNotDeleteMedia)])))) \/
  (fst (Bot.onMessageMedia env st ev) = st /\
   forall c, In c (snd (Bot.onMessageMedia env st ev)) -> isModeration c = false).
Proof.
  unfold Bot.onMessageMedia.
  destruct (Bot.mediaPrivate ev) eqn:Hp; [right; cbn; now split|].
  destruct (Bot.mediaFrom ev) as [u|] eqn:Hf; [|right; cbn; now split].
  destruct (truthyNum u) eqn:Hu; cbn [negb]; [|right; cbn; now split].
  destruct (Bot.moderationEnabled _ _) eqn:Hs; cbn [negb]; [|right; cbn; now split].
  destruct (Bot.botCanManage env) eqn:Hb; cbn [negb].
  2:{ right. cbn [fst snd]. split; [reflexivity|]. intros c [<-|[]]. reflexivity. }
  destruct (Bot.userIsAdmin env) eqn:Ha; [right; cbn; now split|].
  destruct (Bot.mediaFile ev) as [[|b buffer]|]; [right; cbn; now split| |right; cbn; now split].
  destruct (OpenAI.verdictInappropriate _); [|right; cbn; now split].
  left. exists u.
  assert (u <> 0) as Hu0
    by (unfold truthyNum in Hu; now apply negb_true_iff, Z.eqb_neq in Hu).
  repeat split; auto.
  destruct (Bot.deleteMessageOk env) eqn:Hd.
  - left. split; [reflexivity|]. unfold escalate.
    now destruct (Bot.handleInappropriateContent _ _ _ _ _).
  - right. split; reflexivity.
Qed.

Lemma update_nonneg (h : Db.Handle) (m : gmap (Z * Z) Z) (u g c : Z) :
  (forall k n, m !! k = Some n -> 0 <= n) ->
  forall k n, fst (Db.updateUserWarningsAcrossSessions h m u g c) !! k = Some n ->
              0 <= n.
Proof.
  intros Hm k n. unfold Db.updateUserWarningsAcrossSessions.
  destruct (_ || _ || _)%bool eqn:E; [apply Hm|].
  destruct h; try apply Hm. cbn [fst].
  apply orb_false_iff in E as [_ E]. apply Z.ltb_ge in E.
  destruct (decide (k = (u, g))) as [->|Hk].
  - rewrite lookup_insert_eq. intros [= <-]. exact E.
  - rewrite lookup_insert_ne by congruence. apply Hm.
Qed.

Lemma CountsNonNegative_initSession st k :
  CountsNonNegative st -> CountsNonNegative (Bot.initSession st k).
Proof. unfold Bot.initSession. now destruct (Bot.session st !! k). Qed.

Lemma CountsNonNegative_countViolation env st u g :
  CountsNonNegative st -> CountsNonNegative (fst (Bot.countViolation env st u g)).
Proof.
  intros H. unfold CountsNonNegative, Bot.countViolation. cbn.
  now apply update_nonneg.
Qed.

Lemma CountsNonNegative_resetAfterBan env st u g :
  CountsNonNegative st -> CountsNonNegative (Bot.resetAfterBan env st u g).
Proof.
  intros H. unfold CountsNonNegative, Bot.resetAfterBan. cbn.
  now apply update_nonneg.
Qed.

Lemma CountsNonNegative_warn env st k m :
  CountsNonNegative st -> CountsNonNegative (fst (Bot.warn env st k m)).
Proof.
  intros H. unfold Bot.warn.
  destruct (Bot.cooldownOver env st k); [|exact H].
  destruct (Bot.replyOk env m); exact H.
Qed.

Lemma CountsNonNegative_escalate env st u g v :
  CountsNonNegative st -> CountsNonNegative (fst (escalate env st u g v)).
Proof.
  intros H. rewrite escalate_ladder. unfold ladder.
  pose proof (CountsNonNegative_countViolation env _ u g
                (CountsNonNegative_initSession st (u, g) H)) as H1.
  set (st1 := fst (Bot.countViolation env (Bot.initSession st (u, g)) u g)) in *.
  destruct (Z.geb _ 3).
  - destruct (Bot.banChatMemberOk env);
      [destruct (Bot.replyOk env (bannedOf v))|]; cbn [fst]; try exact H1.
    now apply CountsNonNegative_resetAfterBan.
  - destruct (canWarn env v); cbn [fst]; [|exact H1].
    now apply CountsNonNegative_warn.
Qed.

Lemma durable_counts st st' :
  durable st' = durable st -> CountsNonNegative st -> CountsNonNegative st'.
Proof.
  unfold durable, CountsNonNegative. intros [= _ _ _ E _] H. now rewrite E.
Qed.

Lemma dispatch_warnings env alerts :
  forall st, Bot.userWarningsAcrossSessions (fst (Bot.dispatch env st alerts)) =
             Bot.userWarningsAcrossSessions st.
Proof.
  induction alerts as [|a rest IH]; intros st; [reflexivity|].
  cbn [Bot.dispatch].
  destruct (Bot.dispatch env _ rest) as [st' t] eqn:E. cbn [fst].
  change st' with (fst (st', t)). rewrite <- E, IH.
  now destruct (Bot.sendMessageOk env (Db.chatId a)).
Qed.

(** X14: no stored count is ever negative: starting from a state where
    none is, a text event, a photo or video event and a scheduler tick
    each lead to such a state again, whatever the collaborators do. *)
Theorem X14_counts_never_negative :
  forall (env : Bot.Env) (st : Bot.State),
    CountsNonNegative st ->
    (forall ev, CountsNonNegative (fst (Bot.onMessageText env st ev))) /\
    (forall ev, CountsNonNegative (fst (Bot.onMessageMedia env st ev))) /\
    CountsNonNegative (fst (Bot.tick env st)).
Proof.
  intros env st H. repeat split.
  - intros ev.
    destruct (onMessageText_shape env st ev) as [(u & _ & _ & _ & _ & _ & _ & ->)|(Hd & _)].
    + now apply CountsNonNegative_escalate.
    + now apply (durable_counts st).
  - intros ev.
    destruct (onMessageMedia_shape env st ev)
      as [(u & _ & _ & _ & _ & _ & _ & [[_ ->]|[_ ->]])|(-> & _)]; cbn [fst]; auto.
    now apply CountsNonNegative_escalate.
  - unfold Bot.tick, CountsNonNegative. rewrite dispatch_warnings. exact H.
Qed.

(** X15: a message of an administrator, a message in a chat where the
    bot lacks the rights to moderate, and a message in a private chat are
    never deleted and their sender is never banned or counted: the trace
    holds no deletion and no ban, and word lists, settings, counts and
    alerts are as before. *)
Theorem X15_exempt_senders_are_left_alone :
  forall (env : Bot.Env) (st : Bot.State),
    (forall ev,
       Bot.userIsAdmin env = true \/ Bot.botCanManage env = false \/
       Bot.textPrivate ev = true ->
       durable (fst (Bot.onMessageText env st ev)) = durable st /\
       forall c, In c (snd (Bot.onMessageText env st ev)) -> isModeration c = false) /\
    (forall ev,
       Bot.userIsAdmin env = true \/ Bot.botCanManage env = false \/
       Bot.mediaPrivate ev = true ->
       fst (Bot.onMessageMedia env st ev) = st /\
       forall c, In c (snd (Bot.onMessageMedia env st ev)) -> isModeration c = false).
Proof.
  intros env st. split; intros ev Hex.
  - destruct (onMessageText_shape env st ev)
      as [(u & Hp & _ & _ & _ & Hb & Ha & _)|(Hd & Hm & _)].
    + destruct Hex as [?|[?|?]]; congruence.
    + now split.
  - destruct (onMessageMedia_shape env st ev)
      as [(u & Hp & _ & _ & _ & Hb & Ha & _)|H].
    + destruct Hex as [?|[?|?]]; congruence.
    + exact H.
Qed.

Lemma escalate_moderation env st u g v c b :
  In (c, b) (snd (escalate env st u g v)) -> isModeration (c, b) = true ->
  c = Bot.BanChatMember g u \/
  exists mid, v = TextViolation mid /\ c = Bot.DeleteMessage g mid.
Proof.
  intros Hin Hm. destruct c as [g' mid|g' u'|m|g' s]; try discriminate.
  - right. revert Hin. rewrite escalate_ladder. unfold ladder.
    assert (forall t, In (Bot.DeleteMessage g' mid, b) (deletionTrace env g v ++ t) ->
                      (forall b', ~ In (Bot.DeleteMessage g' mid, b') t) ->
                      exists mid0, v = TextViolation mid0 /\
                                   Bot.DeleteMessage g' mid = Bot.DeleteMessage g mid0)
      as Hdel.
    { intros t Hin Hno. apply in_app_or in Hin as [Hin|Hin]; [|now apply Hno in Hin].
      destruct v as [mid0|ty]; [|destruct Hin]. exists mid0. split; [reflexivity|].
      unfold deletionTrace in Hin.
      destruct (Bot.deleteMessageOk env);
        [destruct Hin as [[= <- <-]|[]]
        |destruct Hin as [[= <- <-]|[[=]|[]]]]; reflexivity. }
    destruct (Z.geb _ 3).
    + destruct (Bot.banChatMemberOk env);
        [destruct (Bot.replyOk env (bannedOf v))|]; cbn [snd]; intros Hin;
        apply (Hdel _ Hin); intros b' Hb';
        repeat (destruct Hb' as [Hb'|Hb']; [discriminate|]);
        first [destruct Hb' | apply In_banFailedNotice in Hb'; discriminate].
    + destruct (canWarn env v); cbn [snd]; intros Hin.
      * apply (Hdel _ Hin). intros b' Hb'. apply In_warn in Hb'. discriminate.
      * apply (Hdel [] ); [now rewrite app_nil_r|]. now intros b' [].
  - left. destruct (escalate_calls env st u g v) as [Hban _].
    now destruct (Hban _ _ Hin eq_refl) as [-> _].
Qed.

(** X16: the only message a handler ever tries to delete is the message
    of the event, and the only member it ever tries to ban is its
    sender, both in the chat of the event. *)
Theorem X16_only_the_event_message_and_sender :
  forall (env : Bot.Env) (st : Bot.State),
    (forall ev c b,
       In (c, b) (snd (Bot.onMessageText env st ev)) -> isModeration (c, b) = true ->
       c = Bot.DeleteMessage (Bot.textChat ev) (Bot.textMessageId ev) \/
       exists u, Bot.textFrom ev = Some u /\ c = Bot.BanChatMember (Bot.textChat ev) u) /\
    (forall ev c b,
       In (c, b) (snd (Bot.onMessageMedia env st ev)) -> isModeration (c, b) = true ->
       c = Bot.DeleteMessage (Bot.mediaChat ev) (Bot.mediaMessageId ev) \/
       exists u, Bot.mediaFrom ev = Some u /\ c = Bot.BanChatMember (Bot.mediaChat ev) u).
Proof.
  intros env st. split; intros ev c b Hin Hm.
  - destruct (onMessageText_shape env st ev)
      as [(u & _ & Hf & _ & _ & _ & _ & E)|(_ & Hno & _)].
    + rewrite E in Hin.
      destruct (escalate_moderation _ _ _ _ _ _ _ Hin Hm) as [->|(mid & [= <-] & ->)].
      * right. now exists u.
      * now left.
    + rewrite (Hno _ Hin) in Hm. discriminate.
  - destruct (onMessageMedia_shape env st ev)
      as [(u & _ & Hf & _ & _ & _ & _ & [[_ E]|[_ E]])|(_ & Hno)].
    + rewrite E in Hin. cbn [snd] in Hin. destruct Hin as [[= <- <-]|Hin]; [now left|].
      destruct (escalate_moderation _ _ _ _ _ _ _ Hin Hm) as [->|(mid & [=] & _)].
      right. now exists u.
    + rewrite E in Hin. cbn [snd] in Hin. left.
      destruct Hin as [[= <- <-]|[[= <- <-]|[]]]; [reflexivity|discriminate].
    + rewrite (Hno _ Hin) in Hm. discriminate.
Qed.

End Handlers.

(** ** The administration commands and the menu *)

Section Administration.
Import Js Spec Props Admin.

(** *** The alerts keep a positive interval *)

Lemma Forall_upsertAlert (P : Db.AlertMessage -> Prop) a l :
  P a -> Forall P l -> Forall P (Db.upsertAlert a l).
Proof.
  intros Ha. induction 1 as [|b l Hb Hl IH]; cbn [Db.upsertAlert].
  - now constructor.
  - destruct (Z.eqb (Db.chatId b) (Db.chatId a)); constructor; auto.
Qed.

Lemma Forall_deleteAlert (P : Db.AlertMessage -> Prop) chat l :
  Forall P l -> Forall P (Db.deleteAlert chat l).
Proof.
  induction 1 as [|b l Hb Hl IH]; cbn [Db.deleteAlert]; [constructor|].
  destruct (Z.eqb (Db.chatId b) chat); [exact Hl | now constructor].
Qed.

Lemma positive_touchAlert chat now l :
  Forall (fun a => 0 < Db.interval a) l ->
  Forall (fun a => 0 < Db.interval a) (Db.touchAlert chat now l).
Proof.
  induction 1 as [|b l Hb Hl IH]; cbn [Db.touchAlert]; [constructor|].
  destruct (Z.eqb (Db.chatId b) chat); constructor; auto.
Qed.

Lemma positive_dispatch env due :
  forall st, IntervalsPositive st -> IntervalsPositive (fst (Bot.dispatch env st due)).
Proof.
  induction due as [|a due IH]; intros st H; [exact H|].
  cbn [Bot.dispatch].
  destruct (Bot.dispatch env _ due) as [st' t] eqn:E. cbn [fst].
  change st' with (fst (st', t)). rewrite <- E. apply IH.
  destruct (Bot.sendMessageOk env (Db.chatId a)); [|exact H].
  unfold IntervalsPositive. cbn [Bot.alertMessages Bot.withAlerts].
  destruct (Bot.db env Bot.AlertsSent); cbn [Db.updateAlertMessageLastSent fst];
    try exact H.
  now apply positive_touchAlert.
Qed.

Lemma positive_handleRemoveAlert h st chat :
  IntervalsPositive st -> IntervalsPositive (fst (handleRemoveAlert h st chat)).
Proof.
  intros H. unfold handleRemoveAlert.
  destruct (Db.getAlertMessage _ _ _); [|exact H].
  unfold IntervalsPositive. cbn [fst Bot.alertMessages Bot.withAlerts].
  destruct (alertsWrite h); cbn [Db.removeAlertMessage fst]; try exact H.
  now apply Forall_deleteAlert.
Qed.

(** The menu changes the alerts through [handleRemoveAlert] only. *)
Lemma onCallbackQuery_alerts isUserAdmin h st ev :
  Bot.alertMessages (fst (onCallbackQuery isUserAdmin h st ev)) = Bot.alertMessages st \/
  exists chat, fst (onCallbackQuery isUserAdmin h st ev) = fst (handleRemoveAlert h st chat).
Proof.
  unfold onCallbackQuery.
  destruct (callbackChat ev) as [chat|]; [|now left].
  destruct (negb (truthyNum chat)); [now left|].
  repeat match goal with
         | |- context [if ?b then _ else _] => destruct b
         end; try (now left); try (right; now exists chat);
    unfold handleToggleAbusiveWords, handleToggleImageModeration,
      handleToggleVideoModeration, handleToggle, handleListAbusiveWords;
    try destruct (Nat.eqb _ 0); now left.
Qed.

(** *** What it takes to be sent the third usage notice *)

Lemma split_nonempty sep s : split sep s <> [].
Proof.
  destruct s as [|c s]; cbn [split]; [discriminate|].
  destruct (Ascii.eqb c sep); [discriminate|].
  destruct (split sep s); discriminate.
Qed.

Lemma lastChar_cons p q c s : lastChar p (String c s) = lastChar q (String c s).
Proof. reflexivity. Qed.

(** The last part of a split is empty only for the empty string and for
    a string that ends with the separator. *)
Lemma split_last_empty sep s :
  List.last (split sep s) EmptyString = EmptyString ->
  s = EmptyString \/ lastChar None s = Some sep.
Proof.
  induction s as [|c s IH]; [now left|].
  cbn [split]. intros H. right. cbn [lastChar].
  destruct (Ascii.eqb_spec c sep) as [->|Hc].
  - assert (List.last (split sep s) EmptyString = EmptyString) as H'.
    { revert H. pose proof (split_nonempty sep s).
      destruct (split sep s); [contradiction | intros H0; exact H0]. }
    destruct (IH H') as [->|E]; [reflexivity|].
    destruct s; [discriminate|]. exact E.
  - destruct s as [|c' s].
    + cbn in H. discriminate.
    + rewrite (lastChar_cons (Some c) None). 
      destruct (split sep (String c' s)) as [|x [|y l]] eqn:E.
      * cbn in H. discriminate.
      * cbn in H. discriminate.
      * destruct IH as [?|IH]; [exact H | discriminate | exact IH].
Qed.

Lemma trimEnd_lastChar s c :
  lastChar None (trimEnd s) = Some c -> isWhiteSpace c = false.
Proof.
  induction s as [|a s IH]; cbn [trimEnd]; [discriminate|].
  destruct (trimEnd s) as [|b r] eqn:E.
  - cbn [isEmpty]. rewrite andb_true_r.
    destruct (isWhiteSpace a) eqn:Ea; [discriminate|].
    cbn. now intros [= <-].
  - cbn [isEmpty]. rewrite andb_false_r.
    rewrite (lastChar_cons None (Some a)) in IH. exact IH.
Qed.

Lemma join_empty c sep l :
  join (String c sep) l = EmptyString -> l = [] \/ l = [EmptyString].
Proof.
  destruct l as [|x [|y l]]; [now left | cbn; intros ->; now right |].
  cbn [join]. destruct x; [rewrite app_nil_l | rewrite app_cons];
    rewrite ?app_cons; discriminate.
Qed.

Lemma length_zero s : Nat.eqb (String.length s) 0 = true -> s = EmptyString.
Proof. now destruct s. Qed.

(** After [trim], a text with three parts or more has a non-empty
    remainder after the second space. *)
Lemma message_nonempty t :
  let parts := split " " (trim t) in
  Nat.ltb (List.length parts) 3 = false ->
  Nat.eqb (String.length (join " " (skipn 2 parts))) 0 = false.
Proof.
  cbv zeta. intros Hlen.
  destruct (Nat.eqb _ 0) eqn:E; [exfalso|reflexivity].
  apply length_zero, join_empty in E.
  apply Nat.ltb_ge in Hlen.
  destruct (split " " (trim t)) as [|a [|b [|c r]]] eqn:Es;
    cbn [List.length] in Hlen; try lia.
  cbn [skipn] in E. destruct E as [E|E]; [discriminate|].
  injection E as -> ->.
  destruct (split_last_empty " " (trim t)) as [E|E].
  - now rewrite Es.
  - rewrite E in Es. discriminate.
  - unfold trim in E. apply trimEnd_lastChar in E. discriminate.
Qed.

Lemma set_alert_message_answers parseInt h env st ev :
  snd (set_alert_message parseInt h env st ev) <> Some ProvideMessage.
Proof.
  unfold set_alert_message.
  destruct (userOf ev); [|discriminate].
  destruct (negb (Bot.userIsAdmin env)); [discriminate|].
  destruct (commandText ev) as [t|].
  - destruct (Nat.ltb _ 3) eqn:Hlen; [discriminate|].
    destruct (parseInt _); [|discriminate].
    destruct (Z.leb _ 0); [discriminate|].
    now rewrite (message_nonempty t Hlen).
  - discriminate.
Qed.

(** X17: every stored alert keeps a positive interval: from a state
    where all have one, [/set_alert_message], a menu action and a
    scheduler tick each lead to such a state again, whatever is typed or
    pressed and whatever the collaborators do. *)
Theorem X17_alert_intervals_stay_positive :
  forall (st : Bot.State),
    IntervalsPositive st ->
    (forall parseInt h env ev,
        IntervalsPositive (fst (set_alert_message parseInt h env st ev))) /\
    (forall isUserAdmin h ev,
        IntervalsPositive (fst (onCallbackQuery isUserAdmin h st ev))) /\
    (forall env, IntervalsPositive (fst (Bot.tick env st))).
Proof.
  intros st H. repeat split.
  - intros parseInt h env ev. unfold set_alert_message.
    destruct (userOf ev); [|exact H].
    destruct (negb (Bot.userIsAdmin env)); [exact H|].
    destruct (Nat.ltb _ 3); [exact H|].
    destruct (parseInt _) as [i|]; [|exact H].
    destruct (Z.leb_spec i 0); [exact H|].
    destruct (Nat.eqb _ 0); [exact H|].
    unfold IntervalsPositive. cbn [fst Bot.alertMessages Bot.withAlerts].
    destruct h; cbn [Db.setAlertMessage fst]; try exact H.
    now apply Forall_upsertAlert.
  - intros isUserAdmin h ev.
    destruct (onCallbackQuery_alerts isUserAdmin h st ev) as [E|[chat ->]].
    + unfold IntervalsPositive. now rewrite E.
    + now apply positive_handleRemoveAlert.
  - intros env. unfold Bot.tick. now apply positive_dispatch.
Qed.

(** X18: [/set_alert_message] never answers that a message must be
    provided: a trimmed text that splits into three parts or more always
    leaves a non-empty message after the interval. *)
Theorem X18_provide_message_is_never_sent :
  forall (parseInt : string -> option Z) (h : Db.Handle)
         (env : Bot.Env) (st : Bot.State) (ev : CommandEvent),
    snd (set_alert_message parseInt h env st ev) <> Some ProvideMessage.
Proof. apply set_alert_message_answers. Qed.

Lemma withGroupSettings_id st : withGroupSettings st (Bot.groupSettings st) = st.
Proof. now destruct st. Qed.

Lemma not_admin_only d :
  existsb (String.eqb d) adminOnlyActions = false ->
  forall a, In a adminOnlyActions -> String.eqb d a = false.
Proof.
  intros E a Ha. destruct (String.eqb d a) eqn:Ed; [|reflexivity].
  rewrite <- E. symmetry. apply existsb_exists. now exists a.
Qed.

(** X19: somebody who is not an administrator changes nothing: the four
    commands and every menu action leave the state as it is. *)
Theorem X19_non_admins_change_nothing :
  forall (st : Bot.State),
    (forall env ev,
        Bot.userIsAdmin env = false ->
        fst (addword env st ev) = st /\
        fst (removeword env st ev) = st /\
        fst (listwords env st ev) = st /\
        forall parseInt h, fst (set_alert_message parseInt h env st ev) = st) /\
    (forall h ev, fst (onCallbackQuery false h st ev) = st).
Proof.
  intros st. split.
  - intros env ev Ha.
    unfold addword, removeword, listwords, set_alert_message. rewrite Ha.
    cbn [negb]. destruct (commandPrivate ev), (userOf ev); now repeat split.
  - intros h ev. unfold onCallbackQuery.
    destruct (callbackChat ev) as [chat|]; [|reflexivity].
    destruct (negb (truthyNum chat)); [reflexivity|].
    destruct (existsb _ adminOnlyActions) eqn:E; [reflexivity|].
    cbn [andb].
    pose proof (not_admin_only _ E) as Hno.
    rewrite (Hno "toggle_abusive_words"), (Hno "toggle_image_moderation"),
      (Hno "toggle_video_moderation"), (Hno "alert_messages"),
      (Hno "list_abusive_words"), (Hno "set_alert"), (Hno "remove_alert"),
      (Hno "back_to_main")
      by (unfold adminOnlyActions; cbn [In]; tauto).
    destruct (String.eqb _ "add_to_group"); [reflexivity|].
    now destruct (String.eqb _ "help").
Qed.

Lemma flagOf_withFlag_same f v s : flagOf f (withFlag f v s) = v.
Proof. now destruct f. Qed.

Lemma flagOf_withFlag_other f f' v s : f' <> f -> flagOf f' (withFlag f v s) = flagOf f' s.
Proof. destruct f, f'; intros H; try reflexivity; now contradiction H. Qed.

(** What a toggle stores, read back. *)
Lemma handleToggle_ready f h st chat :
  chat <> 0 -> settingsRead h = Db.HReady -> settingsWrite h = Db.HReady ->
  forall f',
    flagOf f' (Db.getGroupSettings Db.HReady
                 (Bot.groupSettings (fst (handleToggle f h st chat))) chat)
    = flagOf f' (withFlag f (negb (flagOf f (Db.getGroupSettings Db.HReady
                                              (Bot.groupSettings st) chat)))
                   (Db.getGroupSettings Db.HReady (Bot.groupSettings st) chat)).
Proof.
  intros Hc Hr Hw f'. unfold handleToggle. rewrite Hr, Hw. cbn [fst].
  unfold Db.updateGroupSettings, Db.getGroupSettings at 1.
  rewrite (truthyNum_true chat Hc). cbn [negb fst withGroupSettings Bot.groupSettings].
  rewrite lookup_insert_eq. now destruct f, f'.
Qed.

(** X20: with the settings collection reachable, a toggle flips the one
    flag of the one chat: the flag read back is the negation of the old
    one, which is also what the answer announces; the two other flags and
    the settings of every other chat are as before; and a second toggle
    brings all three flags back. *)
Theorem X20_toggle_flips_one_flag :
  forall (f : Feature) (h : Handles) (st : Bot.State) (chat : Z),
    chat <> 0 -> settingsRead h = Db.HReady -> settingsWrite h = Db.HReady ->
    let old := Db.getGroupSettings Db.HReady (Bot.groupSettings st) chat in
    let st' := fst (handleToggle f h st chat) in
    let new := Db.getGroupSettings Db.HReady (Bot.groupSettings st') chat in
    snd (handleToggle f h st chat) = negb (flagOf f old) /\
    flagOf f new = negb (flagOf f old) /\
    (forall f', f' <> f -> flagOf f' new = flagOf f' old) /\
    (forall chat', chat' <> chat ->
                   Bot.groupSettings st' !! chat' = Bot.groupSettings st !! chat') /\
    (forall f',
        flagOf f' (Db.getGroupSettings Db.HReady
                     (Bot.groupSettings (fst (handleToggle f h st' chat))) chat)
        = flagOf f' old).
Proof.
  intros f h st chat Hc Hr Hw. cbv zeta. repeat split.
  - unfold handleToggle. now rewrite Hr.
  - rewrite (handleToggle_ready f h st chat Hc Hr Hw). apply flagOf_withFlag_same.
  - intros f' Hf. rewrite (handleToggle_ready f h st chat Hc Hr Hw).
    now apply flagOf_withFlag_other.
  - intros chat' Hne. unfold handleToggle. rewrite Hw.
    unfold Db.updateGroupSettings. rewrite (truthyNum_true chat Hc).
    cbn [negb fst withGroupSettings Bot.groupSettings].
    now apply lookup_insert_ne.
  - intros f'. rewrite (handleToggle_ready f h _ chat Hc Hr Hw).
    pose proof (handleToggle_ready f h st chat Hc Hr Hw AbusiveWords) as Ha.
    pose proof (handleToggle_ready f h st chat Hc Hr Hw ImageModeration) as Hi.
    pose proof (handleToggle_ready f h st chat Hc Hr Hw VideoModeration) as Hv.
    destruct f, f';
      cbn [flagOf withFlag Db.abusiveWordsEnabled Db.imageModeration
             Db.videoModeration] in *;
      rewrite ?Ha, ?Hi, ?Hv; try reflexivity; apply negb_involutive.
Qed.

(** X21: when the write of a toggle does not reach the collection, the
    state stays as it is, yet the answer announces the flipped value; a
    second press announces the same value again. *)
Theorem X21_toggle_answer_without_write :
  forall (f : Feature) (h : Handles) (st : Bot.State) (chat : Z),
    settingsWrite h <> Db.HReady ->
    fst (handleToggle f h st chat) = st /\
    snd (handleToggle f h st chat)
      = negb (flagOf f (Db.getGroupSettings (settingsRead h)
                          (Bot.groupSettings st) chat)) /\
    snd (handleToggle f h (fst (handleToggle f h st chat)) chat)
      = snd (handleToggle f h st chat).
Proof.
  intros f h st chat Hw.
  assert (fst (handleToggle f h st chat) = st) as E.
  { unfold handleToggle, Db.updateGroupSettings. cbn [fst].
    destruct (negb (truthyNum chat)); [apply withGroupSettings_id|].
    destruct (settingsWrite h); try apply withGroupSettings_id. congruence. }
  split; [exact E|]. split; [reflexivity|]. now rewrite E.
Qed.

Lemma addAbusiveWord_result env st word chatId :
  In (normalize word) (Bot.abusiveWords (fst (Bot.addAbusiveWord env st word chatId))) /\
  (snd (Bot.addAbusiveWord env st word chatId) = false <->
   ~ In (normalize word) (Bot.abusiveWords st) /\ Bot.writeFileOk env = false).
Proof.
  unfold Bot.addAbusiveWord. fold (normalize word).
  destruct (existsb (String.eqb (normalize word)) (Bot.abusiveWords st)) eqn:E;
    cbn [negb].
  - apply includes_word_spec in E.
    assert (forall st' : Bot.State, Bot.abusiveWords st' = Bot.abusiveWords st ->
                                    In (normalize word) (Bot.abusiveWords st')) as Hin
      by (intros st' ->; exact E).
    destruct chatId as [chat|]; [destruct (truthyNum chat)|]; cbn [fst snd];
      (split; [now apply Hin | split; [discriminate | intros [Hn _]; contradiction]]).
  - assert (~ In (normalize word) (Bot.abusiveWords st)) as Hn.
    { intros Hin. apply includes_word_spec in Hin. congruence. }
    assert (In (normalize word) (Bot.abusiveWords st ++ [normalize word])) as Hin
      by (apply in_or_app; right; now left).
    destruct (Bot.writeFileOk env); cbn [negb].
    + destruct chatId as [chat|]; [destruct (truthyNum chat)|]; cbn [fst snd];
        (split; [exact Hin | split; [discriminate | intros [_ ?]; discriminate]]).
    + cbn [fst snd]. split; [exact Hin | now split].
Qed.

(** X22: [/addword] of an administrator with a word: the word, trimmed
    and lower-cased, is in the in-memory list afterwards in every case.
    The answer is that the word was added, also when it was there
    already; the answer that it is already in the list is given exactly
    when it was not in the list and the file could not be written. *)
Theorem X22_addword_answers :
  forall (env : Bot.Env) (st : Bot.State) (ev : CommandEvent) (u : Z),
    commandPrivate ev = false -> commandFrom ev = Some u -> u <> 0 ->
    Bot.userIsAdmin env = true -> commandMatch ev <> EmptyString ->
    let word := commandMatch ev in
    In (normalize word) (Bot.abusiveWords (fst (addword env st ev))) /\
    (snd (addword env st ev) = Some (AlreadyInList word) <->
     ~ In (normalize word) (Bot.abusiveWords st) /\ Bot.writeFileOk env = false) /\
    (snd (addword env st ev) = Some (Added word) <->
     In (normalize word) (Bot.abusiveWords st) \/ Bot.writeFileOk env = true).
Proof.
  intros env st ev u Hp Hf Hu Ha Hw. cbv zeta.
  unfold addword, userOf. rewrite Hp, Hf, (truthyNum_true u Hu), Ha. cbn [negb].
  apply isEmpty_false in Hw. rewrite Hw.
  destruct (addAbusiveWord_result env st (commandMatch ev) (Some (commandChat ev)))
    as [Hin Hres].
  destruct (Bot.addAbusiveWord env st (commandMatch ev) (Some (commandChat ev)))
    as [st' added]. cbn [fst snd] in *.
  split; [exact Hin|].
  destruct added.
  - split.
    + split; [discriminate|]. intros H. apply Hres in H. discriminate.
    + split; [|reflexivity]. intros _.
      destruct (Bot.writeFileOk env); [now right|]. left.
      destruct (in_dec string_dec (normalize (commandMatch ev)) (Bot.abusiveWords st))
        as [Hi|Hn]; [exact Hi|].
      assert (true = false) by (apply Hres; now split). discriminate.
  - split.
    + split; [intros _; now apply Hres | reflexivity].
    + split; [discriminate|]. intros [Hi|Hwf].
      * destruct Hres as [Hres _]. destruct (Hres eq_refl). contradiction.
      * destruct Hres as [Hres _]. destruct (Hres eq_refl). congruence.
Qed.






(** X25: a word added from one chat is matched in every chat: after
    [addAbusiveWord], whatever it returns, a non-empty text that the
    normalized word hits is flagged in any chat where detection is on. *)
Theorem X25_added_word_is_matched_in_every_chat :
  forall (env env' : Bot.Env) (st : Bot.State) (word : string)
         (chatA chatB : option Z) (text : string),
    text <> EmptyString ->
    let st' := fst (Bot.addAbusiveWord env st word chatA) in
    DetectionOn env' st' chatB ->
    TermHits (Bot.regexpEngine env') (toLowerCase text) (normalize word) ->
    Bot.containsAbusiveWord env' st' (Some text) chatB = true.
Proof.
  intros env env' st word chatA chatB text Ht. cbv zeta. intros Hon Hhit.
  destruct text as [|c t]; [now contradiction Ht|].
  rewrite containsAbusiveWord_nonempty. apply andb_true_iff. split.
  - now apply detectionOnb_spec.
  - apply scanWords_spec. exists (normalize word). split.
    + unfold termList. apply in_or_app. left.
      apply (addAbusiveWord_result env st word chatA).
    + apply wordHits_spec; [apply LowerCased_toLowerCase | exact Hhit].
Qed.

End Administration.

(** ** The cascade as a whole *)

Section CascadeAsAWhole.
Import Js OpenAI Spec Props.

(** Either no stage flags, or there is a first one that does. *)
Lemma first_flag env base64Image :
  (forall s, stageVerdict env base64Image s = None) \/
  exists s r, stageVerdict env base64Image s = Some r /\
              forall s', In s' (before s) -> stageVerdict env base64Image s' = None.
Proof.
  destruct (stageVerdict env base64Image Primary) as [r|] eqn:E1.
  { right. exists Primary, r. split; [exact E1 | intros s' []]. }
  destruct (stageVerdict env base64Image Secondary) as [r|] eqn:E2.
  { right. exists Secondary, r. split; [exact E2|].
    intros s' [<-|[]]; assumption. }
  destruct (stageVerdict env base64Image PatternScan) as [r|] eqn:E3.
  { right. exists PatternScan, r. split; [exact E3|].
    intros s' [<-|[<-|[]]]; assumption. }
  destruct (stageVerdict env base64Image Ocr) as [r|] eqn:E4.
  { right. exists Ocr, r. split; [exact E4|].
    intros s' [<-|[<-|[<-|[]]]]; assumption. }
  destruct (stageVerdict env base64Image DirectPattern) as [r|] eqn:E5.
  { right. exists DirectPattern, r. split; [exact E5|].
    intros s' [<-|[<-|[<-|[<-|[]]]]]; assumption. }
  left. now intros [].
Qed.

Lemma cascade_shape env base64Image :
  (isInappropriate (cascade env base64Image) = false /\
   entered (cascade env base64Image) = stageOrder /\
   forall s, stageVerdict env base64Image s = None) \/
  (exists s r, isInappropriate (cascade env base64Image) = true /\
               reason (cascade env base64Image) = r /\
               entered (cascade env base64Image) = before s ++ [s] /\
               stageVerdict env base64Image s = Some r /\
               forall s', In s' (before s) -> stageVerdict env base64Image s' = None).
Proof.
  destruct (first_flag env base64Image) as [Hnone|(s & r & Hs & Hb)].
  - left. destruct (cascade_no_flag env base64Image Hnone) as [Hi He]. now repeat split.
  - right. exists s, r.
    destruct (cascade_first_flag env base64Image s r Hs Hb) as (Hi & Hr & He).
    now repeat split.
Qed.

Lemma flags_some env base64Image s r :
  stageVerdict env base64Image s = Some r -> flags env base64Image s = true.
Proof. intros H. unfold flags. now rewrite H. Qed.

Lemma flags_none env base64Image s :
  stageVerdict env base64Image s = None -> flags env base64Image s = false.
Proof. intros H. unfold flags. now rewrite H. Qed.

Lemma flags_PatternScan env base64Image :
  flags env base64Image PatternScan
  = Nat.ltb 0 (List.length (termsInPayload base64Image)).
Proof.
  unfold flags, stageVerdict. generalize (termsInPayload base64Image). intros l.
  now destruct (Nat.ltb 0 (List.length l)).
Qed.

Lemma flags_DirectPattern env base64Image :
  flags env base64Image DirectPattern = existsb (includes base64Image) slut_patterns.
Proof.
  unfold flags, stageVerdict.
  generalize (existsb (includes base64Image) slut_patterns). now intros [].
Qed.

Lemma cascade_disjunction env base64Image :
  isInappropriate (cascade env base64Image)
  = existsb (flags env base64Image) stageOrder.
Proof.
  destruct (cascade_shape env base64Image)
    as [(Hi & He & Hnone)|(s & r & Hi & _ & He & Hs & Hb)]; rewrite Hi; symmetry.
  - unfold stageOrder. cbn [existsb].
    now rewrite !(flags_none env base64Image _ (Hnone _)).
  - apply existsb_exists. exists s. split; [destruct s; cbn; tauto|].
    exact (flags_some _ _ _ _ Hs).
Qed.

(** X26: the cascade flags an image exactly when at least one of the
    five stages, taken alone, flags its payload; the stages entered are
    always the first stage up to some stage, in the order of the source;
    and all five are entered exactly when nothing is flagged before the
    last one. *)
Theorem X26_cascade_is_the_disjunction_of_its_stages :
  forall (env : Env) (base64Image : string),
    isInappropriate (cascade env base64Image)
      = existsb (flags env base64Image) stageOrder /\
    (exists s, entered (cascade env base64Image) = before s ++ [s]) /\
    (entered (cascade env base64Image) = stageOrder <->
     forall s, In s (before DirectPattern) -> flags env base64Image s = false).
Proof.
  intros env b. split; [apply cascade_disjunction|].
  destruct (cascade_shape env b) as [(Hi & He & Hnone)|(s & r & Hi & _ & He & Hs & Hb)].
  - rewrite He. split.
    + now exists DirectPattern.
    + split; [|reflexivity]. intros _ s _. now apply flags_none.
  - rewrite He. split.
    + now exists s.
    + pose proof (flags_some _ _ _ _ Hs) as Ht. split.
      * intros E s' Hs'. apply flags_none.
        destruct s; try discriminate E. now apply Hb.
      * intros Hf. destruct s; try reflexivity; exfalso;
          rewrite Hf in Ht; try discriminate Ht; cbn; tauto.
Qed.

Lemma includes_toLowerCase s sub :
  includes s sub = true -> includes (toLowerCase s) (toLowerCase sub) = true.
Proof.
  rewrite !includes_spec. intros (pre & post & ->).
  exists (toLowerCase pre), (toLowerCase post). now rewrite !toLowerCase_app.
Qed.

Lemma filter_nil_false {A} (f : A -> bool) l x :
  List.filter f l = [] -> In x l -> f x = false.
Proof.
  intros E Hin. destruct (f x) eqn:Ef; [|reflexivity].
  assert (In x (List.filter f l)) as H by (apply filter_In; now split).
  rewrite E in H. destruct H.
Qed.

Lemma existsb_false_In {A} (f : A -> bool) l x :
  existsb f l = false -> In x l -> f x = false.
Proof.
  intros E Hin. destruct (f x) eqn:Ef; [|reflexivity].
  rewrite <- E. symmetry. apply existsb_exists. exists x. now split.
Qed.

(** With no explicit term found in the payload, no spelling of any term
    occurs in it. *)
Lemma termsInPayload_nil base64Image term v :
  termsInPayload base64Image = [] ->
  In term explicitTerms -> In v (variations term) ->
  includes (toLowerCase base64Image) (toLowerCase v) = false.
Proof.
  unfold termsInPayload. cbv zeta.
  generalize (toLowerCase base64Image) explicitTerms. intros low terms E Hterm Hv.
  apply (filter_nil_false _ _ term) in E; [|exact Hterm].
  exact (existsb_false_In _ _ v E Hv).
Qed.

Lemma slut_listed : In "slut" explicitTerms.
Proof. left. reflexivity. Qed.

Lemma slut_plain : In "slut" (variations "slut").
Proof. left. reflexivity. Qed.

Lemma slut_upper : In "SLUT" (variations "slut").
Proof. right. left. reflexivity. Qed.

Lemma slut_encoded : In "c2x1dA==" (variations "slut").
Proof. right. right. left. reflexivity. Qed.

Lemma PatternScan_none env base64Image :
  stageVerdict env base64Image PatternScan = None -> termsInPayload base64Image = [].
Proof.
  unfold stageVerdict. generalize (termsInPayload base64Image).
  intros [|t l]; [reflexivity | discriminate].
Qed.

Lemma DirectPattern_some env base64Image r :
  stageVerdict env base64Image DirectPattern = Some r ->
  r = "Direct pattern matching: Detected explicit text" /\
  existsb (includes base64Image) slut_patterns = true.
Proof.
  unfold stageVerdict. generalize (existsb (includes base64Image) slut_patterns).
  intros [] [= <-]. now split.
Qed.

(** The patterns of the fifth stage that get past a scan without
    finding. *)
Lemma direct_patterns_left base64Image :
  (forall v, In v (variations "slut") ->
             includes (toLowerCase base64Image) (toLowerCase v) = false) ->
  existsb (includes base64Image) slut_patterns = true ->
  includes base64Image "U1VMVA==" = true \/ includes base64Image "U2x1dA==" = true.
Proof.
  intros Hno E. apply existsb_exists in E as (p & Hin & Hp).
  destruct Hin as [<-|[<-|[<-|[<-|[<-|[<-|[]]]]]]].
  - left. exact Hp.
  - apply includes_toLowerCase in Hp.
    rewrite (Hno "c2x1dA==" slut_encoded) in Hp. discriminate Hp.
  - right. exact Hp.
  - apply includes_toLowerCase in Hp.
    rewrite (Hno "SLUT" slut_upper) in Hp. discriminate Hp.
  - apply includes_toLowerCase in Hp.
    rewrite (Hno "slut" slut_plain) in Hp. discriminate Hp.
  - apply includes_toLowerCase in Hp.
    change (toLowerCase "Slut") with (toLowerCase "slut") in Hp.
    rewrite (Hno "slut" slut_plain) in Hp. discriminate Hp.
Qed.

(** X27: of the six fixed patterns of the fifth stage, four are caught
    by the scan of the third stage before it (the three plain spellings
    and the encoding of the lower-case one): when the fifth stage is the
    one that flags, the payload contains one of the two other encoded
    patterns. *)
Theorem X27_direct_stage_flags_two_patterns_only :
  forall (env : Env) (base64Image : string),
    isInappropriate (cascade env base64Image) = true ->
    In DirectPattern (entered (cascade env base64Image)) ->
    reason (cascade env base64Image)
      = "Direct pattern matching: Detected explicit text" /\
    (includes base64Image "U1VMVA==" = true \/
     includes base64Image "U2x1dA==" = true).
Proof.
  intros env b Hi Hd.
  destruct (cascade_shape env b) as [(Hi' & _)|(s & r & _ & Hr & He & Hs & Hb)];
    [congruence|].
  rewrite He in Hd. rewrite Hr. clear Hr He Hi.
  assert (s = DirectPattern) as ->.
  { destruct s; [| | | |reflexivity]; exfalso;
      repeat (destruct Hd as [Hd|Hd]; [discriminate Hd|]); destruct Hd. }
  assert (termsInPayload b = []) as Hclean.
  { apply (PatternScan_none env). apply Hb. right. right. now left. }
  apply DirectPattern_some in Hs as [-> E]. split; [reflexivity|].
  apply direct_patterns_left; [|exact E].
  intros v Hv. exact (termsInPayload_nil b "slut" v Hclean slut_listed Hv).
Qed.

Lemma local_stages_only (f : Stage -> bool) :
  f Primary = false -> f Secondary = false -> f Ocr = false ->
  existsb f stageOrder = (f PatternScan || f DirectPattern)%bool.
Proof.
  intros F1 F2 F4. unfold stageOrder. cbn [existsb]. rewrite F1, F2, F4.
  now destruct (f PatternScan), (f DirectPattern).
Qed.

(** X28: with the remote services out of reach, the image is flagged
    exactly when the scan of the payload finds an explicit term or a
    fixed pattern.  The two first remote stages are entered and pass;
    when the scan of the payload finds a term, the cascade ends there
    and the text extraction is not entered; otherwise all five stages
    are entered. *)
Theorem X28_local_stages_decide_during_an_outage :
  forall (env : Env) (base64Image : string),
    moderationsCreate env base64Image = None ->
    (forall p, chatCompletions env p base64Image = None) ->
    isInappropriate (cascade env base64Image)
      = (Nat.ltb 0 (List.length (termsInPayload base64Image)) ||
         existsb (includes base64Image) slut_patterns)%bool /\
    entered (cascade env base64Image)
      = if Nat.ltb 0 (List.length (termsInPayload base64Image))
        then [Primary; Secondary; PatternScan]
        else [Primary; Secondary; PatternScan; Ocr; DirectPattern].
Proof.
  intros env b Hm Hc.
  pose proof (cascade_disjunction env b) as Hi.
  assert (flags env b Primary = false) as F1
    by (apply flags_none; unfold stageVerdict; now rewrite Hm).
  assert (flags env b Secondary = false) as F2
    by (apply flags_none; unfold stageVerdict; now rewrite Hc).
  assert (flags env b Ocr = false) as F4
    by (apply flags_none; unfold stageVerdict; now rewrite Hc).
  split.
  - rewrite Hi, (local_stages_only _ F1 F2 F4).
    rewrite flags_PatternScan, flags_DirectPattern. reflexivity.
  - rewrite <- (flags_PatternScan env b).
    destruct (cascade_shape env b) as [(_ & He & Hn)|(s & r & _ & _ & He & Hs & Hb)].
    + rewrite He, (flags_none _ _ _ (Hn PatternScan)). reflexivity.
    + rewrite He. pose proof (flags_some _ _ _ _ Hs) as Ht.
      destruct s; try congruence.
      * now rewrite Ht.
      * rewrite (flags_none env b PatternScan); [reflexivity|].
        apply Hb. right. right. now left.
Qed.

End CascadeAsAWhole.

(** ** Media without the classification service *)

Section WithoutService.
Import Js OpenAI Spec Props.

Lemma moderate_without_key env t buffer :
  OPENAI_API_KEY (Bot.openai env) = None \/
  OPENAI_API_KEY (Bot.openai env) = Some EmptyString ->
  verdictInappropriate (Bot.moderate env t buffer) = false.
Proof.
  intros Hkey. unfold Bot.moderate, moderateVideo, moderateImage.
  destruct t.
  - destruct Hkey as [->| ->]; reflexivity.
  - destruct (extractFrame (Bot.openai env) buffer); [|reflexivity].
    destruct Hkey as [->| ->]; reflexivity.
Qed.

(** X29: without an API key no photo and no video is ever deleted and
    nobody is banned or counted for one: the handlers leave the state as
    it is, and their trace holds no deletion and no ban. *)
Theorem X29_media_pass_without_api_key :
  forall (env : Bot.Env) (st : Bot.State) (ev : Bot.MediaEvent),
    OPENAI_API_KEY (Bot.openai env) = None \/
    OPENAI_API_KEY (Bot.openai env) = Some EmptyString ->
    fst (Bot.onMessageMedia env st ev) = st /\
    forall c, In c (snd (Bot.onMessageMedia env st ev)) -> isModeration c = false.
Proof.
  intros env st ev Hkey. unfold Bot.onMessageMedia.
  destruct (Bot.mediaPrivate ev); [now split|].
  destruct (Bot.mediaFrom ev) as [u|]; [|now split].
  destruct (negb (truthyNum u)); [now split|].
  destruct (negb (Bot.moderationEnabled _ _)); [now split|].
  destruct (negb (Bot.botCanManage env)).
  { cbn [fst snd]. split; [reflexivity|]. intros c [<-|[]]. reflexivity. }
  destruct (Bot.userIsAdmin env); [now split|].
  destruct (Bot.mediaFile ev) as [[|b buffer]|]; [now split| |now split].
  rewrite (moderate_without_key env _ _ Hkey). now split.
Qed.

End WithoutService.

(** ** The in-memory word list *)

Section GlobalList.
Import Js Spec Props.

Lemma LowerCased_normalize word : LowerCased (normalize word).
Proof.
  unfold LowerCased, normalize. now rewrite toLowerCase_trim, toLowerCase_idem.
Qed.

Lemma spliceFirst_In n l l' x :
  Bot.spliceFirst n l = Some l' -> In x l' -> In x l.
Proof.
  revert l'. induction l as [|w l IH]; intros l'; cbn [Bot.spliceFirst]; [discriminate|].
  destruct (String.eqb (toLowerCase w) n).
  - intros [= <-] Hx. now right.
  - destruct (Bot.spliceFirst n l) as [l''|]; [|discriminate].
    intros [= <-] [<-|Hx]; [now left | right; now apply (IH l'')].
Qed.

Lemma spliceFirst_Normalized n l l' :
  Normalized l -> Bot.spliceFirst n l = Some l' ->
  Normalized l' /\ ~ In n l'.
Proof.
  unfold Normalized. revert l'.
  induction l as [|w l IH]; intros l' [Hnd Hlow]; cbn [Bot.spliceFirst]; [discriminate|].
  apply NoDup_cons in Hnd as [Hw Hnd]. rewrite list_elem_of_In in Hw.
  inversion Hlow as [|? ? Hlw Hll]; subst.
  destruct (String.eqb_spec (toLowerCase w) n) as [E|E].
  - intros [= <-]. rewrite Hlw in E. subst. now repeat split.
  - destruct (Bot.spliceFirst n l) as [l''|] eqn:Es; [|discriminate].
    intros [= <-]. destruct (IH l'' (conj Hnd Hll) eq_refl) as [[Hnd' Hlow'] Hn].
    repeat split.
    + apply NoDup_cons. split; [|exact Hnd'].
      rewrite list_elem_of_In. intros Hx. apply Hw. now apply (spliceFirst_In n l l'').
    + now constructor.
    + intros [Hx|Hx]; [|contradiction]. apply E. now rewrite Hlw.
Qed.

Lemma spliceFirst_None n l :
  Forall LowerCased l -> Bot.spliceFirst n l = None -> ~ In n l.
Proof.
  induction 1 as [|w l Hw Hl IH]; cbn [Bot.spliceFirst]; [intros _ []|].
  destruct (String.eqb_spec (toLowerCase w) n) as [E|E]; [discriminate|].
  destruct (Bot.spliceFirst n l); [discriminate|].
  intros _ [Hx|Hx]; [|now apply IH]. apply E. now rewrite Hw.
Qed.

(** X30: the in-memory word list stays a list of lower-cased words
    without repetition under [addAbusiveWord] and [removeAbusiveWord],
    whatever they return; and after [removeAbusiveWord] the normalized
    word is not in the list, also when the file could not be written. *)
Theorem X30_global_list_stays_normalized :
  forall (env : Bot.Env) (st : Bot.State) (word : string) (chatId : option Z),
    Normalized (Bot.abusiveWords st) ->
    Normalized (Bot.abusiveWords (fst (Bot.addAbusiveWord env st word chatId))) /\
    Normalized (Bot.abusiveWords (fst (Bot.removeAbusiveWord env st word chatId))) /\
    ~ In (normalize word)
         (Bot.abusiveWords (fst (Bot.removeAbusiveWord env st word chatId))).
Proof.
  intros env st word chatId Hn.
  rewrite addAbusiveWord_list, removeAbusiveWord_list. split.
  - destruct (existsb _ (Bot.abusiveWords st)) eqn:E; [exact Hn|].
    destruct Hn as [Hnd Hlow]. split.
    + apply NoDup_app. repeat split; [exact Hnd | | apply NoDup_singleton].
      intros x Hx Hx'. apply list_elem_of_In in Hx, Hx'.
      destruct Hx' as [<-|[]]. apply includes_word_spec in Hx. congruence.
    + apply Forall_app. split; [exact Hlow|].
      constructor; [apply LowerCased_normalize | constructor].
  - destruct (Bot.spliceFirst _ (Bot.abusiveWords st)) as [l|] eqn:E.
    + destruct (spliceFirst_Normalized _ _ _ Hn E). now split.
    + split; [exact Hn|]. apply spliceFirst_None; [apply Hn | exact E].
Qed.

End GlobalList.

(** ** Instances of the further properties *)

Section FurtherInstances.
Import Js Spec Props Admin.

(** X1 at group 7, which has one word, and a word with spaces and a
    capital. *)
Lemma X1_idiot_is_stored_for_group_7 :
  In "idiot"
     (Db.getAbusiveWords Db.HReady
        (fst (Db.addAbusiveWord Db.HReady [(7, "fuck")] 7 " Idiot ")) 7).
Proof.
  refine (proj1 (proj2 (X1_added_word_is_stored_once [(7, "fuck")] 7 " Idiot " _ _ _))).
  - discriminate.
  - vm_compute. discriminate.
  - apply NoDup_singleton.
Defined.

(** X2 at the same collection and word. *)
Lemma X2_idiot_added_and_removed_in_group_7 :
  Db.removeAbusiveWord Db.HReady
    (fst (Db.addAbusiveWord Db.HReady [(7, "fuck")] 7 " Idiot ")) 7 " Idiot "
  = ([(7, "fuck")], Db.mkOutcome true false).
Proof.
  apply (X2_add_then_remove_restores [(7, "fuck")] 7 " Idiot ").
  - discriminate.
  - vm_compute. discriminate.
  - vm_compute. intros [H|[]]. discriminate H.
Defined.

(** X3 at the word that group 7 has. *)
Lemma X3_stored_word_removed_from_group_7 :
  ~ In "fuck"
      (Db.getAbusiveWords Db.HReady
         (fst (Db.removeAbusiveWord Db.HReady [(7, "fuck")] 7 "Fuck")) 7).
Proof.
  refine (proj1 (proj2 (X3_removed_word_is_gone [(7, "fuck")] 7 "Fuck" _ _ _ _))).
  - discriminate.
  - vm_compute. discriminate.
  - apply NoDup_singleton.
  - vm_compute. left. reflexivity.
Defined.

(** X4 at user 42 in group 7 and an empty collection. *)
Lemma X4_count_2_written_and_read :
  Db.getUserWarningsAcrossSessions Db.HReady
    (fst (Db.updateUserWarningsAcrossSessions Db.HReady ∅ 42 7 2)) 42 7 = Some 2.
Proof.
  refine (proj1 (proj1 (X4_counter_write_read ∅ 42 7 2) _ _ _)).
  - discriminate.
  - discriminate.
  - lia.
Defined.

(** X5 at group 7, whose reminder is replaced. *)
Lemma X5_rules_replaced_in_group_7 :
  Db.getAlertMessage Db.HReady
    (fst (Db.setAlertMessage Db.HReady [Cases.rules] 7 "No spam" 30)) 7
  = Some (Db.mkAlertMessage 7 "No spam" 30 0).
Proof.
  refine (proj1 (proj2 (X5_alert_set_then_get [Cases.rules] 7 "No spam" 30 _))).
  apply NoDup_singleton.
Defined.

(** X6 at group 7, whose reminder is removed. *)
Lemma X6_rules_removed_in_group_7 :
  Db.getAlertMessage Db.HReady
    (fst (Db.removeAlertMessage Db.HReady [Cases.rules] 7)) 7 = None.
Proof.
  refine (proj1 (X6_removed_alert_is_never_due [Cases.rules] 7 _)).
  apply NoDup_singleton.
Defined.

(** X8 at two ticks one second apart. *)
Lemma X8_rules_not_sent_a_second_later :
  ~ In (Bot.SendMessage 7 "Be kind", true)
       (snd (Bot.tick (Sample.allGood (Sample.noon + 1000))
               (fst (Bot.tick (Sample.allGood Sample.noon) Cases.withRules)))).
Proof.
  refine (X8_sent_alert_waits_for_its_interval
            (Sample.allGood Sample.noon) (Sample.allGood (Sample.noon + 1000))
            Cases.withRules Cases.rules _ _ _ _ _ "Be kind" true).
  - reflexivity.
  - apply NoDup_singleton.
  - vm_compute. left. reflexivity.
  - reflexivity.
  - vm_compute. discriminate.
Defined.

(** X9 at a tick whose send fails, and a minute later. *)
Lemma X9_rules_due_again_after_failed_send :
  In Cases.rules
     (Db.getAlertMessagesToSend Db.HReady
        (Bot.alertMessages (fst (Bot.tick (Cases.sendFails Sample.noon) Cases.withRules)))
        (Sample.noon + 60000)).
Proof.
  refine (X9_failed_send_is_retried (Cases.sendFails Sample.noon) Cases.withRules
            Cases.rules (Sample.noon + 60000) _ _ _).
  - vm_compute. left. reflexivity.
  - reflexivity.
  - vm_compute. discriminate.
Defined.

(** X10 at the third violation of user 42, with the ban refused. *)
Lemma X10_ban_of_user_42_at_count_3 :
  Bot.BanChatMember 7 42 = Bot.BanChatMember 7 42 /\
  3 <= newCount (Cases.banRefused Sample.noon) Cases.twoStrikes 42 7.
Proof.
  refine (proj1 (X10_ban_from_three_warning_below (Cases.banRefused Sample.noon)
                   Cases.twoStrikes 42 7 (TextViolation 1001))
                (Bot.BanChatMember 7 42) false _ _).
  - vm_compute. right. left. reflexivity.
  - reflexivity.
Defined.

(** X11 at user 42, who has two warnings that cannot be read. *)
Lemma X11_user_42_arrives_at_count_1 :
  newCount (Cases.countersDown Sample.noon) Cases.twoStrikes 42 7 = 1.
Proof.
  refine (proj1 (X11_no_ban_while_counters_unreachable
                   (Cases.countersDown Sample.noon) Cases.twoStrikes 42 7
                   (MediaViolation Bot.Image) _)).
  discriminate.
Defined.

(** X12 at the third violation of user 42, with the ban refused. *)
Lemma X12_count_3_kept_for_user_42 :
  storedCount (fst (escalate (Cases.banRefused Sample.noon) Cases.twoStrikes 42 7
                             (TextViolation 1001))) 42 7
  = storedCount Cases.twoStrikes 42 7 + 1 /\
  In (Bot.BanChatMember 7 42, Bot.banChatMemberOk (Cases.banRefused Sample.noon))
     (snd (escalate (Cases.banRefused Sample.noon) Cases.twoStrikes 42 7
                    (TextViolation 1001))).
Proof.
  apply (X12_count_kept_when_ban_or_notice_fails (Cases.banRefused Sample.noon)
           Cases.twoStrikes 42 7 (TextViolation 1001)).
  - discriminate.
  - discriminate.
  - repeat split.
  - vm_compute. discriminate.
  - vm_compute. discriminate.
  - left. reflexivity.
Defined.

(** X14 at the state with two warnings and an abusive text. *)
Lemma X14_counts_stay_non_negative_for_user_42 :
  CountsNonNegative
    (fst (Bot.onMessageText (Sample.allGood Sample.noon) Cases.twoStrikes
            Sample.abusiveText)).
Proof.
  refine (proj1 (X14_counts_never_negative (Sample.allGood Sample.noon)
                   Cases.twoStrikes _) Sample.abusiveText).
  intros k c H. unfold Cases.twoStrikes in H.
  cbn [Bot.userWarningsAcrossSessions] in H.
  apply lookup_singleton_Some in H as [_ <-]. lia.
Defined.

(** X15 at the abusive text, sent by an administrator. *)
Lemma X15_administrator_is_not_counted :
  durable (fst (Bot.onMessageText (Cases.administrator Sample.noon true)
                  Cases.twoStrikes Sample.abusiveText))
  = durable Cases.twoStrikes.
Proof.
  refine (proj1 (proj1 (X15_exempt_senders_are_left_alone
                          (Cases.administrator Sample.noon true) Cases.twoStrikes)
                       Sample.abusiveText _)).
  left. reflexivity.
Defined.

(** X16 at the abusive text of user 42: the deletion is of message
    1001. *)
Lemma X16_deletion_of_message_1001 :
  Bot.DeleteMessage 7 1001
    = Bot.DeleteMessage (Bot.textChat Sample.abusiveText)
                        (Bot.textMessageId Sample.abusiveText) \/
  exists u, Bot.textFrom Sample.abusiveText = Some u /\
            Bot.DeleteMessage 7 1001
              = Bot.BanChatMember (Bot.textChat Sample.abusiveText) u.
Proof.
  refine (proj1 (X16_only_the_event_message_and_sender (Sample.allGood Sample.noon)
                   Sample.fresh)
                Sample.abusiveText (Bot.DeleteMessage 7 1001) true _ _).
  - vm_compute. left. reflexivity.
  - reflexivity.
Defined.

(** X17 at the state with the reminder of group 7. *)
Lemma X17_rules_keep_a_positive_interval :
  IntervalsPositive (fst (Bot.tick (Sample.allGood Sample.noon) Cases.withRules)).
Proof.
  refine (proj2 (proj2 (X17_alert_intervals_stay_positive Cases.withRules _))
                (Sample.allGood Sample.noon)).
  repeat constructor.
Defined.

(** X19 at [/addword] of an ordinary member. *)
Lemma X19_member_cannot_add_a_word :
  fst (addword (Sample.allGood Sample.noon) Sample.fresh Cases.addIdiot) = Sample.fresh.
Proof.
  refine (proj1 (proj1 (X19_non_admins_change_nothing Sample.fresh)
                       (Sample.allGood Sample.noon) Cases.addIdiot _)).
  reflexivity.
Defined.

(** X20 at group 7 without stored settings: the first press switches
    abusive-word detection off. *)
Lemma X20_first_toggle_in_group_7_disables :
  snd (handleToggle AbusiveWords Cases.handlesReady Sample.fresh 7) = false.
Proof.
  refine (proj1 (X20_toggle_flips_one_flag AbusiveWords Cases.handlesReady
                   Sample.fresh 7 _ _ _)).
  - discriminate.
  - reflexivity.
  - reflexivity.
Defined.

(** X21 at group 7 with the settings collection disconnected for the
    write. *)
Lemma X21_toggle_without_write_in_group_7 :
  fst (handleToggle ImageModeration Cases.handlesNoWrite Sample.fresh 7) = Sample.fresh.
Proof.
  refine (proj1 (X21_toggle_answer_without_write ImageModeration Cases.handlesNoWrite
                   Sample.fresh 7 _)).
  discriminate.
Defined.

(** X22 at [/addword  Idiot ] of an administrator while the file cannot
    be written. *)
Lemma X22_idiot_reported_as_already_listed :
  snd (addword (Cases.administrator Sample.noon false) Sample.fresh Cases.addIdiot)
    = Some (AlreadyInList " Idiot ") <->
  ~ In (normalize " Idiot ") (Bot.abusiveWords Sample.fresh) /\
  Bot.writeFileOk (Cases.administrator Sample.noon false) = false.
Proof.
  refine (proj1 (proj2 (X22_addword_answers (Cases.administrator Sample.noon false)
                          Sample.fresh Cases.addIdiot 1 _ _ _ _ _))).
  - reflexivity.
  - reflexivity.
  - discriminate.
  - reflexivity.
  - discriminate.
Defined.



(** X25 at a word added in group 7 and a text in group 8. *)
Lemma X25_idiot_flagged_in_group_8 :
  Bot.containsAbusiveWord (Sample.allGood Sample.noon)
    (fst (Bot.addAbusiveWord (Cases.administrator Sample.noon true) Sample.fresh
            " Idiot " (Some 7)))
    (Some "you Idiot") (Some 8) = true.
Proof.
  apply (X25_added_word_is_matched_in_every_chat
           (Cases.administrator Sample.noon true) (Sample.allGood Sample.noon)
           Sample.fresh " Idiot " (Some 7) (Some 8) "you Idiot").
  - discriminate.
  - intros _. vm_compute. reflexivity.
  - exists "you ", EmptyString. repeat split.
Defined.

(** X27 at a payload that holds the encoded capitalised spelling. *)
Lemma X27_encoded_capitalised_spelling_flagged :
  OpenAI.reason (OpenAI.cascade Cases.passing "U2x1dA==")
    = "Direct pattern matching: Detected explicit text" /\
  (includes "U2x1dA==" "U1VMVA==" = true \/ includes "U2x1dA==" "U2x1dA==" = true).
Proof.
  apply (X27_direct_stage_flags_two_patterns_only Cases.passing "U2x1dA==").
  - vm_compute. reflexivity.
  - vm_compute. tauto.
Defined.

(** X28 at a payload that holds a listed term while nothing remote
    answers: the cascade ends at the scan of the payload. *)
Lemma X28_listed_term_during_an_outage :
  OpenAI.isInappropriate (OpenAI.cascade Sample.offline "xslutx") = true /\
  OpenAI.entered (OpenAI.cascade Sample.offline "xslutx")
  = [OpenAI.Primary; OpenAI.Secondary; OpenAI.PatternScan].
Proof.
  refine (X28_local_stages_decide_during_an_outage Sample.offline "xslutx" _ _).
  - reflexivity.
  - intros p. reflexivity.
Defined.

(** X29 at the photo of user 42 while no key is configured. *)
Lemma X29_photo_passes_without_key :
  fst (Bot.onMessageMedia (Sample.allGood Sample.noon) Sample.fresh Sample.photo)
  = Sample.fresh.
Proof.
  refine (proj1 (X29_media_pass_without_api_key (Sample.allGood Sample.noon)
                   Sample.fresh Sample.photo _)).
  left. reflexivity.
Defined.

(** X30 at the default list and one of its words, capitalised. *)
Lemma X30_default_word_removed :
  ~ In (normalize "Fuck")
       (Bot.abusiveWords
          (fst (Bot.removeAbusiveWord (Sample.allGood Sample.noon) Sample.fresh
                  "Fuck" (Some 7)))).
Proof.
  refine (proj2 (proj2 (X30_global_list_stays_normalized (Sample.allGood Sample.noon)
                          Sample.fresh "Fuck" (Some 7) _))).
  split.
  - apply (bool_decide_unpack _). vm_compute. exact I.
  - repeat constructor.
Defined.

End FurtherInstances.
